(** * LLM orchestrator: routing scorer and bounded memory store

    A shallow embedding of [src/agents/orchestrator_agent.py]
    ([IntelligentRouter], [MemoryManager]) and the properties of its
    specification.

    Conventions of the embedding:
    - Python [str] is [string]; the text is taken to be ASCII, so that
      [str.lower] and [str.split] are the ASCII ones and a character is
      a byte; the statements about the case of letters say so in a
      hypothesis ([Spec.ascii_text]);
    - Python [int] is [Z] where it can be negative or is configured, [nat]
      where it is a length;
    - Python [float] is an exact rational [Q] in the router and the
      memory store: no rounding, no infinities or NaNs. What is stated of
      them is the order of scores, the decision taken and sums in the order
      in which the code adds. Where rounding decides, the scores are
      given a second time with every operation rounded ([Rounded]) and
      a third time on binary64 itself ([Binary64]);
    - a [dict] whose iteration order matters is an association list in
      insertion order;
    - [try: ... except: continue] is an [option]: [None] is the raised
      exception. *)

From Stdlib Require Import List String Ascii Bool Arith ZArith QArith Qminmax.
From Stdlib Require Import Qabs Qround Qpower Lia Lqa ListSet DecimalString.
From Stdlib Require Import PrimFloat.
From Stdlib Require FloatOps SpecFloat.
Import ListNotations.

(** A decimal of the code is read as the binary64 number nearest to it. *)
Set Warnings "-inexact-float".

(* ================================================================== *)
(** ** Python built-ins used by the source *)

Module Py.

Open Scope string_scope.

(** [c.lower()] for one ASCII character. *)
Definition lower_char (c : ascii) : ascii :=
  let n := nat_of_ascii c in
  if (65 <=? n)%nat && (n <=? 90)%nat then ascii_of_nat (n + 32) else c.

(** [s.lower()] *)
Fixpoint lower (s : string) : string :=
  match s with
  | EmptyString => EmptyString
  | String c rest => String (lower_char c) (lower rest)
  end.

(** The ASCII characters on which [str.split()] separates: tab, line feed,
    vertical tab, form feed, carriage return, the four separators
    0x1c-0x1f and the space. *)
Definition is_space (c : ascii) : bool :=
  let n := nat_of_ascii c in
  ((9 <=? n)%nat && (n <=? 13)%nat) || ((28 <=? n)%nat && (n <=? 32)%nat).

(** [s.split()]: the maximal runs of non-space characters, in order.
    [cur] is the word being read. *)
Fixpoint split_from (cur : string) (s : string) : list string :=
  match s with
  | EmptyString => match cur with EmptyString => [] | _ => [cur] end
  | String c rest =>
      if is_space c
      then match cur with
           | EmptyString => split_from EmptyString rest
           | _ => cur :: split_from EmptyString rest
           end
      else split_from (cur ++ String c EmptyString) rest
  end.

Definition split (s : string) : list string := split_from EmptyString s.

(** [sub in s] on strings: substring containment. *)
Fixpoint contains (sub s : string) : bool :=
  String.prefix sub s ||
  match s with
  | EmptyString => false
  | String _ rest => contains sub rest
  end.

(** [x in l] on a list of strings. *)
Definition mem (x : string) (l : list string) : bool :=
  existsb (String.eqb x) l.

(** [sep.join(l)] *)
Definition join (sep : string) (l : list string) : string :=
  String.concat sep l.

(** [str(n)] for a length. *)
Definition str_of_nat (n : nat) : string :=
  NilEmpty.string_of_uint (Nat.to_uint n).

(** [d.get(k, default)] on a dict kept as an association list. *)
Fixpoint dict_get {V : Type} (k : string) (default : V)
         (d : list (string * V)) : V :=
  match d with
  | [] => default
  | (k', v) :: rest => if String.eqb k k' then v else dict_get k default rest
  end.

(** [d.get(k)] with no default: [None] stands for Python's [None] only
    where the caller says so; here it is the absence of the key. *)
Fixpoint dict_find {V : Type} (k : string) (d : list (string * V))
  : option V :=
  match d with
  | [] => None
  | (k', v) :: rest => if String.eqb k k' then Some v else dict_find k rest
  end.

(** [set(l)]: the elements of [l] without repetition (Stdlib [ListSet]). *)
Definition to_set (l : list string) : set string :=
  fold_left (fun s w => set_add string_dec w s) l (empty_set string).

(** [a > b] on numbers. *)
Definition gtb (a b : Q) : bool := negb (Qle_bool a b).

(** [l[i:]] and [l[:i]] with Python's index normalisation: a negative
    index counts from the end, and both are clipped to [0, len(l)]. *)
Definition slice_index (i : Z) (len : nat) : nat :=
  if (i <? 0)%Z
  then Z.to_nat (Z.max 0 (i + Z.of_nat len))
  else Nat.min (Z.to_nat i) len.

Definition slice_from {A : Type} (i : Z) (l : list A) : list A :=
  skipn (slice_index i (List.length l)) l.

Definition slice_to {A : Type} (i : Z) (l : list A) : list A :=
  firstn (slice_index i (List.length l)) l.

End Py.

(* ================================================================== *)
(** ** JSON documents and messages *)

(** The values [json.dumps] writes and [json.loads] reads. *)
#[warnings="-register-all"]
Inductive json : Type :=
| JNull
| JBool (b : bool)
| JNum (q : Q)
| JStr (s : string)
| JList (l : list json)
| JObj (fields : list (string * json)).

(** The text of a message. [json.dumps] and [json.loads] belong to
    Python's standard library and are inverse to each other on documents;
    a text is therefore kept as the document it encodes ([Doc v] is the
    text [json.dumps(v)]), or as [Raw s] when [json.loads] rejects it. *)
Inductive text : Type :=
| Doc (v : json)
| Raw (s : string).

Definition json_dumps (v : json) : text := Doc v.

Definition json_loads (t : text) : option json :=
  match t with
  | Doc v => Some v
  | Raw _ => None
  end.

(** [Msg] of the source (the fallback class used without AgentScope). *)
Record Msg : Type := mkMsg { content : text; role : string }.

(** [data.get(k, default)] where [data] came out of [json.loads]:
    [None] is the [AttributeError] raised when [data] is not a dict. *)
Definition data_get (data : json) (k : string) (default : json)
  : option json :=
  match data with
  | JObj fields => Some (Py.dict_get k default fields)
  | _ => None
  end.

(* ================================================================== *)
(** ** IntelligentRouter *)

Module Router.

Open Scope string_scope.
Open Scope Q_scope.

(** One entry of [self.model_info]. *)
Record ModelInfo : Type := mkModelInfo {
  cost_per_token : Q;
  avg_latency : Q;
  capabilities : list string;
  max_context : Z
}.

Record RoutingDecision : Type := mkRoutingDecision {
  model : string;
  reasoning : string;
  confidence : Q;
  estimated_cost : Q;
  estimated_latency : Q
}.

(** The attributes [__init__] sets. [model_info] is a dict literal, kept
    in its insertion order, which is the order of [.items()]. *)
Record IntelligentRouter : Type := mkRouter {
  local_models : list string;
  cloud_models : list string;
  cost_threshold : Q;
  latency_threshold : Q;
  quality_threshold : Q;
  model_info : list (string * ModelInfo)
}.

(** The [config] dict of [__init__], one optional entry per key read. *)
Record Config : Type := mkConfig {
  cfg_local_models : option (list string);
  cfg_cloud_models : option (list string);
  cfg_cost_threshold : option Q;
  cfg_latency_threshold : option Q;
  cfg_quality_threshold : option Q
}.

Definition builtin_model_info : list (string * ModelInfo) :=
  [ ("llama3.1:8b",
     mkModelInfo 0 50 ["general"; "reasoning"] 128000);
    ("llama3.1:70b",
     mkModelInfo 0 200 ["general"; "reasoning"; "complex"] 128000);
    ("codellama:13b",
     mkModelInfo 0 100 ["code"; "programming"] 16000);
    ("gpt-4o-mini",
     mkModelInfo 0.00015 800
       ["general"; "reasoning"; "complex"; "multimodal"] 128000);
    ("gpt-4o",
     mkModelInfo 0.005 1200
       ["general"; "reasoning"; "complex"; "multimodal"; "advanced"]
       128000) ].

Definition get_or {A : Type} (o : option A) (default : A) : A :=
  match o with Some x => x | None => default end.

(** [IntelligentRouter.__init__] *)
Definition init (config : Config) : IntelligentRouter :=
  mkRouter (get_or (cfg_local_models config) ["llama3.1:8b"])
           (get_or (cfg_cloud_models config) ["gpt-4o-mini"])
           (get_or (cfg_cost_threshold config) 0.001)
           (get_or (cfg_latency_threshold config) 2000)
           (get_or (cfg_quality_threshold config) 0.8)
           builtin_model_info.

(** The dict [analyze_query_complexity] returns. *)
Record Analysis : Type := mkAnalysis {
  general_complexity : Q;
  code_requirement : Q;
  multimodal_requirement : Q;
  math_requirement : Q
}.

Definition reasoning_keywords : list string :=
  ["analyze"; "compare"; "evaluate"; "explain why"; "reasoning"; "logic"].
Definition code_keywords : list string :=
  ["code"; "programming"; "function"; "algorithm"; "debug"; "implement"].
Definition multimodal_keywords : list string :=
  ["image"; "picture"; "visual"; "diagram"; "chart"].
Definition math_keywords : list string :=
  ["calculate"; "equation"; "formula"; "mathematics"; "statistics"].

(** [any(keyword in query_lower for keyword in keywords)] *)
Definition any_keyword (keywords : list string) (query_lower : string)
  : bool :=
  existsb (fun keyword => Py.contains keyword query_lower) keywords.

(** [IntelligentRouter.analyze_query_complexity] *)
Definition analyze_query_complexity (query : string)
           (context : option string) : Analysis :=
  let query_lower := Py.lower query in
  let complexity_score := 0 in
  let complexity_score :=
    if (500 <? String.length query)%nat
    then complexity_score + 0.2 else complexity_score in
  let complexity_score :=
    if any_keyword reasoning_keywords query_lower
    then complexity_score + 0.3 else complexity_score in
  let code_score :=
    if any_keyword code_keywords query_lower then 0.5 else 0 in
  let multimodal_score :=
    if any_keyword multimodal_keywords query_lower then 0.8 else 0 in
  let math_score :=
    if any_keyword math_keywords query_lower then 0.4 else 0 in
  mkAnalysis (Qmin complexity_score 1) code_score multimodal_score
             math_score.

(** [user_preferences]: a dict from names to numbers, or [None]. *)
Definition Prefs : Type := list (string * Q).

Definition cost_weight (user_prefs : Prefs) : Q :=
  Py.dict_get "cost_priority" 0.7 user_prefs.
Definition speed_weight (user_prefs : Prefs) : Q :=
  Py.dict_get "speed_priority" 0.2 user_prefs.
Definition quality_weight (user_prefs : Prefs) : Q :=
  Py.dict_get "quality_priority" 0.1 user_prefs.

(** The three partial scores of the loop body. *)
Definition cost_score (info : ModelInfo) : Q :=
  if Qeq_bool (cost_per_token info) 0 then 1
  else Qmax 0 (1 - cost_per_token info * 1000).

Definition speed_score (info : ModelInfo) : Q :=
  Qmax 0 (1 - avg_latency info / 2000).

Definition quality_score (analysis : Analysis) (info : ModelInfo) : Q :=
  let quality_score := 0.5 in
  if Py.gtb (code_requirement analysis) 0.5
     && Py.mem "code" (capabilities info)
  then quality_score + 0.3
  else if Py.gtb (multimodal_requirement analysis) 0.5
          && Py.mem "multimodal" (capabilities info)
  then quality_score + 0.4
  else if Py.gtb (general_complexity analysis) 0.7
          && Py.mem "complex" (capabilities info)
  then quality_score + 0.3
  else quality_score.

(** [score] at the end of the loop body. *)
Definition total_score (analysis : Analysis) (user_prefs : Prefs)
           (info : ModelInfo) : Q :=
  let score := 0 in
  let score := score + cost_score info * cost_weight user_prefs in
  let score := score + speed_score info * speed_weight user_prefs in
  let score :=
    score + quality_score analysis info * quality_weight user_prefs in
  score.

(** The variables the loop of [route_query] updates. *)
Record Best : Type := mkBest {
  best_model : option string;
  best_score : Q;
  reasoning_parts : list string
}.

Definition initial_best : Best := mkBest None (-1) [].

Section Formatting.

(** Python's [format(x, '.2f')], a built-in of the language. *)
Variable fmt2f : Q -> string.

(** One iteration of [for model, info in self.model_info.items()]. *)
Definition consider (r : IntelligentRouter) (analysis : Analysis)
           (user_prefs : Prefs) (best : Best)
           (entry : string * ModelInfo) : Best :=
  let (model, info) := entry in
  if Py.mem model (local_models r) || Py.mem model (cloud_models r)
  then
    let score := total_score analysis user_prefs info in
    if Py.gtb score (best_score best)
    then mkBest (Some model) score
           [ "Cost score: " ++ fmt2f (cost_score info);
             "Speed score: " ++ fmt2f (speed_score info);
             "Quality score: " ++ fmt2f (quality_score analysis info);
             "Total score: " ++ fmt2f score ]
    else best
  else best.

Definition scoring_loop (r : IntelligentRouter) (analysis : Analysis)
           (user_prefs : Prefs) : Best :=
  fold_left (consider r analysis user_prefs) (model_info r) initial_best.

(** [not best_model]: [None] and the empty string are false. *)
Definition falsy (best_model : option string) : bool :=
  match best_model with
  | None => true
  | Some EmptyString => true
  | Some _ => false
  end.

(** The fallback of [if not best_model]. *)
Definition fallback (r : IntelligentRouter) (best : Best) : Best :=
  if falsy (best_model best)
  then mkBest (Some match local_models r with
                    | first :: _ => first
                    | [] => "gpt-4o-mini"
                    end)
              (best_score best)
              ["Fallback to default model"]
  else best.

(** [IntelligentRouter.route_query] *)
Definition route_query (r : IntelligentRouter) (query : string)
           (context : option string) (user_preferences : option Prefs)
  : RoutingDecision :=
  let analysis := analyze_query_complexity query context in
  let user_prefs := get_or user_preferences [] in
  let best := fallback r (scoring_loop r analysis user_prefs) in
  let best_model := get_or (best_model best) EmptyString in
  let model_info := Py.dict_find best_model (model_info r) in
  mkRoutingDecision
    best_model
    (Py.join "; " (reasoning_parts best))
    (best_score best)
    (match model_info with
     | Some info => cost_per_token info
     | None => 0
     end * inject_Z (Z.of_nat (List.length (Py.split query))))
    (match model_info with
     | Some info => avg_latency info
     | None => 1000
     end).

End Formatting.

End Router.

(* ================================================================== *)
(** ** The scores in floating point

    Python's [float] is IEEE 754 binary64: every operation returns the
    exact result rounded to the nearest number of the format. Here the
    scores are rationals and [rnd] is the rounding, a parameter: what is
    proved of them holds for every rounding that never reverses the
    order of two numbers and leaves 0 and 1 as they are, as the rounding
    of binary64 does ([Binary64.round]). *)

Module Rounded.

Open Scope string_scope.
Open Scope Q_scope.

Section Scores.

Variable rnd : Q -> Q.

(** [a + b], [a - b], [a * b] and [a / b] on floats. *)
Definition add (a b : Q) : Q := rnd (a + b).
Definition sub (a b : Q) : Q := rnd (a - b).
Definition mul (a b : Q) : Q := rnd (a * b).
Definition div (a b : Q) : Q := rnd (a / b).

(** The weights, a decimal of the code being the float nearest to it. *)
Definition cost_weight (user_prefs : Router.Prefs) : Q :=
  Py.dict_get "cost_priority" (rnd 0.7) user_prefs.
Definition speed_weight (user_prefs : Router.Prefs) : Q :=
  Py.dict_get "speed_priority" (rnd 0.2) user_prefs.
Definition quality_weight (user_prefs : Router.Prefs) : Q :=
  Py.dict_get "quality_priority" (rnd 0.1) user_prefs.

(** The three partial scores of the loop body of [route_query]. *)
Definition cost_score (info : Router.ModelInfo) : Q :=
  if Qeq_bool (Router.cost_per_token info) 0 then 1
  else Qmax 0 (sub 1 (mul (Router.cost_per_token info) 1000)).

Definition speed_score (info : Router.ModelInfo) : Q :=
  Qmax 0 (sub 1 (div (Router.avg_latency info) 2000)).

Definition quality_score (analysis : Router.Analysis)
           (info : Router.ModelInfo) : Q :=
  let quality_score := rnd 0.5 in
  if Py.gtb (Router.code_requirement analysis) 0.5
     && Py.mem "code" (Router.capabilities info)
  then add quality_score (rnd 0.3)
  else if Py.gtb (Router.multimodal_requirement analysis) 0.5
          && Py.mem "multimodal" (Router.capabilities info)
  then add quality_score (rnd 0.4)
  else if Py.gtb (Router.general_complexity analysis) 0.7
          && Py.mem "complex" (Router.capabilities info)
  then add quality_score (rnd 0.3)
  else quality_score.

(** [score] at the end of the loop body. *)
Definition total_score (analysis : Router.Analysis)
           (user_prefs : Router.Prefs) (info : Router.ModelInfo) : Q :=
  let score := 0 in
  let score := add score (mul (cost_score info) (cost_weight user_prefs)) in
  let score :=
    add score (mul (speed_score info) (speed_weight user_prefs)) in
  let score :=
    add score
        (mul (quality_score analysis info) (quality_weight user_prefs)) in
  score.

(** The advantage of one backend over another: the difference of their
    total scores. *)
Definition advantage (analysis : Router.Analysis)
           (user_prefs : Router.Prefs) (ahead behind : Router.ModelInfo)
  : Q :=
  sub (total_score analysis user_prefs ahead)
      (total_score analysis user_prefs behind).

End Scores.

End Rounded.

(* ================================================================== *)
(** ** The scores in binary64

    The rounding of binary64 on the rationals, and the same loop body on
    the kernel's binary64 numbers, which are Python's [float]: the
    scores as the code computes them, bit for bit. *)

Module Binary64.

Open Scope Q_scope.

(** The integer nearest to [s], a tie going to the even one. *)
Definition nearest_even (s : Q) : Z :=
  let f := Qfloor s in
  match Qcompare (s - inject_Z f) (1 # 2) with
  | Lt => f
  | Gt => (f + 1)%Z
  | Eq => if Z.even f then f else (f + 1)%Z
  end.

(** The binary exponent of a positive number: the [e] with
    [2 ^ e <= q < 2 ^ (e + 1)]. *)
Definition exponent (q : Q) : Z :=
  let k := (Z.log2 (Qnum q) - Z.log2 (Z.pos (Qden q)))%Z in
  if Qle_bool (2 ^ k) q then k else (k - 1)%Z.

(** A positive number rounded to 53 significant bits. *)
Definition round_positive (q : Q) : Q :=
  let e := (exponent q - 52)%Z in
  inject_Z (nearest_even (q / 2 ^ e)) * 2 ^ e.

(** The binary64 number nearest to [q], a tie going to the even
    significand; the exponent is left unbounded, so nothing overflows
    and nothing is subnormal. *)
Definition round (q : Q) : Q :=
  match Qcompare q 0 with
  | Eq => 0
  | Gt => round_positive q
  | Lt => - round_positive (- q)
  end.

(** The rational a finite float stands for. *)
Definition value (x : float) : Q :=
  match FloatOps.Prim2SF x with
  | SpecFloat.S754_finite sign m e =>
      (if sign then -1 else 1) * inject_Z (Z.pos m) * 2 ^ e
  | _ => 0
  end.

Open Scope float_scope.

(** [max(0, x)]: [x] when it is greater than 0. *)
Definition max0 (x : float) : float := if 0 <? x then x else 0.

Definition cost_score (cost_per_token : float) : float :=
  if cost_per_token =? 0 then 1 else max0 (1 - cost_per_token * 1000).

Definition speed_score (avg_latency : float) : float :=
  max0 (1 - avg_latency / 2000).

(** [score] at the end of the loop body, for a model with the given cost
    per token, latency and quality score. *)
Definition total_score (cost_per_token avg_latency quality_score
                        cost_weight speed_weight quality_weight : float)
  : float :=
  let score := 0 in
  let score := score + cost_score cost_per_token * cost_weight in
  let score := score + speed_score avg_latency * speed_weight in
  let score := score + quality_score * quality_weight in
  score.

(** The advantage of a free backend over one that costs [paid_cost] per
    token, with the same latency and quality score. *)
Definition advantage (paid_cost avg_latency quality_score
                      cost_weight speed_weight quality_weight : float)
  : float :=
  total_score 0 avg_latency quality_score
              cost_weight speed_weight quality_weight
  - total_score paid_cost avg_latency quality_score
                cost_weight speed_weight quality_weight.

End Binary64.

(* ================================================================== *)
(** ** MemoryManager *)

(** The order in which Python iterates over a [set] of strings. It
    follows the hashes of the strings, which the language leaves
    unspecified (and which change from one process to the next), so it is
    an interface: [set_list history] is [list(s)] for the set [s] built by
    adding the words of [history] in that order. Every element comes out
    once; nothing more is known. *)
Class SetOrder : Type := mkSetOrder {
  set_list : list string -> list string;
  set_list_NoDup : forall history, NoDup (set_list history);
  set_list_In : forall history w, In w (set_list history) <-> In w history
}.

Module Memory.

Open Scope string_scope.

(** [MemoryBank] is the list [self.memory]; [add] appends. *)
Definition bank_add (memory : list Msg) (msg : Msg) : list Msg :=
  (memory ++ [msg])%list.

Record MemoryManager : Type := mkMemoryManager {
  memory_bank : list Msg;
  compression_threshold : Z;
  max_memory_size : Z
}.

Record Config : Type := mkConfig {
  cfg_compression_threshold : option Z;
  cfg_max_memory_size : option Z
}.

(** [MemoryManager.__init__] *)
Definition init (config : Config) : MemoryManager :=
  mkMemoryManager []
    (Router.get_or (cfg_compression_threshold config) 10%Z)
    (Router.get_or (cfg_max_memory_size config) 100%Z).

(** What [total_cost += v] adds: a number, or a boolean taken as 0 or 1;
    [None] is the [TypeError] of any other value. *)
Definition as_number (v : json) : option Q :=
  match v with
  | JNum q => Some q
  | JBool b => Some (if b then 1%Q else 0%Q)
  | _ => None
  end.

(** The two accumulators of the loop of [_create_summary]; [topics] is
    kept as the sequence of words added to the set. *)
Record Folded : Type := mkFolded {
  topics : list string;
  total_cost : Q
}.

(** The body of [for msg in memories], with its [try]. The words are
    added before the cost is read, so a record whose cost is not a number
    still leaves its words. *)
Definition fold_memory (acc : Folded) (msg : Msg) : Folded :=
  match json_loads (content msg) with
  | None => acc
  | Some data =>
      match data_get data "query" (JStr EmptyString) with
      | Some (JStr query) =>
          let query_words := Py.split (Py.lower query) in
          let topics :=
            (topics acc ++
             filter (fun word => (4 <? String.length word)%nat)
                    query_words)%list in
          match data_get data "cost" (JNum 0) with
          | Some cost =>
              match as_number cost with
              | Some c => mkFolded topics (total_cost acc + c)%Q
              | None => mkFolded topics (total_cost acc)
              end
          | None => mkFolded topics (total_cost acc)
          end
      | _ => acc
      end
  end.

Definition fold_memories (memories : list Msg) : Folded :=
  fold_left fold_memory memories (mkFolded [] 0%Q).

Section Summary.

Context {order : SetOrder}.

(** [list(topics)[:10]] *)
Definition main_topics (memories : list Msg) : list string :=
  firstn 10 (set_list (topics (fold_memories memories))).

(** The dict [summary] of [_create_summary]. *)
Definition summary_dict (memories : list Msg) : json :=
  let total_interactions := List.length memories in
  JObj [ ("type", JStr "compressed_summary");
         ("period",
          JStr (Py.str_of_nat total_interactions ++ " interactions"));
         ("total_cost", JNum (total_cost (fold_memories memories)));
         ("main_topics", JList (map JStr (main_topics memories)));
         ("compressed_at", JStr "timestamp_here") ].

(** [MemoryManager._create_summary] *)
Definition create_summary (memories : list Msg) : text :=
  json_dumps (summary_dict memories).

(** [MemoryManager._compress_memory] *)
Definition compress_memory (mm : MemoryManager) : MemoryManager :=
  let memory := memory_bank mm in
  if (Z.of_nat (List.length memory) >? compression_threshold mm)%Z
  then
    let recent_memories :=
      Py.slice_from (- compression_threshold mm) memory in
    let old_memories :=
      Py.slice_to (- compression_threshold mm) memory in
    let summary := create_summary old_memories in
    mkMemoryManager
      (fold_left bank_add recent_memories
                 (bank_add [] (mkMsg summary "summary")))
      (compression_threshold mm)
      (max_memory_size mm)
  else mm.

(** The dict [interaction] of [add_interaction]; [metadata] is a dict of
    JSON values, and [metadata.get(k)] is [null] when the key is
    absent. *)
Definition interaction (query response : string)
           (metadata : list (string * json)) : json :=
  JObj [ ("query", JStr query);
         ("response", JStr response);
         ("timestamp", Py.dict_get "timestamp" JNull metadata);
         ("model_used", Py.dict_get "model" JNull metadata);
         ("cost", Py.dict_get "cost" (JNum 0) metadata);
         ("latency", Py.dict_get "latency" (JNum 0) metadata) ].

(** [MemoryManager.add_interaction] *)
Definition add_interaction (mm : MemoryManager) (query response : string)
           (metadata : list (string * json)) : MemoryManager :=
  let interaction := interaction query response metadata in
  let mm :=
    mkMemoryManager
      (bank_add (memory_bank mm) (mkMsg (json_dumps interaction) "memory"))
      (compression_threshold mm)
      (max_memory_size mm) in
  if (Z.of_nat (List.length (memory_bank mm)) >? max_memory_size mm)%Z
  then compress_memory mm
  else mm.

(** The arguments of one call of [add_interaction]. *)
Definition Call : Type := (string * string * list (string * json))%type.

(** A manager made by [__init__] and then driven by a sequence of calls
    of [add_interaction]. *)
Definition replay (config : Config) (calls : list Call) : MemoryManager :=
  fold_left
    (fun mm (call : Call) =>
       let '(query, response, metadata) := call in
       add_interaction mm query response metadata)
    calls (init config).

End Summary.

(** The [try] block of the loop of [retrieve_relevant_context] for one
    message: [None] when it raises, otherwise the text it appends, if
    any. *)
Definition visit (query_words : set string) (msg : Msg)
  : option (option text) :=
  if String.eqb (role msg) "summary"
  then Some (Some (content msg))
  else
    match json_loads (content msg) with
    | None => None
    | Some data =>
        match data_get data "query" (JStr EmptyString) with
        | Some (JStr query) =>
            let msg_words := Py.to_set (Py.split (Py.lower query)) in
            let overlap :=
              List.length (set_inter string_dec query_words msg_words) in
            if (0 <? overlap)%nat
            then Some (Some (content msg))
            else Some None
        | _ => None
        end
    end.

(** The loop over [reversed(memory)]: [except: continue] goes to the
    next message without the test of the length, and [break] leaves with
    what was collected. *)
Fixpoint scan (query_words : set string) (max_items : Z)
         (msgs : list Msg) (relevant_items : list text) : list text :=
  match msgs with
  | [] => relevant_items
  | msg :: rest =>
      match visit query_words msg with
      | None => scan query_words max_items rest relevant_items
      | Some appended =>
          let relevant_items :=
            match appended with
            | Some item => (relevant_items ++ [item])%list
            | None => relevant_items
            end in
          if (Z.of_nat (List.length relevant_items) >=? max_items)%Z
          then relevant_items
          else scan query_words max_items rest relevant_items
      end
  end.

(** [relevant_items] when the loop of [retrieve_relevant_context] is
    left. *)
Definition relevant_items (mm : MemoryManager) (query : string)
           (max_items : Z) : list text :=
  let memory := memory_bank mm in
  let query_words := Py.to_set (Py.split (Py.lower query)) in
  scan query_words max_items (rev memory) [].

Definition newline : string := String (ascii_of_nat 10) EmptyString.

(** [MemoryManager.retrieve_relevant_context]; [characters] gives the
    characters of a stored text. *)
Definition retrieve_relevant_context (characters : text -> string)
           (mm : MemoryManager) (query : string) (max_items : Z)
  : string :=
  Py.join newline (map characters (relevant_items mm query max_items)).

End Memory.

(* ================================================================== *)
(** ** The specification's own formulas *)

Module Spec.

Open Scope string_scope.

(** [sub] occurs in [s] as a substring. *)
Definition substring_of (sub s : string) : Prop :=
  exists before after, s = before ++ sub ++ after.

(** Text of ASCII characters only, the text the embedding stands for:
    on it a character is a byte, and [str.lower], [str.upper] and
    [str.split] are what [Py.lower], the upper-casing of the examples and
    [Py.split] compute. *)
Fixpoint ascii_text (s : string) : bool :=
  match s with
  | EmptyString => true
  | String c rest => (nat_of_ascii c <? 128)%nat && ascii_text rest
  end.

(** The keyword sets as the specification lists them. *)
Definition reasoning_set : list string :=
  ["analyze"; "compare"; "evaluate"; "explain why"; "reasoning"; "logic"].
Definition code_set : list string :=
  ["code"; "programming"; "function"; "algorithm"; "debug"; "implement"].
Definition multimodal_set : list string :=
  ["image"; "picture"; "visual"; "diagram"; "chart"].
Definition math_set : list string :=
  ["calculate"; "equation"; "formula"; "mathematics"; "statistics"].

(** Two characters that differ at most in case: the same character, or
    one of the capital letters A to Z and its small letter, which stands
    32 places further. *)
Definition capital (c : ascii) : bool :=
  (65 <=? nat_of_ascii c)%nat && (nat_of_ascii c <=? 90)%nat.

Definition same_letter (c d : ascii) : bool :=
  Ascii.eqb c d
  || (capital c && (nat_of_ascii d =? nat_of_ascii c + 32)%nat)
  || (capital d && (nat_of_ascii c =? nat_of_ascii d + 32)%nat).

(** Two texts that differ at most in the case of their letters. *)
Fixpoint same_text (s t : string) : bool :=
  match s, t with
  | EmptyString, EmptyString => true
  | String c s', String d t' => same_letter c d && same_text s' t'
  | _, _ => false
  end.

(** [keyword] stands at the start of [s], and somewhere in [s], whatever
    the case of the letters. *)
Fixpoint starts_ignoring_case (keyword s : string) : bool :=
  match keyword, s with
  | EmptyString, _ => true
  | String k keyword', String c s' =>
      same_letter k c && starts_ignoring_case keyword' s'
  | String _ _, EmptyString => false
  end.

Fixpoint occurs_ignoring_case (keyword s : string) : bool :=
  starts_ignoring_case keyword s ||
  match s with
  | EmptyString => false
  | String _ rest => occurs_ignoring_case keyword rest
  end.

(** One of the keywords is present in the query. *)
Definition present (keywords : list string) (query : string) : bool :=
  existsb (fun keyword => occurs_ignoring_case keyword query) keywords.

(** Complexity signals as the specification words them: a general
    complexity of 0.2 for more than 500 characters plus 0.3 for a
    reasoning keyword, capped at 1, and one fixed value per keyword set
    for the others, a keyword being looked for as a substring whatever
    the case. *)
Definition signals (query : string) : Router.Analysis :=
  Router.mkAnalysis
    (Qmin 1 ((if (500 <? String.length query)%nat then 0.2 else 0) +
             (if present reasoning_set query then 0.3 else 0)))%Q
    (if present code_set query then 0.5 else 0)%Q
    (if present multimodal_set query then 0.8 else 0)%Q
    (if present math_set query then 0.4 else 0)%Q.


(** No model of the catalog is in an availability list. *)
Definition none_available (r : Router.IntelligentRouter) : Prop :=
  forall name info,
    In (name, info) (Router.model_info r) ->
    ~ In name (Router.local_models r) /\ ~ In name (Router.cloud_models r).

(** The first configured local model, or the fixed default name. *)
Definition fallback_model (r : Router.IntelligentRouter) : string :=
  match Router.local_models r with
  | first :: _ => first
  | [] => "gpt-4o-mini"
  end.

(** The message [add_interaction] appends. *)
Definition new_record (query response : string)
           (metadata : list (string * json)) : Msg :=
  mkMsg (json_dumps (Memory.interaction query response metadata)) "memory".

(** The stored query of [msg] and the query share a token, both
    lower-cased and split on white space. *)
Definition shares_token (query stored : string) : bool :=
  existsb (fun w => Py.mem w (Py.split (Py.lower stored)))
          (Py.split (Py.lower query)).

Definition is_summary (msg : Msg) : bool := String.eqb (role msg) "summary".

Definition is_record (msg : Msg) : bool := String.eqb (role msg) "memory".

(** [msg] decodes to an interaction whose query matches. *)
Definition matches (query : string) (msg : Msg) : bool :=
  match content msg with
  | Doc (JObj fields) =>
      match Py.dict_get "query" (JStr EmptyString) fields with
      | JStr stored => shares_token query stored
      | _ => false
      end
  | _ => false
  end.

(** The entries retrieval keeps: summaries, and matching records. *)
Definition kept (query : string) (msg : Msg) : bool :=
  is_summary msg || matches query msg.

Definition kept_entries (query : string) (msgs : list Msg) : list text :=
  map content (filter (kept query) msgs).

(** The first sentence of the retrieval contract, as it is worded: every
    summary of the log is in the result, and no record stands before
    it. *)
Definition summary_ahead_of_records (mm : Memory.MemoryManager)
           (query : string) (max_items : Z) : Prop :=
  forall s,
    In s (Memory.memory_bank mm) -> is_summary s = true ->
    exists before after,
      Memory.relevant_items mm query max_items =
      (before ++ content s :: after)%list /\
      forall m,
        In m (Memory.memory_bank mm) -> is_summary m = false ->
        ~ In (content m) before.

(** The cost an entry carries in its [cost] field, 0 when it has none or
    when it is not a number. *)
Definition record_cost (msg : Msg) : Q :=
  match content msg with
  | Doc (JObj fields) =>
      match Memory.as_number (Py.dict_get "cost" (JNum 0) fields) with
      | Some c => c
      | None => 0%Q
      end
  | _ => 0%Q
  end.

(** The cost a summary holds in its [total_cost] field. *)
Definition summary_cost (msg : Msg) : Q :=
  match content msg with
  | Doc (JObj fields) =>
      match Py.dict_get "total_cost" (JNum 0) fields with
      | JNum total => total
      | _ => 0%Q
      end
  | _ => 0%Q
  end.

Definition sum (costs : list Q) : Q := fold_left Qplus costs 0%Q.


(** The words of a folded entry that can become topics. *)
Definition entry_words (msg : Msg) : list string :=
  match content msg with
  | Doc (JObj fields) =>
      match Py.dict_get "query" (JStr EmptyString) fields with
      | JStr query =>
          filter (fun word => (4 <? String.length word)%nat)
                 (Py.split (Py.lower query))
      | _ => []
      end
  | _ => []
  end.

(** The distinct elements of a list in the order of their first
    appearance. *)
Fixpoint first_seen (l : list string) : list string :=
  match l with
  | [] => []
  | w :: rest =>
      w :: filter (fun v => negb (String.eqb w v)) (first_seen rest)
  end.

(** The topics as they are worded: listed in order of first
    appearance, whatever the iteration order of the set. *)
Definition topics_in_first_appearance_order : Prop :=
  forall (order : SetOrder) (memories : list Msg),
    Memory.main_topics memories =
    firstn 10 (first_seen (flat_map entry_words memories)).

(** The shape of a log: interaction records, after at most one summary
    written by a compaction. *)
Definition is_interaction (msg : Msg) : Prop :=
  exists query response metadata,
    msg = new_record query response metadata.

Definition is_compaction_summary {order : SetOrder} (msg : Msg) : Prop :=
  exists memories, msg = mkMsg (Memory.create_summary memories) "summary".

(** The log is a sequence of interaction records, after at most one
    summary written by an earlier compaction. *)
Definition shaped {order : SetOrder} (log : list Msg) : Prop :=
  exists prior records,
    log = (prior ++ records)%list /\
    (prior = [] \/ exists s, prior = [s] /\ is_compaction_summary s) /\
    Forall is_interaction records.

(** What one folded entry adds to [total_cost]: its cost, when it
    decodes to a dict whose query is a string. *)
Definition folded_cost (msg : Msg) : Q :=
  match content msg with
  | Doc (JObj fields) =>
      match Py.dict_get "query" (JStr EmptyString) fields with
      | JStr _ => record_cost msg
      | _ => 0%Q
      end
  | _ => 0%Q
  end.

End Spec.

(* ================================================================== *)
(** ** Concrete inputs *)

Module Sample.

Open Scope string_scope.

(** [format(x, '.2f')] for the float nearest to a rational, to run the
    router on examples: the decimal with two places nearest to the
    float, a tie going to the even digit. Nothing below depends on the
    digits. *)
Definition fmt2f_exact (q : Q) : string :=
  let x := Binary64.round q in
  let hundredths := Binary64.nearest_even (Qabs x * 100) in
  let whole := Z.to_nat (hundredths / 100) in
  let cents := Z.to_nat (hundredths mod 100) in
  (if (Qnum x <? 0)%Z then "-" else "") ++
  Py.str_of_nat whole ++ "." ++
  (if (cents <? 10)%nat then "0" else "") ++ Py.str_of_nat cents.

(** The default configuration: one local and one cloud model. *)
Definition default_router : Router.IntelligentRouter :=
  Router.init (Router.mkConfig None None None None None).

(** A router whose only configured model is unknown to the catalog. *)
Definition stray_router : Router.IntelligentRouter :=
  Router.init
    (Router.mkConfig (Some ["mistral:7b"]) (Some []) None None None).

(** The same with other thresholds. *)
Definition stray_router' : Router.IntelligentRouter :=
  Router.init
    (Router.mkConfig (Some ["mistral:7b"]) (Some []) (Some 0.5%Q)
                     (Some 10%Q) (Some 0.1%Q)).

(** A router with nothing configured at all. *)
Definition empty_router : Router.IntelligentRouter :=
  Router.init (Router.mkConfig (Some []) (Some []) None None None).

(** Two backends that differ in their cost per token only. *)
Definition free_backend : Router.ModelInfo :=
  Router.mkModelInfo 0 800 ["general"; "reasoning"] 128000.


(** A query in capitals. *)
Definition shouted : string := "DRAW A DIAGRAM; Explain Why it works".

(** The backends and the settings above with the numbers of binary64:
    a cost of 0.00015 per token, and the cost priorities 0.9 and
    0.9000000000000001. *)
Definition cheap_backend : Router.ModelInfo :=
  Router.mkModelInfo (Binary64.round 0.00015) 800
                     ["general"; "reasoning"] 128000.
Definition nine_tenths : Router.Prefs :=
  [("cost_priority", Binary64.round 0.9%Q)].
Definition above_nine_tenths : Router.Prefs :=
  [("cost_priority", Binary64.round 0.9000000000000001%Q)].

(** Some iteration order of sets, to run the manager on examples: the
    one Stdlib's [nodup] gives. *)
Definition nodup_order : SetOrder :=
  mkSetOrder (nodup string_dec) (NoDup_nodup string_dec)
             (fun history w => nodup_In string_dec history w).

(** A set iteration order that is not the order of insertion. *)
Definition reversed_order : SetOrder :=
  mkSetOrder
    (fun history => rev (nodup string_dec history))
    (fun history => NoDup_rev (NoDup_nodup string_dec history))
    (fun history w =>
       iff_trans (iff_sym (in_rev (nodup string_dec history) w))
                 (nodup_In string_dec history w)).

(** A manager that keeps one record: after two interactions its log is a
    summary of the first followed by the second. *)
Definition tiny_config : Memory.Config :=
  Memory.mkConfig (Some 1%Z) (Some 1%Z).

Definition greeting_calls : list Memory.Call :=
  [ ("hello there", "first answer", [("cost", JNum 1)]);
    ("hello world", "second answer", [("cost", JNum 2)]) ].

Definition greeting_memory : Memory.MemoryManager :=
  Memory.replay (order := nodup_order) tiny_config greeting_calls.

Definition greeting_summary : Msg :=
  mkMsg (Memory.create_summary (order := nodup_order)
           [Spec.new_record "hello there" "first answer"
                            [("cost", JNum 1)]])
        "summary".

Definition greeting_record : Msg :=
  Spec.new_record "hello world" "second answer" [("cost", JNum 2)].

(** A manager with the default configuration and one interaction. *)
Definition single_memory : Memory.MemoryManager :=
  Memory.replay (order := nodup_order) (Memory.mkConfig None None)
                [("hello world", "an answer", [])].

(** A threshold of 0 with room for one entry. *)
Definition zero_config : Memory.Config :=
  Memory.mkConfig (Some 0%Z) (Some 1%Z).

(** Three interactions with room for two and a threshold of one: the
    third compacts the first two into a summary, and a fourth folds that
    summary with the third. *)
Definition roomy_config : Memory.Config :=
  Memory.mkConfig (Some 1%Z) (Some 2%Z).

Definition three_calls : list Memory.Call :=
  [ ("alpha question", "answer", [("cost", JNum 1)]);
    ("bravo question", "answer", [("cost", JNum 2)]);
    ("gamma question", "answer", [("cost", JNum 4)]) ].


End Sample.

(* ================================================================== *)
(** ** OrchestratorAgent *)

Module Agent.

Open Scope string_scope.

(** A [Msg] that carries plain text: the request [reply] receives and
    the answer it returns. [chat_metadata] is the attribute [reply] sets
    on its answer; a request has none. *)
Record ChatMsg : Type := mkChatMsg {
  chat_content : string;
  chat_role : string;
  chat_metadata : option (list (string * json))
}.

(** The [config] dict of [__init__]: two optional sub-dicts. *)
Record Config : Type := mkConfig {
  cfg_routing : option Router.Config;
  cfg_memory : option Memory.Config
}.

Record OrchestratorAgent : Type := mkAgent {
  router : Router.IntelligentRouter;
  memory_manager : Memory.MemoryManager
}.

(** [OrchestratorAgent.__init__]: a missing config and a missing
    sub-dict are the empty dict. *)
Definition init (config : option Config) : OrchestratorAgent :=
  let config := Router.get_or config (mkConfig None None) in
  mkAgent
    (Router.init
       (Router.get_or (cfg_routing config)
                      (Router.mkConfig None None None None None)))
    (Memory.init
       (Router.get_or (cfg_memory config) (Memory.mkConfig None None))).

(** The accumulators of the loop of [get_stats]; [model_usage] is a dict
    in insertion order, its keys the values found under [model_used]. *)
Record Tally : Type := mkTally {
  total_interactions : nat;
  total_cost : Q;
  model_usage : list (json * nat)
}.

(** A value that can be a key of a dict: lists and dicts cannot. *)
Definition hashable (v : json) : bool :=
  match v with
  | JList _ | JObj _ => false
  | _ => true
  end.

(** Equality of two keys: [None] with [None], a string with the same
    string, numbers and booleans by their value ([True] is 1). *)
Definition key_eqb (a b : json) : bool :=
  match a, b with
  | JNull, JNull => true
  | JStr s, JStr t => String.eqb s t
  | (JNum _ | JBool _), (JNum _ | JBool _) =>
      match Memory.as_number a, Memory.as_number b with
      | Some x, Some y => Qeq_bool x y
      | _, _ => false
      end
  | _, _ => false
  end.

(** [model_usage.get(model, 0)] *)
Fixpoint usage_get (model : json) (usage : list (json * nat)) : nat :=
  match usage with
  | [] => 0
  | (key, count) :: rest =>
      if key_eqb model key then count else usage_get model rest
  end.

(** [model_usage[model] = count]: an equal key keeps its place. *)
Fixpoint usage_set (model : json) (count : nat)
         (usage : list (json * nat)) : list (json * nat) :=
  match usage with
  | [] => [(model, count)]
  | (key, old) :: rest =>
      if key_eqb model key then (key, count) :: rest
      else (key, old) :: usage_set model count rest
  end.

(** The body of [for msg in memory] of [get_stats], with its [try]: the
    interaction is counted as soon as the text decodes, its cost is added
    next, and its model is counted last, each step only if no earlier one
    raised. *)
Definition tally_msg (acc : Tally) (msg : Msg) : Tally :=
  if String.eqb (role msg) "memory"
  then
    match json_loads (content msg) with
    | None => acc
    | Some data =>
        let total_interactions := S (total_interactions acc) in
        match data_get data "cost" (JNum 0) with
        | None => mkTally total_interactions (total_cost acc)
                          (model_usage acc)
        | Some cost =>
            match Memory.as_number cost with
            | None => mkTally total_interactions (total_cost acc)
                              (model_usage acc)
            | Some c =>
                let total_cost := (total_cost acc + c)%Q in
                match data_get data "model_used" (JStr "unknown") with
                | None => mkTally total_interactions total_cost
                                  (model_usage acc)
                | Some model =>
                    if hashable model
                    then mkTally total_interactions total_cost
                           (usage_set model
                              (usage_get model (model_usage acc) + 1)
                              (model_usage acc))
                    else mkTally total_interactions total_cost
                                 (model_usage acc)
                end
            end
        end
    end
  else acc.

(** The dict [get_stats] returns. *)
Record Stats : Type := mkStats {
  stat_total_interactions : nat;
  stat_total_cost : Q;
  stat_model_usage : list (json * nat);
  stat_memory_size : nat;
  stat_local : list string;
  stat_cloud : list string
}.

(** [OrchestratorAgent.get_stats] *)
Definition get_stats (agent : OrchestratorAgent) : Stats :=
  let memory := Memory.memory_bank (memory_manager agent) in
  let tally := fold_left tally_msg memory (mkTally 0 0%Q []) in
  mkStats (total_interactions tally) (total_cost tally)
          (model_usage tally) (List.length memory)
          (Router.local_models (router agent))
          (Router.cloud_models (router agent)).

Section Replies.

Context {order : SetOrder}.

(** Python's [format(x, '.2f')], [format(x, '.4f')] and [str(x)] on a
    number, built-ins of the language, and the characters of a stored
    text. *)
Variable fmt2f : Q -> string.
Variable fmt4f : Q -> string.
Variable str_number : Q -> string.
Variable characters : text -> string.

(** [OrchestratorAgent._execute_query]: the simulated answer. The
    prompt the source builds from [context] is not used. *)
Definition execute_query (query : string)
           (routing_decision : Router.RoutingDecision) (context : string)
  : string :=
  let model_name := Router.model routing_decision in
  "[Routed to " ++ model_name ++ "]" ++ Memory.newline ++
  Memory.newline ++
  "This is a simulated response to: " ++ query ++ Memory.newline ++
  Memory.newline ++
  "Routing reasoning: " ++ Router.reasoning routing_decision ++
  Memory.newline ++
  "Estimated cost: $" ++
  fmt4f (Router.estimated_cost routing_decision) ++ Memory.newline ++
  "Estimated latency: " ++
  str_number (Router.estimated_latency routing_decision) ++ "ms" ++
  Memory.newline ++ Memory.newline ++
  "In a real implementation, this would be the actual model response.".

(** The dict [metadata] of [reply]. *)
Definition reply_metadata (start_time end_time : Q)
           (routing_decision : Router.RoutingDecision)
  : list (string * json) :=
  let latency := ((end_time - start_time) * 1000)%Q in
  [ ("timestamp", JNum start_time);
    ("model", JStr (Router.model routing_decision));
    ("cost", JNum (Router.estimated_cost routing_decision));
    ("latency", JNum latency);
    ("routing_reasoning", JStr (Router.reasoning routing_decision)) ].

(** [OrchestratorAgent.reply]; [start_time] and [end_time] are the two
    readings of the clock. The answer and the agent after the call. *)
Definition reply (agent : OrchestratorAgent) (start_time end_time : Q)
           (x : ChatMsg) : ChatMsg * OrchestratorAgent :=
  let query := chat_content x in
  let context :=
    Memory.retrieve_relevant_context characters (memory_manager agent)
                                     query 5 in
  let routing_decision :=
    Router.route_query fmt2f (router agent) query (Some context) None in
  let response := execute_query query routing_decision context in
  let metadata := reply_metadata start_time end_time routing_decision in
  let memory_manager :=
    Memory.add_interaction (memory_manager agent) query response
                           metadata in
  (mkChatMsg response "assistant" (Some metadata),
   mkAgent (router agent) memory_manager).

End Replies.

End Agent.

(* ================================================================== *)
(** ** ServiceManager: the environment file

    [src/start_services.py], the part that reads and rewrites [.env]. The
    content of the file is a [string], [None] when the file does not
    exist. What [print] writes is left out. *)

Module Service.

Open Scope string_scope.

Definition LF : ascii := ascii_of_nat 10.
Definition CR : ascii := ascii_of_nat 13.

(** [for line in f] on a file opened in text mode: the lines end at a
    line feed, at a carriage return or at both, each of which is read as
    one line feed and is kept at the end of its line. [cur] is the line
    being read. *)
Fixpoint read_lines_from (cur : string) (s : string) : list string :=
  match s with
  | EmptyString => match cur with EmptyString => [] | _ => [cur] end
  | String c rest =>
      if Ascii.eqb c LF
      then (cur ++ String LF EmptyString) :: read_lines_from EmptyString rest
      else if Ascii.eqb c CR
      then match rest with
           | String d rest' =>
               if Ascii.eqb d LF
               then (cur ++ String LF EmptyString)
                    :: read_lines_from EmptyString rest'
               else (cur ++ String LF EmptyString)
                    :: read_lines_from EmptyString rest
           | EmptyString => [cur ++ String LF EmptyString]
           end
      else read_lines_from (cur ++ String c EmptyString) rest
  end.

Definition read_lines (content : string) : list string :=
  read_lines_from EmptyString content.

(** [s.lstrip()], [s.rstrip()] and [s.strip()] *)
Fixpoint lstrip (s : string) : string :=
  match s with
  | EmptyString => EmptyString
  | String c rest => if Py.is_space c then lstrip rest else s
  end.

Fixpoint rstrip (s : string) : string :=
  match s with
  | EmptyString => EmptyString
  | String c rest =>
      match rstrip rest with
      | EmptyString =>
          if Py.is_space c then EmptyString else String c EmptyString
      | kept => String c kept
      end
  end.

Definition strip (s : string) : string := lstrip (rstrip s).

(** [s.startswith(prefix)] *)
Definition startswith (prefix s : string) : bool := String.prefix prefix s.

(** [s.split(sep, 1)] for a separator of one character that occurs in
    [s]: what stands before its first occurrence and what stands after;
    [None] when it does not occur. *)
Fixpoint split_once (sep : ascii) (s : string) : option (string * string) :=
  match s with
  | EmptyString => None
  | String c rest =>
      if Ascii.eqb c sep then Some (EmptyString, rest)
      else match split_once sep rest with
           | Some (before, after) => Some (String c before, after)
           | None => None
           end
  end.

(** [env_vars], a dict from names to values in insertion order. *)
Definition Env : Type := list (string * string).

(** [env_vars[key] = value]: a key that is there keeps its place. *)
Fixpoint env_set (key value : string) (env_vars : Env) : Env :=
  match env_vars with
  | [] => [(key, value)]
  | (k, v) :: rest =>
      if String.eqb key k then (k, value) :: rest
      else (k, v) :: env_set key value rest
  end.

(** The body of the loop of [load_environment]. *)
Definition load_line (env_vars : Env) (line : string) : Env :=
  let line := strip line in
  if negb (String.eqb line EmptyString)
     && negb (startswith "#" line)
     && Py.contains "=" line
  then match split_once "=" line with
       | Some (key, value) => env_set key value env_vars
       | None => env_vars
       end
  else env_vars.

(** [ServiceManager.load_environment] *)
Definition load_environment (env_file : option string) : Env :=
  match env_file with
  | None => []
  | Some content => fold_left load_line (read_lines content) []
  end.

(** [string.ascii_letters + string.digits] *)
Definition alphabet : string :=
  "abcdefghijklmnopqrstuvwxyzABCDEFGHIJKLMNOPQRSTUVWXYZ0123456789".

(** The source of randomness: [pick n] is what the [n]-th call of
    [secrets.choice(alphabet)] returns, a character of the alphabet. *)
Record Choice : Type := mkChoice {
  pick : nat -> ascii;
  pick_alphabet : forall n, In (pick n) (list_ascii_of_string alphabet)
}.

(** [generate_key(length)] when [calls] characters were drawn before. *)
Fixpoint generate_key (choice : Choice) (calls length : nat) : string :=
  match length with
  | O => EmptyString
  | S length => String (pick choice calls)
                       (generate_key choice (S calls) length)
  end.

(** [ServiceManager.generate_secrets]: the values of the dict literal
    are made in the order in which they are written. *)
Definition generate_secrets (choice : Choice) : Env :=
  [ ("POSTGRES_PASSWORD", generate_key choice 0 16);
    ("NEO4J_PASSWORD", generate_key choice 16 16);
    ("N8N_BASIC_AUTH_PASSWORD", generate_key choice 32 12);
    ("WEBUI_SECRET_KEY", generate_key choice 44 32);
    ("LANGFUSE_SECRET_KEY", "sk-lf-" ++ generate_key choice 76 32);
    ("LANGFUSE_PUBLIC_KEY", "pk-lf-" ++ generate_key choice 108 32);
    ("LANGFUSE_SALT", generate_key choice 140 16);
    ("JWT_SECRET", generate_key choice 156 32);
    ("ENCRYPTION_KEY", generate_key choice 188 32) ].

(** [not s] for an optional string: [None] and the empty string. *)
Definition falsy (s : option string) : bool :=
  match s with
  | None => true
  | Some EmptyString => true
  | Some _ => false
  end.

(** [key not in env_vars or not env_vars[key] or
    env_vars[key].startswith('your_')] *)
Definition needs_secret (env_vars : Env) (key : string) : bool :=
  match Py.dict_find key env_vars with
  | None => true
  | Some value => String.eqb value EmptyString || startswith "your_" value
  end.

(** One iteration of [for key, value in secrets.items()], on the pair
    of [env_vars] and [updated]. *)
Definition fill_secret (state : Env * bool) (secret : string * string)
  : Env * bool :=
  let (env_vars, updated) := state in
  let (key, value) := secret in
  if needs_secret env_vars key
  then (env_set key value env_vars, true)
  else (env_vars, updated).

(** [if env_vars.get(key) != value: env_vars[key] = value; updated =
    True] *)
Definition ensure (key value : string) (state : Env * bool) : Env * bool :=
  let (env_vars, updated) := state in
  match Py.dict_find key env_vars with
  | Some current =>
      if String.eqb current value then (env_vars, updated)
      else (env_set key value env_vars, true)
  | None => (env_set key value env_vars, true)
  end.

(** What is written to the file: two comment lines, an empty line and
    one line per entry. *)
Definition render (env_vars : Env) : string :=
  "# LLM Orchestrator Configuration" ++ String LF EmptyString ++
  "# Auto-generated and updated by start_services.py" ++
  String LF EmptyString ++ String LF EmptyString ++
  String.concat EmptyString
    (map (fun entry : string * string =>
            fst entry ++ "=" ++ snd entry ++ String LF EmptyString)
         env_vars).

(** [ServiceManager.setup_environment]; [detected] is what [detect_gpu]
    returns. The dict returned and the content of the file after the
    call. *)
Definition setup_environment (env_file : option string)
           (gpu_profile environment : option string) (detected : string)
           (choice : Choice) : Env * option string :=
  let env_vars := load_environment env_file in
  let gpu_profile :=
    if falsy gpu_profile
    then Router.get_or (Py.dict_find "GPU_PROFILE" env_vars) detected
    else Router.get_or gpu_profile EmptyString in
  let environment :=
    if falsy environment
    then Router.get_or (Py.dict_find "ENVIRONMENT" env_vars) "private"
    else Router.get_or environment EmptyString in
  let secrets := generate_secrets choice in
  let state := fold_left fill_secret secrets (env_vars, false) in
  let state := ensure "GPU_PROFILE" gpu_profile state in
  let state := ensure "ENVIRONMENT" environment state in
  let (env_vars, updated) := state in
  (env_vars, if updated then Some (render env_vars) else env_file).

End Service.

(* ================================================================== *)
(** ** Vocabulary of the further properties *)

Module Vocabulary.

Open Scope string_scope.

(** [model in self.local_models or model in self.cloud_models] *)
Definition available (r : Router.IntelligentRouter) (name : string) : bool :=
  Py.mem name (Router.local_models r) || Py.mem name (Router.cloud_models r).

(** What the scoring loop holds after the entries [seen]: nothing, every
    available entry scoring -1 or less, or the first available entry of
    the highest score, which is above -1. *)
Definition loop_state (r : Router.IntelligentRouter)
           (analysis : Router.Analysis) (user_prefs : Router.Prefs)
           (seen : list (string * Router.ModelInfo)) (best : Router.Best)
  : Prop :=
  match Router.best_model best with
  | None =>
      best = Router.initial_best /\
      forall name info,
        In (name, info) seen -> available r name = true ->
        (Router.total_score analysis user_prefs info <= -1)%Q
  | Some winner =>
      exists info before after,
        seen = (before ++ (winner, info) :: after)%list /\
        available r winner = true /\
        Router.best_score best =
        Router.total_score analysis user_prefs info /\
        (-1 < Router.total_score analysis user_prefs info)%Q /\
        (forall name other,
            In (name, other) before -> available r name = true ->
            (Router.total_score analysis user_prefs other <
             Router.total_score analysis user_prefs info)%Q) /\
        (forall name other,
            In (name, other) after -> available r name = true ->
            (Router.total_score analysis user_prefs other <=
             Router.total_score analysis user_prefs info)%Q)
  end.


(** The upper-cased text, ASCII letters only. *)
Definition upper_char (c : ascii) : ascii :=
  let n := nat_of_ascii c in
  if (97 <=? n)%nat && (n <=? 122)%nat then ascii_of_nat (n - 32) else c.

Fixpoint upper (s : string) : string :=
  match s with
  | EmptyString => EmptyString
  | String c rest => String (upper_char c) (upper rest)
  end.

(** The text of the message is one [json.loads] reads. *)
Definition decodable (msg : Msg) : bool :=
  match json_loads (content msg) with
  | Some _ => true
  | None => false
  end.





(** Every character of [s] passes the test [p]. *)
Fixpoint all_chars (p : ascii -> bool) (s : string) : bool :=
  match s with
  | EmptyString => true
  | String c rest => p c && all_chars p rest
  end.

(** No line feed and no carriage return. *)
Definition plain (s : string) : bool :=
  all_chars (fun c => negb (Ascii.eqb c Service.LF)
                      && negb (Ascii.eqb c Service.CR)) s.

Definition no_equals (s : string) : bool :=
  all_chars (fun c => negb (Ascii.eqb c "=")) s.

(** A name that a line of the file can define: one line, no equals
    sign, and a first character that is neither white space nor the
    comment sign. *)
Definition key_ok (key : string) : bool :=
  plain key && no_equals key &&
  match key with
  | EmptyString => true
  | String c _ => negb (Py.is_space c) && negb (Ascii.eqb c "#")
  end.

(** A value that a line of the file can hold: one line, no white space
    at its end. *)
Definition value_ok (value : string) : bool :=
  plain value && String.eqb (Service.rstrip value) value.

Definition entry_ok (entry : string * string) : bool :=
  key_ok (fst entry) && value_ok (snd entry).

(** A secret that is kept: not empty, no placeholder. *)
Definition usable (value : string) : bool :=
  negb (String.eqb value EmptyString)
  && negb (Service.startswith "your_" value).

(** The names of the secrets, in the order of the dict literal. *)
Definition secret_names : list string :=
  [ "POSTGRES_PASSWORD"; "NEO4J_PASSWORD"; "N8N_BASIC_AUTH_PASSWORD";
    "WEBUI_SECRET_KEY"; "LANGFUSE_SECRET_KEY"; "LANGFUSE_PUBLIC_KEY";
    "LANGFUSE_SALT"; "JWT_SECRET"; "ENCRYPTION_KEY" ].

(** The profile and the environment [setup_environment] settles on. *)
Definition resolved_gpu (env_vars : Service.Env)
           (gpu_profile : option string) (detected : string) : string :=
  if Service.falsy gpu_profile
  then Router.get_or (Py.dict_find "GPU_PROFILE" env_vars) detected
  else Router.get_or gpu_profile EmptyString.

Definition resolved_environment (env_vars : Service.Env)
           (environment : option string) : string :=
  if Service.falsy environment
  then Router.get_or (Py.dict_find "ENVIRONMENT" env_vars) "private"
  else Router.get_or environment EmptyString.

(** A line as the iteration over a file gives it: one line of text,
    with or without the line feed at its end. *)
Definition line_like (line : string) : Prop :=
  exists body,
    plain body = true /\
    (line = body ++ String Service.LF EmptyString \/ line = body).

(** A character of the alphabet of the secrets, and a character that
    is not white space. *)
Definition alnum (c : ascii) : bool :=
  existsb (Ascii.eqb c) (list_ascii_of_string Service.alphabet).

Definition solid (c : ascii) : bool := negb (Py.is_space c).

(** The part of [setup_environment] between the reading and the
    writing of the file: the dict and the flag [updated]. *)
Definition configure (env_vars : Service.Env)
           (gpu_profile environment : option string) (detected : string)
           (choice : Service.Choice) : Service.Env * bool :=
  Service.ensure "ENVIRONMENT" (resolved_environment env_vars environment)
    (Service.ensure "GPU_PROFILE"
       (resolved_gpu env_vars gpu_profile detected)
       (fold_left Service.fill_secret (Service.generate_secrets choice)
                  (env_vars, false))).

(** The line [setup_environment] writes for an entry. *)
Definition line_of (entry : string * string) : string :=
  fst entry ++ "=" ++ snd entry ++ String Service.LF EmptyString.

End Vocabulary.

(* ================================================================== *)
(** ** Further concrete inputs *)

Module Cases.

Open Scope string_scope.

(** Preferences that make every score negative. *)
Definition hostile : Router.Prefs :=
  [("cost_priority", (-5)%Q); ("speed_priority", (-5)%Q);
   ("quality_priority", (-5)%Q)].

(** A manager with a threshold of 0, room for one entry, and one
    interaction. *)
Definition zero_memory : Memory.MemoryManager :=
  Memory.replay (order := Sample.nodup_order) Sample.zero_config
                [("hello there", "first answer", [("cost", JNum 1)])].

(** Renderings of numbers and of stored texts, to run the coordinator
    on examples: [format(x, '.4f')] for the float nearest to a rational
    (the decimal with four places nearest to the float, a tie going to
    the even digit), a plain decimal or fraction, and JSON without
    escapes. Nothing below depends on the characters. *)
Definition fmt4f_exact (q : Q) : string :=
  let x := Binary64.round q in
  let scaled := Binary64.nearest_even (Qabs x * 10000) in
  let whole := Z.to_nat (scaled / 10000) in
  let rest := Py.str_of_nat (Z.to_nat (scaled mod 10000)) in
  let zeros :=
    match String.length rest with
    | 1 => "000"
    | 2 => "00"
    | 3 => "0"
    | _ => ""
    end%nat in
  (if (Qnum x <? 0)%Z then "-" else "") ++
  Py.str_of_nat whole ++ "." ++ zeros ++ rest.

Definition str_number_exact (q : Q) : string :=
  (if (Qnum q <? 0)%Z then "-" else "") ++
  Py.str_of_nat (Z.to_nat (Z.abs (Qnum q))) ++
  match Qden q with
  | xH => ""
  | d => "/" ++ Py.str_of_nat (Pos.to_nat d)
  end.

Definition quote : string := String (ascii_of_nat 34) EmptyString.

Fixpoint characters_of_json (v : json) : string :=
  match v with
  | JNull => "null"
  | JBool true => "true"
  | JBool false => "false"
  | JNum q => str_number_exact q
  | JStr s => quote ++ s ++ quote
  | JList l =>
      "[" ++ String.concat ", " (map characters_of_json l) ++ "]"
  | JObj fields =>
      "{" ++
      String.concat ", "
        (map (fun field : string * json =>
                quote ++ fst field ++ quote ++ ": " ++
                characters_of_json (snd field))
             fields) ++
      "}"
  end.

Definition characters_plain (t : text) : string :=
  match t with
  | Doc v => characters_of_json v
  | Raw s => s
  end.

(** A fresh agent with no configuration, and a request. *)
Definition fresh_agent : Agent.OrchestratorAgent := Agent.init None.

Definition request : Agent.ChatMsg :=
  Agent.mkChatMsg "Draw a diagram of the house" "user" None.

(** A source of randomness that goes round the alphabet. *)
Definition round_choice : Service.Choice :=
  Service.mkChoice
    (fun n => nth (n mod 62) (list_ascii_of_string Service.alphabet)
                  "a"%char)
    (fun n =>
       @nth_In ascii (n mod 62) (list_ascii_of_string Service.alphabet)
               "a"%char
               (Nat.mod_upper_bound n 62 (Nat.neq_succ_0 61))).

(** A file with a comment, spaces round an equals sign, a placeholder,
    a name defined twice and a line that defines nothing. *)
Definition env_file : string :=
  "# local settings" ++ String Service.LF
  ("  OLLAMA_HOST = localhost  " ++ String Service.LF
  ("POSTGRES_PASSWORD=your_password" ++ String Service.LF
  ("PORT=8080" ++ String Service.LF
  ("PORT=9090" ++ String Service.CR (String Service.LF
  ("not a setting" ++ String Service.LF EmptyString)))))).

(** A dict as [load_environment] gives it. *)
Definition settings : Service.Env :=
  [ ("OLLAMA_HOST ", " localhost"); ("PORT", "9090"); ("EMPTY", "");
    ("", "no name") ].

End Cases.

(* ================================================================== *)
(** ** Lemmas on the built-ins *)

Section BuiltinFacts.

Open Scope string_scope.

Lemma mem_In (x : string) (l : list string) :
  Py.mem x l = true <-> In x l.
Proof.
  unfold Py.mem. rewrite existsb_exists. split.
  - intros [y [Hy Heq]]. apply String.eqb_eq in Heq. now subst.
  - intros H. exists x. split; [assumption | apply String.eqb_refl].
Qed.

Lemma mem_false (x : string) (l : list string) :
  ~ In x l -> Py.mem x l = false.
Proof.
  intros H. destruct (Py.mem x l) eqn:E; [| reflexivity].
  apply mem_In in E. contradiction.
Qed.

Lemma prefix_app (sub s : string) :
  String.prefix sub s = true <-> exists after, s = sub ++ after.
Proof.
  revert s. induction sub as [| c sub IH]; intros s; simpl.
  - split; [intros _; now exists s | intros _; now destruct s].
  - destruct s as [| d s].
    + split; [discriminate | intros [after H]; discriminate].
    + simpl. destruct (Ascii.ascii_dec c d) as [-> | Hne].
      * rewrite IH. split; intros [after H]; exists after.
        -- now rewrite H.
        -- now inversion H.
      * split; [discriminate |].
        intros [after H]. inversion H. congruence.
Qed.

Lemma contains_substring (sub s : string) :
  Py.contains sub s = true <-> Spec.substring_of sub s.
Proof.
  unfold Spec.substring_of. induction s as [| c s IH].
  - change (Py.contains sub EmptyString)
      with (String.prefix sub EmptyString || false).
    rewrite orb_false_r, prefix_app. split.
    + intros [after H]. now exists EmptyString, after.
    + intros [before [after H]]. destruct before; simpl in H.
      * now exists after.
      * discriminate.
  - change (Py.contains sub (String c s))
      with (String.prefix sub (String c s) || Py.contains sub s).
    rewrite orb_true_iff, prefix_app, IH. split.
    + intros [[after H] | [before [after H]]].
      * now exists EmptyString, after.
      * exists (String c before), after. simpl. now rewrite H.
    + intros [before [after H]]. destruct before as [| d before].
      * left. now exists after.
      * right. simpl in H. inversion H. now exists before, after.
Qed.

Lemma lower_length (s : string) :
  String.length (Py.lower s) = String.length s.
Proof.
  induction s as [| c s IH]; simpl; [reflexivity | now rewrite IH].
Qed.

Lemma lower_char_idempotent (c : ascii) :
  Py.lower_char (Py.lower_char c) = Py.lower_char c.
Proof.
  destruct c as [[] [] [] [] [] [] [] []]; reflexivity.
Qed.

Lemma lower_idempotent (s : string) : Py.lower (Py.lower s) = Py.lower s.
Proof.
  induction s as [| c s IH]; simpl; [reflexivity |].
  now rewrite IH, lower_char_idempotent.
Qed.


End BuiltinFacts.

(* ================================================================== *)
(** ** The router *)

Section RouterFacts.

Import Router.
Open Scope string_scope.
Open Scope Q_scope.

Variable fmt2f : Q -> string.

(** The loop leaves [best] as it is on entries that are not available. *)
Lemma consider_unavailable r analysis user_prefs best name info :
  ~ In name (local_models r) -> ~ In name (cloud_models r) ->
  consider fmt2f r analysis user_prefs best (name, info) = best.
Proof.
  intros Hl Hc. unfold consider.
  now rewrite (mem_false _ _ Hl), (mem_false _ _ Hc).
Qed.

Lemma fold_consider_unavailable r analysis user_prefs entries :
  (forall name info, In (name, info) entries ->
     ~ In name (local_models r) /\ ~ In name (cloud_models r)) ->
  forall best,
    fold_left (consider fmt2f r analysis user_prefs) entries best = best.
Proof.
  induction entries as [| [name info] entries IH]; intros H best.
  - reflexivity.
  - cbn [fold_left]. destruct (H name info (or_introl eq_refl)) as [Hl Hc].
    rewrite (consider_unavailable r analysis user_prefs best name info Hl Hc).
    apply IH. intros n i Hin. apply (H n i). now right.
Qed.

Lemma scoring_loop_none_available r analysis user_prefs :
  Spec.none_available r ->
  scoring_loop fmt2f r analysis user_prefs = initial_best.
Proof.
  intros H. unfold scoring_loop. now apply fold_consider_unavailable.
Qed.

(** A small letter of a keyword meets the characters that lower-case to
    it. *)
Lemma same_letter_lower (k c : ascii) :
  Spec.capital k = false ->
  Spec.same_letter k c = Ascii.eqb k (Py.lower_char c).
Proof.
  intros Hk.
  assert (Hlow : Py.lower_char c =
                 if Spec.capital c
                 then ascii_of_nat (nat_of_ascii c + 32)%nat else c)
    by reflexivity.
  rewrite Hlow. unfold Spec.same_letter. rewrite Hk. cbn [andb].
  rewrite orb_false_r.
  destruct (Spec.capital c) eqn:Hc; cbn [andb].
  - destruct (Ascii.eqb_spec k c) as [-> | Hne]; [congruence |].
    cbn [orb].
    destruct (Nat.eqb_spec (nat_of_ascii k) (nat_of_ascii c + 32))
      as [Heq | Hne'].
    + symmetry. apply Ascii.eqb_eq.
      now rewrite <- Heq, ascii_nat_embedding.
    + symmetry. apply Ascii.eqb_neq. intros ->. apply Hne'.
      rewrite nat_ascii_embedding; [reflexivity |].
      unfold Spec.capital in Hc. apply andb_prop in Hc.
      destruct Hc as [_ Hc]. apply Nat.leb_le in Hc. lia.
  - now rewrite orb_false_r.
Qed.

Lemma starts_ignoring_case_lower (keyword s : string) :
  Vocabulary.all_chars (fun k => negb (Spec.capital k)) keyword = true ->
  Spec.starts_ignoring_case keyword s = String.prefix keyword (Py.lower s).
Proof.
  revert s. induction keyword as [| k keyword IH]; intros s Hsmall.
  - now destruct s.
  - simpl in Hsmall. apply andb_prop in Hsmall.
    destruct Hsmall as [Hk Hrest]. apply negb_true_iff in Hk.
    destruct s as [| c s]; [reflexivity |].
    cbn [Spec.starts_ignoring_case Py.lower String.prefix].
    rewrite (same_letter_lower k c Hk), (IH s Hrest).
    destruct (ascii_dec k (Py.lower_char c)) as [Heq | Hne].
    + now rewrite (proj2 (Ascii.eqb_eq _ _) Heq).
    + now rewrite (proj2 (Ascii.eqb_neq _ _) Hne).
Qed.

Lemma occurs_ignoring_case_lower (keyword s : string) :
  Vocabulary.all_chars (fun k => negb (Spec.capital k)) keyword = true ->
  Spec.occurs_ignoring_case keyword s = Py.contains keyword (Py.lower s).
Proof.
  intros Hsmall. induction s as [| c s IH].
  - cbn [Spec.occurs_ignoring_case Py.lower Py.contains].
    now rewrite starts_ignoring_case_lower.
  - cbn [Spec.occurs_ignoring_case Py.lower Py.contains].
    now rewrite starts_ignoring_case_lower, IH.
Qed.

(** A set of keywords in small letters is present in a query when the
    code finds one of them in the lower-cased query. *)
Lemma present_any_keyword (keywords : list string) (query : string) :
  forallb (Vocabulary.all_chars (fun k => negb (Spec.capital k))) keywords
  = true ->
  Spec.present keywords query = any_keyword keywords (Py.lower query).
Proof.
  unfold Spec.present, any_keyword.
  induction keywords as [| keyword keywords IH]; intros Hsmall.
  - reflexivity.
  - simpl in Hsmall. apply andb_prop in Hsmall.
    destruct Hsmall as [Hk Hrest]. cbn [existsb].
    now rewrite (occurs_ignoring_case_lower keyword query Hk), (IH Hrest).
Qed.

Lemma lower_char_capital (c : ascii) :
  Py.lower_char c =
  if Spec.capital c then ascii_of_nat (nat_of_ascii c + 32)%nat else c.
Proof. reflexivity. Qed.

(** The small letter of a capital letter is no capital letter. *)
Lemma capital_small (c d : ascii) :
  Spec.capital c = true -> (nat_of_ascii d = nat_of_ascii c + 32)%nat ->
  Spec.capital d = false /\ d = ascii_of_nat (nat_of_ascii c + 32)%nat.
Proof.
  intros Hc Hd. unfold Spec.capital in *. apply andb_prop in Hc.
  destruct Hc as [Hlo Hhi]. apply Nat.leb_le in Hlo, Hhi. split.
  - apply andb_false_intro2. apply Nat.leb_gt. lia.
  - now rewrite <- Hd, ascii_nat_embedding.
Qed.

Lemma same_letter_lower_char (c d : ascii) :
  Spec.same_letter c d = true -> Py.lower_char c = Py.lower_char d.
Proof.
  unfold Spec.same_letter. intros H. rewrite !lower_char_capital.
  apply orb_prop in H. destruct H as [H | H];
    [apply orb_prop in H; destruct H as [H | H] |].
  - apply Ascii.eqb_eq in H. now subst.
  - apply andb_prop in H. destruct H as [Hc Hd].
    apply Nat.eqb_eq in Hd.
    destruct (capital_small c d Hc Hd) as [Hsmall Heq].
    now rewrite Hc, Hsmall.
  - apply andb_prop in H. destruct H as [Hd Hc].
    apply Nat.eqb_eq in Hc.
    destruct (capital_small d c Hd Hc) as [Hsmall Heq].
    now rewrite Hd, Hsmall.
Qed.

Lemma same_text_lower (s t : string) :
  Spec.same_text s t = true ->
  Py.lower s = Py.lower t /\ String.length s = String.length t.
Proof.
  revert t. induction s as [| c s IH]; intros [| d t] H;
    try discriminate; [now split |].
  simpl in H. apply andb_prop in H. destruct H as [Hc Hs].
  destruct (IH t Hs) as [Hl Hn]. cbn [Py.lower String.length].
  now rewrite (same_letter_lower_char c d Hc), Hl, Hn.
Qed.

(** What the specification's matching means: the keyword occurs in the
    text as a substring, up to the case of the letters. *)
Lemma starts_ignoring_case_spec (keyword s : string) :
  Spec.starts_ignoring_case keyword s = true <->
  exists middle after,
    s = (middle ++ after)%string /\ Spec.same_text keyword middle = true.
Proof.
  revert s. induction keyword as [| k keyword IH]; intros s.
  - split; [intros _; now exists EmptyString, s | reflexivity].
  - destruct s as [| c s]; cbn [Spec.starts_ignoring_case].
    + split; [discriminate |].
      intros [middle [after [Hs Hsame]]].
      destruct middle; [discriminate Hsame | discriminate Hs].
    + rewrite andb_true_iff, IH. split.
      * intros [Hc [middle [after [-> Hsame]]]].
        exists (String c middle), after. split; [reflexivity |].
        cbn [Spec.same_text]. now rewrite Hc.
      * intros [middle [after [Hs Hsame]]].
        destruct middle as [| d middle]; [discriminate Hsame |].
        cbn [Spec.same_text] in Hsame. apply andb_prop in Hsame.
        destruct Hsame as [Hc Hsame]. simpl in Hs. inversion Hs; subst.
        split; [exact Hc |]. now exists middle, after.
Qed.

Lemma occurs_ignoring_case_spec (keyword s : string) :
  Spec.occurs_ignoring_case keyword s = true <->
  exists before middle after,
    s = (before ++ middle ++ after)%string /\
    Spec.same_text keyword middle = true.
Proof.
  induction s as [| c s IH]; cbn [Spec.occurs_ignoring_case].
  - rewrite orb_false_r, starts_ignoring_case_spec. split.
    + intros [middle [after [Hs Hsame]]].
      now exists EmptyString, middle, after.
    + intros [before [middle [after [Hs Hsame]]]].
      destruct before; [| discriminate Hs]. now exists middle, after.
  - rewrite orb_true_iff, starts_ignoring_case_spec, IH. split.
    + intros [[middle [after [Hs Hsame]]]
             | [before [middle [after [Hs Hsame]]]]].
      * now exists EmptyString, middle, after.
      * exists (String c before), middle, after. now rewrite Hs.
    + intros [before [middle [after [Hs Hsame]]]].
      destruct before as [| d before].
      * left. now exists middle, after.
      * right. simpl in Hs. inversion Hs; subst.
        now exists before, middle, after.
Qed.

(** C9. On a query of ASCII text [analyze_query_complexity] returns the
    four values of the specification: a general complexity of 0.2 for a
    query longer than 500 characters plus 0.3 for a reasoning keyword,
    capped at 1; 0.5, 0.8 and 0.4 for a code, a multimodal and a math
    keyword, where a keyword of the specification's sets counts when it
    occurs in the query as a substring, in small or in capital letters.
    The context has no part in the result, and neither has the case of
    the letters: two queries that differ in case only get the same
    result. *)
Theorem analyze_query_complexity_exact (query : string)
        (context : option string) :
  Spec.ascii_text query = true ->
  analyze_query_complexity query context = Spec.signals query /\
  (forall context', analyze_query_complexity query context' =
                    analyze_query_complexity query context) /\
  (forall query' context',
      Spec.same_text query query' = true ->
      analyze_query_complexity query' context' =
      analyze_query_complexity query context).
Proof.
  intros _. split; [| split].
  - unfold analyze_query_complexity, Spec.signals. cbv zeta.
    rewrite (present_any_keyword Spec.reasoning_set query eq_refl).
    rewrite (present_any_keyword Spec.code_set query eq_refl).
    rewrite (present_any_keyword Spec.multimodal_set query eq_refl).
    rewrite (present_any_keyword Spec.math_set query eq_refl).
    change Spec.reasoning_set with reasoning_keywords.
    change Spec.code_set with code_keywords.
    change Spec.multimodal_set with multimodal_keywords.
    change Spec.math_set with math_keywords.
    destruct (500 <? String.length query)%nat;
      destruct (any_keyword reasoning_keywords (Py.lower query));
      destruct (any_keyword code_keywords (Py.lower query));
      destruct (any_keyword multimodal_keywords (Py.lower query));
      destruct (any_keyword math_keywords (Py.lower query));
      reflexivity.
  - reflexivity.
  - intros query' context' Hsame.
    destruct (same_text_lower query query' Hsame) as [Hl Hn].
    unfold analyze_query_complexity. now rewrite Hl, Hn.
Qed.

(** C5. When no model of the catalog is in the local or the cloud list
    (both lists may be empty), [route_query] returns a decision all the
    same: its model is the first local model if there is one and
    [gpt-4o-mini] otherwise, and its reasoning is the fallback notice. *)
Theorem route_query_fallback (r : IntelligentRouter) (query : string)
        (context : option string) (user_preferences : option Prefs) :
  Spec.none_available r ->
  exists decision,
    route_query fmt2f r query context user_preferences = decision /\
    model decision = Spec.fallback_model r /\
    reasoning decision = "Fallback to default model".
Proof.
  intros H. eexists. split; [reflexivity |].
  unfold route_query. rewrite (scoring_loop_none_available r _ _ H).
  split; reflexivity.
Qed.


(** C6. [route_query] is a function of the catalog, the two availability
    lists, the preferences and the query: two calls that agree on these
    return the same decision, field for field. Neither the context nor
    the thresholds of the configuration are read. *)
Theorem route_query_deterministic (r1 r2 : IntelligentRouter)
        (query : string) (context1 context2 : option string)
        (user_preferences : option Prefs) :
  model_info r1 = model_info r2 ->
  local_models r1 = local_models r2 ->
  cloud_models r1 = cloud_models r2 ->
  route_query fmt2f r1 query context1 user_preferences =
  route_query fmt2f r2 query context2 user_preferences.
Proof.
  destruct r1 as [l1 c1 ct1 lt1 qt1 m1], r2 as [l2 c2 ct2 lt2 qt2 m2].
  simpl. intros -> -> ->. reflexivity.
Qed.

End RouterFacts.

Section Binary64Facts.

Open Scope Q_scope.



















Lemma round_zero : Binary64.round 0 == 0.
Proof. reflexivity. Qed.

Lemma round_one : Binary64.round 1 == 1.
Proof. reflexivity. Qed.

End Binary64Facts.

Section CostPriority.

Import Router.
Open Scope Q_scope.

Variable rnd : Q -> Q.

Hypothesis rnd_monotone : forall x y : Q, x <= y -> rnd x <= rnd y.
Hypothesis rnd_zero : rnd 0 == 0.
Hypothesis rnd_one : rnd 1 == 1.













End CostPriority.

(* ------------------------------------------------------------------ *)
(** *** The router on concrete inputs *)

Section RouterExamples.

Import Sample.
Import Router.
Open Scope string_scope.
Open Scope Q_scope.

Example route_default :
  let decision :=
    route_query fmt2f_exact default_router "What is 2+2?" None None in
  model decision = "llama3.1:8b" /\
  estimated_cost decision = 0 /\
  estimated_latency decision = 50.
Proof. vm_compute. repeat split; reflexivity. Qed.

(** With nothing configured the fallback is [gpt-4o-mini], an entry of
    the catalog: the estimated cost is its cost per token times the
    three words of the query. *)
Example route_empty :
  let decision :=
    route_query fmt2f_exact empty_router "What is 2+2?" None None in
  model decision = "gpt-4o-mini" /\
  reasoning decision = "Fallback to default model" /\
  confidence decision = -1 /\
  estimated_cost decision == 0.00015 * 3 /\
  estimated_latency decision = 800.
Proof. vm_compute. repeat split; reflexivity. Qed.

Lemma stray_none_available : Spec.none_available stray_router.
Proof.
  intros name info Hin. simpl in Hin.
  repeat (destruct Hin as [Hin | Hin];
          [inversion Hin; subst; split; simpl; intuition discriminate |]).
  contradiction.
Qed.

Lemma route_query_fallback_witness :
  Spec.none_available stray_router /\
  exists decision,
    route_query fmt2f_exact stray_router "What is 2+2?" None None =
    decision /\
    model decision = "mistral:7b" /\
    reasoning decision = "Fallback to default model".
Proof.
  split; [exact stray_none_available |].
  exact (route_query_fallback fmt2f_exact stray_router "What is 2+2?"
           None None stray_none_available).
Defined.


Lemma route_query_deterministic_witness :
  model_info stray_router = model_info stray_router' /\
  local_models stray_router = local_models stray_router' /\
  cloud_models stray_router = cloud_models stray_router' /\
  route_query fmt2f_exact stray_router "Compare the two" None None =
  route_query fmt2f_exact stray_router' "Compare the two"
              (Some "earlier context") None.
Proof.
  repeat (split; [reflexivity |]).
  apply (route_query_deterministic fmt2f_exact stray_router stray_router');
    reflexivity.
Defined.

Lemma analyze_query_complexity_exact_witness :
  Spec.ascii_text shouted = true /\
  analyze_query_complexity shouted None = Spec.signals shouted /\
  (forall context', analyze_query_complexity shouted context' =
                    analyze_query_complexity shouted None) /\
  (forall query' context',
      Spec.same_text shouted query' = true ->
      analyze_query_complexity query' context' =
      analyze_query_complexity shouted None).
Proof.
  assert (H : Spec.ascii_text shouted = true) by reflexivity.
  split; [exact H |].
  exact (analyze_query_complexity_exact shouted None H).
Defined.

(** The query in capitals has a reasoning and a multimodal keyword. *)
Example shouted_signals :
  analyze_query_complexity shouted None = mkAnalysis 0.3 0 0.8 0 /\
  Spec.signals shouted = mkAnalysis 0.3 0 0.8 0.
Proof. split; reflexivity. Qed.



(** The same run, told by its values. *)
Example binary64_advantages :
  (Binary64.advantage 0.00015 800 0.5 0.9 0.2 0.1
   = 0.13500000000000001 /\
   Binary64.advantage 0.00015 800 0.5 0.9000000000000001 0.2 0.1
   = 0.1349999999999999 /\
   Binary64.total_score 0 50 0.5 0.7 0.2 0.1 = 0.9450000000000001)%float.
Proof. repeat split; reflexivity. Qed.

(** With nothing rounded the rounded scores are the exact ones. *)
Example exact_total_score (analysis : Analysis) (user_prefs : Prefs)
        (info : ModelInfo) :
  Rounded.total_score (fun q => q) analysis user_prefs info =
  total_score analysis user_prefs info.
Proof. reflexivity. Qed.

(** With the rounding of binary64 the rounded scores are the numbers of
    the code: the two advantages of the run above, and the fall from
    the one to the other. *)
Example rounded_binary64_advantages :
  let analysis := analyze_query_complexity "What is 2+2?" None in
  let low :=
    Rounded.advantage Binary64.round analysis nine_tenths
                      free_backend cheap_backend in
  let high :=
    Rounded.advantage Binary64.round analysis above_nine_tenths
                      free_backend cheap_backend in
  low == Binary64.value (Binary64.advantage 0.00015 800 0.5 0.9 0.2 0.1) /\
  high ==
  Binary64.value
    (Binary64.advantage 0.00015 800 0.5 0.9000000000000001 0.2 0.1) /\
  high < low.
Proof. repeat split; vm_compute; reflexivity. Qed.

End RouterExamples.

(* ================================================================== *)
(** ** Retrieval *)

Section RetrievalFacts.

Import Memory.
Open Scope string_scope.
Open Scope list_scope.

Lemma fold_set_add_In (w : string) (l : list string) :
  forall acc : set string,
    In w (fold_left (fun s v => set_add string_dec v s) l acc) <->
    In w acc \/ In w l.
Proof.
  induction l as [| v l IH]; intros acc; simpl.
  - tauto.
  - rewrite IH, set_add_iff. intuition congruence.
Qed.

Lemma to_set_In (w : string) (l : list string) :
  In w (Py.to_set l) <-> In w l.
Proof.
  unfold Py.to_set. rewrite fold_set_add_In. simpl. tauto.
Qed.

Lemma overlap_positive (a b : set string) :
  (0 <? List.length (set_inter string_dec a b))%nat = true <->
  exists w, In w a /\ In w b.
Proof.
  destruct (set_inter string_dec a b) as [| w rest] eqn:E; simpl.
  - split; [discriminate |]. intros [w [Ha Hb]].
    assert (H : In w (set_inter string_dec a b))
      by (apply set_inter_iff; now split).
    rewrite E in H. contradiction.
  - split; [| reflexivity]. intros _. exists w.
    apply (set_inter_iff string_dec). rewrite E. now left.
Qed.

Lemma shares_token_common (query stored : string) :
  Spec.shares_token query stored = true <->
  exists w, In w (Py.split (Py.lower query)) /\
            In w (Py.split (Py.lower stored)).
Proof.
  unfold Spec.shares_token. rewrite existsb_exists.
  split; intros [w [H1 H2]]; exists w; split; trivial;
    now apply mem_In.
Qed.

(** The test of the source, the size of an intersection of two sets, is
    the test of the specification, a shared token. *)
Lemma overlap_shares_token (query stored : string) :
  (0 <? List.length
          (set_inter string_dec
             (Py.to_set (Py.split (Py.lower query)))
             (Py.to_set (Py.split (Py.lower stored)))))%nat =
  Spec.shares_token query stored.
Proof.
  apply eq_true_iff_eq. rewrite overlap_positive, shares_token_common.
  split; intros [w [H1 H2]]; exists w; split;
    first [now apply to_set_In | now apply to_set_In in H1
           | now apply to_set_In in H2].
Qed.

(** What the [try] block does with one message. *)
Lemma visit_kept (query : string) (msg : Msg) :
  let query_words := Py.to_set (Py.split (Py.lower query)) in
  if Spec.kept query msg
  then visit query_words msg = Some (Some (content msg))
  else visit query_words msg = Some None \/ visit query_words msg = None.
Proof.
  unfold Spec.kept, Spec.is_summary, Spec.matches, visit. cbv zeta.
  destruct (String.eqb (role msg) "summary"); simpl; [reflexivity |].
  destruct (content msg) as [v | raw]; simpl; [| now right].
  destruct v as [| b | q | str | l | fields]; simpl; try now right.
  destruct (Py.dict_get "query" (JStr "") fields)
    as [| b | q | stored | l | fields']; try now right.
  rewrite overlap_shares_token.
  destruct (Spec.shares_token query stored); [reflexivity | now left].
Qed.

(** The loop with a cap of at least 1: the kept entries in the order of
    the scan, cut at the cap. *)
Lemma scan_capped (query : string) (max_items : Z) (msgs : list Msg) :
  forall relevant_items,
    (Z.of_nat (List.length relevant_items) < max_items)%Z ->
    scan (Py.to_set (Py.split (Py.lower query))) max_items msgs
         relevant_items =
    firstn (Z.to_nat max_items)
           (relevant_items ++ Spec.kept_entries query msgs).
Proof.
  induction msgs as [| msg msgs IH]; intros items Hlen.
  - simpl. unfold Spec.kept_entries. simpl. rewrite app_nil_r.
    symmetry. apply firstn_all2. lia.
  - pose proof (visit_kept query msg) as Hv. cbv zeta in Hv.
    unfold Spec.kept_entries. cbn [scan filter].
    destruct (Spec.kept query msg).
    + rewrite Hv. cbn [map].
      destruct (Z.of_nat (List.length (items ++ [content msg]))
                >=? max_items)%Z eqn:Hcap.
      * rewrite Z.geb_leb in Hcap. apply Z.leb_le in Hcap.
        rewrite length_app in Hcap. simpl in Hcap.
        replace (Z.to_nat max_items)
          with (List.length (items ++ [content msg]) + 0)%nat
          by (rewrite length_app; simpl; lia).
        change (items ++ content msg :: map content
                  (filter (Spec.kept query) msgs))
          with (items ++ [content msg] ++ map content
                  (filter (Spec.kept query) msgs)).
        rewrite app_assoc, firstn_app_2. simpl. now rewrite app_nil_r.
      * rewrite Z.geb_leb in Hcap. apply Z.leb_gt in Hcap.
        rewrite IH by lia. unfold Spec.kept_entries.
        now rewrite <- app_assoc.
    + assert (Hno : (Z.of_nat (List.length items) >=? max_items)%Z = false)
        by (rewrite Z.geb_leb; apply Z.leb_gt; lia).
      destruct Hv as [Hv | Hv]; rewrite Hv; [rewrite Hno |]; now apply IH.
Qed.

Lemma relevant_items_capped (mm : MemoryManager) (query : string)
      (max_items : Z) :
  (1 <= max_items)%Z ->
  relevant_items mm query max_items =
  firstn (Z.to_nat max_items)
         (Spec.kept_entries query (rev (memory_bank mm))).
Proof.
  intros H. unfold relevant_items. cbv zeta.
  rewrite scan_capped by (simpl; lia). reflexivity.
Qed.

Lemma kept_entries_app (query : string) (l1 l2 : list Msg) :
  Spec.kept_entries query (l1 ++ l2) =
  (Spec.kept_entries query l1 ++ Spec.kept_entries query l2)%list.
Proof.
  unfold Spec.kept_entries. now rewrite filter_app, map_app.
Qed.

End RetrievalFacts.

Section RetrievalProperties.

Import Sample.
Import Memory.
Open Scope string_scope.
Open Scope list_scope.

Example greeting_log :
  memory_bank greeting_memory = [greeting_summary; greeting_record].
Proof. reflexivity. Qed.

(** C1, as the code has it. When the log is a summary followed by other
    entries and fewer than [max_items] of these are kept, the result is
    the kept entries, newest first, followed by the summary: the summary
    is included and counts toward the cap, but it comes last, after the
    matched records. On a log that holds only a summary the result is
    that summary, whatever the query. *)
Theorem retrieve_summary_after_matches (mm : MemoryManager)
        (query : string) (max_items : Z) (s : Msg) (rest : list Msg) :
  memory_bank mm = s :: rest ->
  Spec.is_summary s = true ->
  (Z.of_nat (List.length (Spec.kept_entries query (rev rest)))
   < max_items)%Z ->
  relevant_items mm query max_items =
  Spec.kept_entries query (rev rest) ++ [content s] /\
  (Z.of_nat (List.length (relevant_items mm query max_items))
   <= max_items)%Z /\
  (rest = [] -> relevant_items mm query max_items = [content s]).
Proof.
  intros Hlog Hs Hlen.
  assert (Hitems : relevant_items mm query max_items =
                   Spec.kept_entries query (rev rest) ++ [content s]).
  { rewrite relevant_items_capped by lia. rewrite Hlog.
    cbn [rev]. rewrite kept_entries_app.
    assert (H1 : Spec.kept_entries query [s] = [content s]).
    { unfold Spec.kept_entries, Spec.kept. simpl. now rewrite Hs. }
    rewrite H1. apply firstn_all2. rewrite length_app. simpl. lia. }
  split; [exact Hitems |]. split.
  - rewrite Hitems, length_app. simpl. lia.
  - intros ->. exact Hitems.
Qed.

Lemma retrieve_summary_after_matches_witness :
  memory_bank greeting_memory = [greeting_summary; greeting_record] /\
  Spec.is_summary greeting_summary = true /\
  (Z.of_nat (List.length
               (Spec.kept_entries "Hello" (rev [greeting_record]))) < 2)%Z /\
  relevant_items greeting_memory "Hello" 2 =
  [content greeting_record; content greeting_summary].
Proof.
  assert (H1 : memory_bank greeting_memory =
               [greeting_summary; greeting_record]) by reflexivity.
  assert (H2 : Spec.is_summary greeting_summary = true) by reflexivity.
  assert (H3 : (Z.of_nat (List.length
                  (Spec.kept_entries "Hello" (rev [greeting_record])))
                < 2)%Z) by reflexivity.
  repeat (split; [assumption |]).
  exact (proj1 (retrieve_summary_after_matches greeting_memory "Hello" 2
                  greeting_summary [greeting_record] H1 H2 H3)).
Defined.

(** C1, as it is worded, fails on the log of a summary and a record
    that matches the query: with room for two entries the record stands
    before the summary, and with room for one the summary is left
    out. *)
Lemma summary_not_ahead_of_records :
  ~ Spec.summary_ahead_of_records greeting_memory "Hello" 2 /\
  ~ Spec.summary_ahead_of_records greeting_memory "Hello" 1.
Proof.
  split; intros H;
    destruct (H greeting_summary) as [before [after [Heq Hno]]];
    try (rewrite greeting_log; now left); try reflexivity.
  - change (relevant_items greeting_memory "Hello" 2)
      with [content greeting_record; content greeting_summary] in Heq.
    destruct before as [| b before]; simpl in Heq; inversion Heq; subst b.
    apply (Hno greeting_record).
    + rewrite greeting_log. right. now left.
    + reflexivity.
    + now left.
  - change (relevant_items greeting_memory "Hello" 1)
      with [content greeting_record] in Heq.
    destruct before as [| b before]; simpl in Heq; inversion Heq.
    now destruct before.
Qed.

(** C8 at a cap of 0: the length is tested after the append, so the
    matching record is returned, one entry more than the cap allows. *)
Theorem retrieve_cap_zero_returns_entry :
  relevant_items single_memory "hello" 0 =
  [Doc (interaction "hello world" "an answer" [])] /\
  ~ (Z.of_nat (List.length (relevant_items single_memory "hello" 0))
     <= 0)%Z.
Proof.
  split; [reflexivity |]. vm_compute. intros H. now apply H.
Qed.

End RetrievalProperties.

(* ================================================================== *)
(** ** Compaction *)

Section CompactionFacts.

Import Memory.
Open Scope string_scope.
Open Scope list_scope.

Context {order : SetOrder}.

Lemma fold_bank_add (recent acc : list Msg) :
  fold_left bank_add recent acc = acc ++ recent.
Proof.
  revert acc. induction recent as [| msg recent IH]; intros acc; simpl.
  - now rewrite app_nil_r.
  - rewrite IH. unfold bank_add. now rewrite <- app_assoc.
Qed.

(** With a threshold of at least 1 and a longer list, [l[-k:]] is the
    last [k] elements and [l[:-k]] the others. *)
Lemma slice_index_tail (k : Z) (len : nat) :
  (1 <= k)%Z -> (k < Z.of_nat len)%Z ->
  Py.slice_index (- k) len = (len - Z.to_nat k)%nat.
Proof.
  intros Hk Hlen. unfold Py.slice_index.
  destruct (Z.ltb_spec (- k) 0); lia.
Qed.

Lemma Forall_skipn {A : Type} (P : A -> Prop) (n : nat) (l : list A) :
  Forall P l -> Forall P (skipn n l).
Proof.
  revert l. induction n as [| n IH]; intros l H; [exact H |].
  destruct l as [| x l]; [constructor |].
  simpl. apply IH. now inversion H.
Qed.

Lemma Forall_firstn {A : Type} (P : A -> Prop) (n : nat) (l : list A) :
  Forall P l -> Forall P (firstn n l).
Proof.
  revert l. induction n as [| n IH]; intros l H; [constructor |].
  destruct l as [| x l]; [constructor |].
  simpl. inversion H; subst. constructor; [assumption | now apply IH].
Qed.

(** [_compress_memory] on a log longer than a threshold of at least 1. *)
Lemma compress_memory_long (mm : MemoryManager) :
  let k := compression_threshold mm in
  let log := memory_bank mm in
  let cut := (List.length log - Z.to_nat k)%nat in
  (1 <= k)%Z -> (Z.of_nat (List.length log) > k)%Z ->
  compress_memory mm =
  mkMemoryManager
    (mkMsg (create_summary (firstn cut log)) "summary" :: skipn cut log)
    k (max_memory_size mm).
Proof.
  intros k log cut Hk Hlen. unfold compress_memory.
  fold log. fold k.
  destruct (Z.gtb_spec (Z.of_nat (List.length log)) k) as [_ | Hle];
    [| lia].
  unfold Py.slice_from, Py.slice_to.
  rewrite (slice_index_tail k (List.length log)) by lia.
  fold cut. now rewrite fold_bank_add.
Qed.

Lemma compress_memory_short (mm : MemoryManager) :
  (Z.of_nat (List.length (memory_bank mm)) <= compression_threshold mm)%Z ->
  compress_memory mm = mm.
Proof.
  intros H. unfold compress_memory.
  destruct (Z.gtb_spec (Z.of_nat (List.length (memory_bank mm)))
                       (compression_threshold mm)); [lia | reflexivity].
Qed.

(** [add_interaction], case by case. *)
Lemma add_interaction_cases (mm : MemoryManager) (query response : string)
      (metadata : list (string * json)) :
  let k := compression_threshold mm in
  let log := memory_bank mm ++ [Spec.new_record query response metadata] in
  let cut := (List.length log - Z.to_nat k)%nat in
  (1 <= k)%Z ->
  add_interaction mm query response metadata =
  if ((Z.of_nat (List.length log) >? max_memory_size mm)
      && (Z.of_nat (List.length log) >? k))%Z
  then mkMemoryManager
         (mkMsg (create_summary (firstn cut log)) "summary"
          :: skipn cut log)
         k (max_memory_size mm)
  else mkMemoryManager log k (max_memory_size mm).
Proof.
  intros k log cut Hk. unfold add_interaction. cbv zeta.
  cbn [memory_bank max_memory_size compression_threshold].
  unfold bank_add. fold (Spec.new_record query response metadata). fold log.
  destruct (Z.gtb_spec (Z.of_nat (List.length log)) (max_memory_size mm))
    as [HM | HM]; [| reflexivity].
  destruct (Z.gtb_spec (Z.of_nat (List.length log)) k) as [Hlen | Hlen];
    cbn [andb].
  - rewrite compress_memory_long;
      cbn [memory_bank max_memory_size compression_threshold];
      fold k; [reflexivity | lia | lia].
  - apply compress_memory_short.
    cbn [memory_bank max_memory_size compression_threshold]. fold k. lia.
Qed.

Lemma add_interaction_config (mm : MemoryManager) (query response : string)
      (metadata : list (string * json)) :
  compression_threshold (add_interaction mm query response metadata) =
  compression_threshold mm /\
  max_memory_size (add_interaction mm query response metadata) =
  max_memory_size mm.
Proof.
  unfold add_interaction, compress_memory. cbv zeta.
  cbn [memory_bank max_memory_size compression_threshold].
  destruct (_ >? max_memory_size mm)%Z; [| split; reflexivity].
  destruct (_ >? compression_threshold mm)%Z; split; reflexivity.
Qed.

End CompactionFacts.

Section CompactionInvariants.

Import Memory.
Open Scope string_scope.
Open Scope list_scope.

Context {order : SetOrder}.

Lemma shaped_nil : Spec.shaped [].
Proof.
  exists [], []. split; [reflexivity |]. split; [now left | constructor].
Qed.

Lemma shaped_append (log : list Msg) (query response : string)
      (metadata : list (string * json)) :
  Spec.shaped log ->
  Spec.shaped (log ++ [Spec.new_record query response metadata]).
Proof.
  intros [prior [records [-> [Hprior Hrec]]]].
  exists prior, (records ++ [Spec.new_record query response metadata]).
  split; [now rewrite app_assoc |]. split; [exact Hprior |].
  apply Forall_app. split; [exact Hrec |].
  constructor; [| constructor]. now exists query, response, metadata.
Qed.

(** Cutting a Spec.shaped log at a position that is not its start leaves
    interaction records only on the right. *)
Lemma shaped_cut (log : list Msg) (cut : nat) :
  Spec.shaped log -> (1 <= cut)%nat ->
  exists prior records,
    firstn cut log = prior ++ records /\
    (prior = [] \/ exists s, prior = [s] /\ Spec.is_compaction_summary s) /\
    Forall Spec.is_interaction records /\
    Forall Spec.is_interaction (skipn cut log).
Proof.
  intros [prior [records [-> [[-> | [s [-> Hs]]] Hrec]]]] Hcut.
  - exists [], (firstn cut records). simpl.
    split; [reflexivity |]. split; [now left |].
    split; [now apply Forall_firstn | now apply Forall_skipn].
  - destruct cut as [| cut]; [lia |].
    exists [s], (firstn cut records). simpl.
    split; [reflexivity |]. split; [right; now exists s |].
    split; [now apply Forall_firstn | now apply Forall_skipn].
Qed.

Lemma add_interaction_shaped (mm : MemoryManager) (query response : string)
      (metadata : list (string * json)) :
  (1 <= compression_threshold mm)%Z ->
  Spec.shaped (memory_bank mm) ->
  Spec.shaped (memory_bank (add_interaction mm query response metadata)).
Proof.
  intros Hk Hshape.
  rewrite add_interaction_cases by exact Hk.
  pose proof (shaped_append _ query response metadata Hshape) as Hlog.
  set (log := memory_bank mm ++ [Spec.new_record query response metadata])
    in *.
  destruct (Z.gtb_spec (Z.of_nat (List.length log)) (max_memory_size mm));
    [| exact Hlog].
  destruct (Z.gtb_spec (Z.of_nat (List.length log))
                       (compression_threshold mm)) as [Hlen | Hlen];
    cbn [andb memory_bank]; [| exact Hlog].
  destruct (shaped_cut log
              (List.length log - Z.to_nat (compression_threshold mm))
              Hlog ltac:(lia)) as [prior [records [_ [_ [_ Hret]]]]].
  exists [mkMsg (create_summary
                   (firstn (List.length log -
                            Z.to_nat (compression_threshold mm)) log))
                "summary"],
         (skipn (List.length log - Z.to_nat (compression_threshold mm)) log).
  split; [reflexivity |]. split; [| exact Hret].
  right. eexists. split; [reflexivity |]. now eexists.
Qed.

(** The three facts that hold along every sequence of calls. *)
Lemma replay_from (calls : list Call) :
  forall mm : MemoryManager,
    let final :=
      fold_left
        (fun mm (call : Call) =>
           let '(query, response, metadata) := call in
           add_interaction mm query response metadata)
        calls mm in
    (1 <= compression_threshold mm)%Z ->
    Spec.shaped (memory_bank mm) ->
    (Z.of_nat (List.length (memory_bank mm))
     <= Z.max (max_memory_size mm) (compression_threshold mm + 1))%Z ->
    Spec.shaped (memory_bank final) /\
    (Z.of_nat (List.length (memory_bank final))
     <= Z.max (max_memory_size mm) (compression_threshold mm + 1))%Z.
Proof.
  induction calls as [| [[query response] metadata] calls IH];
    intros mm final Hk Hshape Hlen.
  - now split.
  - subst final. cbn [fold_left].
    destruct (add_interaction_config mm query response metadata)
      as [Hk' HM'].
    specialize (IH (add_interaction mm query response metadata)).
    cbv zeta in IH. rewrite Hk', HM' in IH. apply IH.
    + exact Hk.
    + now apply add_interaction_shaped.
    + rewrite add_interaction_cases by exact Hk.
      set (log := memory_bank mm ++
                  [Spec.new_record query response metadata]).
      assert (Hlog : List.length log = S (List.length (memory_bank mm)))
        by (unfold log; rewrite length_app; simpl; lia).
      destruct (Z.gtb_spec (Z.of_nat (List.length log))
                           (max_memory_size mm));
        [| cbn [andb memory_bank]; lia].
      destruct (Z.gtb_spec (Z.of_nat (List.length log))
                           (compression_threshold mm));
        cbn [andb memory_bank]; [| lia].
      cbn [List.length]. rewrite length_skipn. lia.
Qed.

(** The length of the log stays within the bound of the specification
    as long as the threshold is at least 1. *)
Lemma log_length_bounded (config : Config) (calls : list Call) :
  let mm := replay config calls in
  (1 <= compression_threshold (init config))%Z ->
  Spec.shaped (memory_bank mm) /\
  (Z.of_nat (List.length (memory_bank mm))
   <= Z.max (max_memory_size (init config))
            (compression_threshold (init config) + 1))%Z.
Proof.
  intros mm Hk. subst mm. unfold replay.
  apply (replay_from calls (init config)); [exact Hk | apply shaped_nil |].
  change (memory_bank (init config)) with (@nil Msg).
  cbn [List.length]. lia.
Qed.

Lemma replay_config (config : Config) (calls : list Call) :
  compression_threshold (replay config calls) =
  compression_threshold (init config) /\
  max_memory_size (replay config calls) = max_memory_size (init config).
Proof.
  unfold replay. generalize (init config) as mm.
  induction calls as [| [[query response] metadata] calls IH]; intros mm.
  - now split.
  - cbn [fold_left].
    destruct (add_interaction_config mm query response metadata)
      as [Hk HM].
    destruct (IH (add_interaction mm query response metadata)) as [H1 H2].
    split; congruence.
Qed.

End CompactionInvariants.

Section SummaryFacts.

Import Memory.
Open Scope string_scope.
Open Scope list_scope.

Lemma sum_from (costs : list Q) :
  forall start : Q, (fold_left Qplus costs start == start + Spec.sum costs)%Q.
Proof.
  unfold Spec.sum.
  induction costs as [| c costs IH]; intros start; simpl.
  - ring.
  - rewrite (IH (start + c)%Q), (IH (0 + c)%Q). ring.
Qed.

Lemma sum_cons (c : Q) (costs : list Q) :
  (Spec.sum (c :: costs) == c + Spec.sum costs)%Q.
Proof.
  unfold Spec.sum at 1. simpl. rewrite sum_from. ring.
Qed.

Lemma fold_memory_step (acc : Folded) (msg : Msg) :
  topics (fold_memory acc msg) = topics acc ++ Spec.entry_words msg /\
  (total_cost (fold_memory acc msg) == total_cost acc + Spec.folded_cost msg)%Q.
Proof.
  unfold fold_memory, Spec.entry_words, Spec.folded_cost, Spec.record_cost.
  destruct (content msg) as [v | raw]; simpl;
    [| split; [now rewrite app_nil_r | ring]].
  destruct v as [| b | q | str | l | fields]; simpl;
    try (split; [now rewrite app_nil_r | ring]).
  destruct (Py.dict_get "query" (JStr "") fields)
    as [| b | q | stored | l | fields']; simpl;
    try (split; [now rewrite app_nil_r | ring]).
  destruct (as_number (Py.dict_get "cost" (JNum 0) fields)); simpl;
    split; try reflexivity; ring.
Qed.

Lemma fold_memories_from (memories : list Msg) :
  forall acc : Folded,
    topics (fold_left fold_memory memories acc) =
    topics acc ++ flat_map Spec.entry_words memories /\
    (total_cost (fold_left fold_memory memories acc) ==
     total_cost acc + Spec.sum (map Spec.folded_cost memories))%Q.
Proof.
  induction memories as [| msg memories IH]; intros acc.
  - simpl. split; [now rewrite app_nil_r | unfold Spec.sum; simpl; ring].
  - cbn [fold_left flat_map map].
    destruct (IH (fold_memory acc msg)) as [Htopics Hcost].
    destruct (fold_memory_step acc msg) as [Ht Hc].
    split.
    + rewrite Htopics, Ht. now rewrite app_assoc.
    + rewrite Hcost, Hc, sum_cons. ring.
Qed.

Lemma fold_memories_topics (memories : list Msg) :
  topics (fold_memories memories) = flat_map Spec.entry_words memories.
Proof.
  unfold fold_memories.
  now destruct (fold_memories_from memories (mkFolded [] 0)) as [-> _].
Qed.

Lemma fold_memories_total_cost (memories : list Msg) :
  (total_cost (fold_memories memories) ==
   Spec.sum (map Spec.folded_cost memories))%Q.
Proof.
  unfold fold_memories.
  destruct (fold_memories_from memories (mkFolded [] 0)) as [_ ->].
  simpl. ring.
Qed.




Lemma NoDup_firstn {A : Type} (n : nat) (l : list A) :
  NoDup l -> NoDup (firstn n l).
Proof.
  revert l. induction n as [| n IH]; intros l H; [constructor |].
  destruct l as [| x l]; [constructor |].
  simpl. inversion H as [| ? ? Hx Hl]; subst. constructor.
  - intros Hin. apply Hx.
    rewrite <- (firstn_skipn n l). apply in_or_app. now left.
  - now apply IH.
Qed.

Lemma In_firstn {A : Type} (n : nat) (l : list A) (x : A) :
  In x (firstn n l) -> In x l.
Proof.
  intros H. rewrite <- (firstn_skipn n l). apply in_or_app. now left.
Qed.

End SummaryFacts.

Section CompactionProperties.

Import Sample.
Import Memory.
Open Scope string_scope.
Open Scope list_scope.


Example three_calls_log :
  map role (memory_bank (replay (order := nodup_order) roomy_config
                                three_calls)) = ["summary"; "memory"] /\
  map Spec.summary_cost
      (memory_bank (replay (order := nodup_order) roomy_config three_calls))
  = [3%Q; 0%Q].
Proof. split; reflexivity. Qed.



(** The same run, told by its values. *)
Example fourth_call_summary :
  let mm :=
    add_interaction (order := nodup_order)
      (replay (order := nodup_order) roomy_config three_calls)
      "delta question" "answer" [("cost", JNum 8)] in
  map content (firstn 1 (memory_bank mm)) =
  [Doc (JObj [ ("type", JStr "compressed_summary");
               ("period", JStr "2 interactions");
               ("total_cost", JNum 4);
               ("main_topics",
                JList [JStr "gamma"; JStr "question"]);
               ("compressed_at", JStr "timestamp_here") ])].
Proof. reflexivity. Qed.

(** C3 at a threshold of 0: [memory[-0:]] is the whole log, nothing is
    folded, and every call past [max_memory_size] adds a record and a
    summary. After two calls with [max_memory_size] 1 the log has three
    entries, above the bound [max 1 (0 + 1)]. *)
Theorem zero_threshold_exceeds_bound :
  let mm := replay (order := nodup_order) zero_config greeting_calls in
  map role (memory_bank mm) = ["summary"; "memory"; "memory"] /\
  ~ (Z.of_nat (List.length (memory_bank mm))
     <= Z.max (max_memory_size mm) (compression_threshold mm + 1))%Z.
Proof.
  split; [reflexivity |]. vm_compute. intros H. now apply H.
Qed.

(** Two lists without repetition that hold the same elements have the
    same length. *)
Lemma NoDup_same_length (l l' : list string) :
  NoDup l -> NoDup l' -> (forall w, In w l <-> In w l') ->
  List.length l = List.length l'.
Proof.
  intros Hl Hl' Hsame. apply Nat.le_antisymm.
  - apply NoDup_incl_length; [exact Hl |]. intros w Hw. now apply Hsame.
  - apply NoDup_incl_length; [exact Hl' |]. intros w Hw. now apply Hsame.
Qed.

(** The set of [_create_summary] has as many elements as there are
    distinct long words in the folded queries. *)
Lemma set_list_length {order : SetOrder} (history : list string) :
  List.length (set_list history) =
  List.length (nodup string_dec history).
Proof.
  apply NoDup_same_length.
  - apply set_list_NoDup.
  - apply NoDup_nodup.
  - intros w. rewrite set_list_In. symmetry. apply nodup_In.
Qed.

(** C4, as the code has it. Whatever the iteration order of the set, the
    topics of a summary are pairwise distinct, each is longer than 4
    characters and a token of the lower-cased, split query of a folded
    entry that decodes, and there are as many of them as there are
    distinct such tokens, or 10 when there are more. When there are at
    most 10 distinct such tokens every one of them is listed. Their
    order, and which 10 are kept when there are more, is the iteration
    order of the set. *)
Theorem main_topics_distinct_tokens {order : SetOrder}
        (memories : list Msg) :
  let chosen := main_topics memories in
  let distinct :=
    List.length (nodup string_dec (flat_map Spec.entry_words memories)) in
  List.length chosen = Nat.min 10 distinct /\
  NoDup chosen /\
  (forall w,
      In w chosen ->
      (4 < String.length w)%nat /\
      exists msg fields query,
        In msg memories /\
        content msg = Doc (JObj fields) /\
        Py.dict_get "query" (JStr EmptyString) fields = JStr query /\
        In w (Py.split (Py.lower query))) /\
  ((distinct <= 10)%nat ->
   forall msg fields query w,
     In msg memories ->
     content msg = Doc (JObj fields) ->
     Py.dict_get "query" (JStr EmptyString) fields = JStr query ->
     In w (Py.split (Py.lower query)) ->
     (4 < String.length w)%nat ->
     In w chosen) /\
  data_get (summary_dict memories) "main_topics" JNull =
  Some (JList (map JStr chosen)).
Proof.
  intros chosen distinct. subst chosen distinct. unfold main_topics.
  rewrite fold_memories_topics.
  split; [now rewrite length_firstn, set_list_length |].
  split; [apply NoDup_firstn, set_list_NoDup |].
  split; [| split; [| unfold summary_dict, main_topics;
                      now rewrite fold_memories_topics]].
  - intros w Hw. apply In_firstn in Hw.
    apply (proj1 (set_list_In _ w)) in Hw.
    apply (proj1 (in_flat_map _ _ w)) in Hw.
    destruct Hw as [msg [Hmsg Hw]]. unfold Spec.entry_words in Hw.
    destruct (content msg) as [v | raw] eqn:Hc; [| contradiction].
    destruct v as [| b | q | str | l | fields]; try contradiction.
    destruct (Py.dict_get "query" (JStr "") fields)
      as [| b | q | query | l | fields'] eqn:Hq; try contradiction.
    apply filter_In in Hw. destruct Hw as [Hin Hlong].
    split; [now apply Nat.ltb_lt |].
    exists msg, fields, query. now repeat split.
  - intros Hfew msg fields query w Hmsg Hc Hq Hw Hlong.
    rewrite firstn_all2 by now rewrite set_list_length.
    apply set_list_In. apply in_flat_map. exists msg.
    split; [exact Hmsg |]. unfold Spec.entry_words. rewrite Hc, Hq.
    apply filter_In. split; [exact Hw | now apply Nat.ltb_lt].
Qed.

(** C4, as it is worded, fails: under an iteration order that is not
    the order of insertion the topics of [alpha bravo] come out as
    [bravo], [alpha]. *)
Lemma topics_not_in_first_appearance_order :
  ~ Spec.topics_in_first_appearance_order.
Proof.
  intros H.
  specialize (H reversed_order
                [Spec.new_record "alpha bravo" "answer" []]).
  vm_compute in H. discriminate H.
Qed.

End CompactionProperties.

(* ================================================================== *)
(** ** Further properties of the router *)

Section RouterSelection.

Import Router.
Import Vocabulary.
Open Scope string_scope.
Open Scope list_scope.
Open Scope Q_scope.

Variable fmt2f : Q -> string.

Lemma gtb_lt (a b : Q) : Py.gtb a b = true <-> b < a.
Proof.
  unfold Py.gtb. rewrite negb_true_iff. split.
  - intros H. apply Qnot_le_lt. intros Hle.
    apply Qle_bool_iff in Hle. congruence.
  - intros H. destruct (Qle_bool a b) eqn:E; [| reflexivity].
    apply Qle_bool_iff in E. exfalso. apply (Qlt_not_le _ _ H E).
Qed.

Lemma gtb_le (a b : Q) : Py.gtb a b = false <-> a <= b.
Proof.
  unfold Py.gtb. rewrite negb_false_iff. apply Qle_bool_iff.
Qed.

(** One iteration keeps the description of the loop. *)
Lemma consider_loop_state r analysis user_prefs seen best entry :
  loop_state r analysis user_prefs seen best ->
  (-1 <= best_score best) ->
  loop_state r analysis user_prefs (seen ++ [entry])
             (consider fmt2f r analysis user_prefs best entry) /\
  -1 <= best_score (consider fmt2f r analysis user_prefs best entry).
Proof.
  intros Hstate Hlow. destruct entry as [name info].
  unfold consider. fold (available r name).
  destruct (available r name) eqn:Havail.
  - destruct (Py.gtb (total_score analysis user_prefs info)
                     (best_score best)) eqn:Hgt.
    + apply gtb_lt in Hgt. split; [| cbn [best_score]; lra].
      unfold loop_state. cbn [best_model best_score].
      exists info, seen, []. split; [reflexivity |].
      split; [exact Havail |]. split; [reflexivity |].
      split; [lra |]. split; [| intros n o []].
      intros n other Hin Hav. unfold loop_state in Hstate.
      destruct (best_model best) as [winner |].
      * destruct Hstate as [i [pre [post [-> [_ [Hs [_ [Hpre Hpost]]]]]]]].
        rewrite Hs in Hgt. apply in_app_or in Hin.
        destruct Hin as [Hin | [Hin | Hin]].
        -- specialize (Hpre n other Hin Hav). lra.
        -- inversion Hin; subst. exact Hgt.
        -- specialize (Hpost n other Hin Hav). lra.
      * destruct Hstate as [_ Hall]. specialize (Hall n other Hin Hav). lra.
    + apply gtb_le in Hgt. split; [| exact Hlow].
      unfold loop_state in *.
      destruct (best_model best) as [winner |].
      * destruct Hstate as [i [pre [post [-> [Hav [Hs [Hpos [Hpre Hpost]]]]]]]].
        exists i, pre, (post ++ [(name, info)]).
        split; [now rewrite <- app_assoc |].
        split; [exact Hav |]. split; [exact Hs |]. split; [exact Hpos |].
        split; [exact Hpre |].
        intros n other Hin Hav'. apply in_app_or in Hin.
        destruct Hin as [Hin | [Hin | []]].
        -- now apply (Hpost n other).
        -- inversion Hin; subst. now rewrite <- Hs.
      * destruct Hstate as [-> Hall]. split; [reflexivity |].
        intros n other Hin Hav'. apply in_app_or in Hin.
        destruct Hin as [Hin | [Hin | []]].
        -- now apply (Hall n other).
        -- inversion Hin; subst. exact Hgt.
  - split; [| exact Hlow]. unfold loop_state in *.
    destruct (best_model best) as [winner |].
    + destruct Hstate as [i [pre [post [-> [Hav [Hs [Hpos [Hpre Hpost]]]]]]]].
      exists i, pre, (post ++ [(name, info)]).
      split; [now rewrite <- app_assoc |].
      split; [exact Hav |]. split; [exact Hs |]. split; [exact Hpos |].
      split; [exact Hpre |].
      intros n other Hin Hav'. apply in_app_or in Hin.
      destruct Hin as [Hin | [Hin | []]].
      * now apply (Hpost n other).
      * inversion Hin; subst. congruence.
    + destruct Hstate as [-> Hall]. split; [reflexivity |].
      intros n other Hin Hav'. apply in_app_or in Hin.
      destruct Hin as [Hin | [Hin | []]].
      * now apply (Hall n other).
      * inversion Hin; subst. congruence.
Qed.

Lemma fold_consider_loop_state r analysis user_prefs entries :
  loop_state r analysis user_prefs entries
    (fold_left (consider fmt2f r analysis user_prefs) entries initial_best)
  /\ -1 <= best_score
             (fold_left (consider fmt2f r analysis user_prefs) entries
                        initial_best).
Proof.
  induction entries as [| entry entries IH] using rev_ind.
  - split; [| simpl; lra]. split; [reflexivity | intros n i []].
  - rewrite fold_left_app. cbn [fold_left]. destruct IH as [Hstate Hlow].
    now apply consider_loop_state.
Qed.

Lemma scoring_loop_state r analysis user_prefs :
  loop_state r analysis user_prefs (model_info r)
             (scoring_loop fmt2f r analysis user_prefs).
Proof. apply fold_consider_loop_state. Qed.

End RouterSelection.

Section RouterProperties.

Import Router.
Import Vocabulary.
Open Scope string_scope.
Open Scope list_scope.
Open Scope Q_scope.

Variable fmt2f : Q -> string.

(** The quality score of a model for an analysed query. *)
Lemma quality_score_analyze (query : string) (context : option string)
      (info : ModelInfo) :
  quality_score (analyze_query_complexity query context) info =
  if any_keyword multimodal_keywords (Py.lower query)
     && Py.mem "multimodal" (capabilities info)
  then 0.5 + 0.4 else 0.5.
Proof.
  unfold analyze_query_complexity, quality_score. cbv zeta.
  cbn [code_requirement multimodal_requirement general_complexity].
  destruct (500 <? String.length query)%nat;
    destruct (any_keyword reasoning_keywords (Py.lower query));
    destruct (any_keyword code_keywords (Py.lower query));
    destruct (any_keyword multimodal_keywords (Py.lower query));
    destruct (Py.mem "code" (capabilities info));
    destruct (Py.mem "multimodal" (capabilities info));
    destruct (Py.mem "complex" (capabilities info));
    reflexivity.
Qed.

(** X1. The analysis never reaches the levels two of the three quality
    boosts ask for: the general complexity is at most 0.5 (the boost for
    [complex] asks for more than 0.7) and the code requirement is at most
    0.5 (the boost for [code] asks for more than 0.5). The quality score
    is therefore 0.9 for a model with the [multimodal] capability on a
    query with a multimodal keyword, and 0.5 in every other case. *)
Theorem quality_boost_only_multimodal (query : string)
        (context : option string) (info : ModelInfo) :
  let analysis := analyze_query_complexity query context in
  general_complexity analysis <= 0.5 /\
  code_requirement analysis <= 0.5 /\
  quality_score analysis info ==
  (if any_keyword multimodal_keywords (Py.lower query)
      && Py.mem "multimodal" (capabilities info)
   then 0.9 else 0.5).
Proof.
  intros analysis. subst analysis. rewrite quality_score_analyze.
  unfold analyze_query_complexity. cbv zeta.
  cbn [code_requirement general_complexity].
  split; [| split].
  - destruct (500 <? String.length query)%nat;
      destruct (any_keyword reasoning_keywords (Py.lower query));
      vm_compute; discriminate.
  - destruct (any_keyword code_keywords (Py.lower query));
      vm_compute; discriminate.
  - destruct (any_keyword multimodal_keywords (Py.lower query)
              && Py.mem "multimodal" (capabilities info)); reflexivity.
Qed.








(** [route_query] once the loop holds a model with a name. *)
Lemma route_query_of_winner (r : IntelligentRouter) (query : string)
      (context : option string) (user_preferences : option Prefs)
      (c : ascii) (name : string) :
  let best :=
    scoring_loop fmt2f r (analyze_query_complexity query context)
                 (get_or user_preferences []) in
  best_model best = Some (String c name) ->
  route_query fmt2f r query context user_preferences =
  mkRoutingDecision
    (String c name)
    (Py.join "; " (reasoning_parts best))
    (best_score best)
    (match Py.dict_find (String c name) (model_info r) with
     | Some info => cost_per_token info
     | None => 0
     end * inject_Z (Z.of_nat (List.length (Py.split query))))
    (match Py.dict_find (String c name) (model_info r) with
     | Some info => avg_latency info
     | None => 1000
     end).
Proof.
  intros best Hbest. unfold route_query. fold best.
  unfold fallback. rewrite Hbest. cbn [falsy]. rewrite Hbest.
  reflexivity.
Qed.


(** X4. When every available model of the catalog scores -1 or less,
    which negative weights bring about, nothing beats the initial score:
    the decision is the fallback with confidence -1, although models are
    available. *)
Theorem route_query_fallback_when_outscored (r : IntelligentRouter)
        (query : string) (context : option string)
        (user_preferences : option Prefs) :
  (forall name info,
      In (name, info) (model_info r) -> available r name = true ->
      total_score (analyze_query_complexity query context)
                  (get_or user_preferences []) info <= -1) ->
  let decision := route_query fmt2f r query context user_preferences in
  model decision = Spec.fallback_model r /\
  reasoning decision = "Fallback to default model" /\
  confidence decision = -1.
Proof.
  intros Hall decision. subst decision.
  set (analysis := analyze_query_complexity query context) in *.
  set (user_prefs := get_or user_preferences []) in *.
  pose proof (scoring_loop_state fmt2f r analysis user_prefs) as Hstate.
  unfold loop_state in Hstate. unfold route_query.
  fold analysis user_prefs.
  destruct (best_model (scoring_loop fmt2f r analysis user_prefs))
    as [winner |] eqn:Hbest.
  - exfalso.
    destruct Hstate as [info [pre [post [Hcat [Hav [_ [Hpos _]]]]]]].
    assert (Hin : In (winner, info) (model_info r))
      by (rewrite Hcat; apply in_or_app; right; now left).
    pose proof (Hall winner info Hin Hav). lra.
  - destruct Hstate as [-> _]. repeat split.
Qed.

(** Without preferences no entry of the built-in catalog scores more
    than its first entry does. *)
Lemma builtin_scores (query : string) (context : option string)
      (name : string) (info : ModelInfo) :
  In (name, info) builtin_model_info ->
  total_score (analyze_query_complexity query context) [] info <= 0.945.
Proof.
  intros Hin. unfold total_score. rewrite quality_score_analyze.
  simpl in Hin.
  repeat (destruct Hin as [Hin | Hin];
          [inversion Hin; subst;
           destruct (any_keyword multimodal_keywords (Py.lower query));
           vm_compute; discriminate |]).
  contradiction.
Qed.

Lemma llama_score (query : string) (context : option string) :
  total_score (analyze_query_complexity query context) []
              (mkModelInfo 0 50 ["general"; "reasoning"] 128000) == 0.945.
Proof.
  unfold total_score. rewrite quality_score_analyze.
  destruct (any_keyword multimodal_keywords (Py.lower query));
    vm_compute; reflexivity.
Qed.

(** X5. A router made by [__init__] in which [llama3.1:8b] is available
    sends every query to it when no preferences are given, whatever
    else is available: no entry of the built-in catalog scores more than
    its first entry, and a tie keeps the first. The confidence is the
    total score of that entry, the estimated cost is 0 and the estimated
    latency 50. *)
Theorem default_preferences_choose_llama (config : Config)
        (query : string) (context : option string) :
  available (init config) "llama3.1:8b" = true ->
  let decision := route_query fmt2f (init config) query context None in
  model decision = "llama3.1:8b" /\
  confidence decision =
    total_score (analyze_query_complexity query context) []
                (mkModelInfo 0 50 ["general"; "reasoning"] 128000) /\
  estimated_cost decision = 0 /\
  estimated_latency decision = 50.
Proof.
  intros Hllama decision. subst decision.
  set (analysis := analyze_query_complexity query context).
  pose proof (scoring_loop_state fmt2f (init config) analysis [])
    as Hstate.
  unfold loop_state in Hstate.
  pose proof (llama_score query context) as Hscore. fold analysis in Hscore.
  destruct (best_model (scoring_loop fmt2f (init config) analysis []))
    as [winner |] eqn:Hbest.
  - destruct Hstate as [info [pre [post [Hcat [_ [Hs [_ [Hpre _]]]]]]]].
    change (model_info (init config)) with builtin_model_info in Hcat.
    assert (Hin : In (winner, info) builtin_model_info)
      by (rewrite Hcat; apply in_or_app; right; now left).
    pose proof (builtin_scores query context winner info Hin) as Hmax.
    fold analysis in Hmax.
    destruct pre as [| first pre].
    + unfold builtin_model_info in Hcat. simpl in Hcat.
      inversion Hcat; subst winner info.
      rewrite (route_query_of_winner (init config) query context None
                 _ _ Hbest).
      cbn [model confidence estimated_cost estimated_latency get_or].
      fold analysis. rewrite Hs.
      split; [reflexivity |]. split; [reflexivity |].
      split; reflexivity.
    + exfalso. unfold builtin_model_info in Hcat. simpl in Hcat.
      inversion Hcat as [[Hfirst Hrest]].
      assert (Hlt : total_score analysis []
                      (mkModelInfo 0 50 ["general"; "reasoning"] 128000)
                    < total_score analysis [] info).
      { apply (Hpre "llama3.1:8b"); [| exact Hllama].
        rewrite <- Hfirst. now left. }
      lra.
  - exfalso. destruct Hstate as [_ Hall].
    assert (Hle : total_score analysis []
                    (mkModelInfo 0 50 ["general"; "reasoning"] 128000)
                  <= -1).
    { apply (Hall "llama3.1:8b"); [| exact Hllama].
      change (model_info (init config)) with builtin_model_info.
      now left. }
    lra.
Qed.

End RouterProperties.

(* ================================================================== *)
(** ** Further properties of the memory *)

Section MemoryLemmas.

Import Memory.
Import Vocabulary.
Open Scope string_scope.
Open Scope list_scope.

Context {order : SetOrder}.

(** The loop, whatever the cap: an initial segment of the kept entries,
    and at most one entry past a cap that is already reached. *)
Lemma scan_prefix (query : string) (max_items : Z) (msgs : list Msg) :
  forall relevant_items,
    let result :=
      scan (Py.to_set (Py.split (Py.lower query))) max_items msgs
           relevant_items in
    (exists rest,
        relevant_items ++ Spec.kept_entries query msgs = result ++ rest) /\
    (Z.of_nat (List.length result)
     <= Z.max (Z.of_nat (List.length relevant_items) + 1) max_items)%Z.
Proof.
  induction msgs as [| msg msgs IH]; intros items result; subst result.
  - simpl. split; [now exists [] | lia].
  - pose proof (visit_kept query msg) as Hv. cbv zeta in Hv.
    unfold Spec.kept_entries in *. cbn [scan filter].
    destruct (Spec.kept query msg).
    + rewrite Hv. cbn [map].
      destruct (Z.of_nat (List.length (items ++ [content msg]))
                >=? max_items)%Z eqn:Hcap.
      * split.
        -- exists (map content (filter (Spec.kept query) msgs)).
           now rewrite <- app_assoc.
        -- rewrite length_app. simpl. lia.
      * rewrite Z.geb_leb in Hcap. apply Z.leb_gt in Hcap.
        destruct (IH (items ++ [content msg])) as [[rest Hrest] Hlen].
        split.
        -- exists rest. rewrite <- Hrest. now rewrite <- app_assoc.
        -- rewrite length_app in Hlen, Hcap. simpl in Hlen, Hcap. lia.
    + destruct (IH items) as [Hrest Hlen].
      destruct Hv as [Hv | Hv]; rewrite Hv; [| now split].
      destruct (Z.of_nat (List.length items) >=? max_items)%Z;
        [| now split].
      split; [| lia].
      now exists (map content (filter (Spec.kept query) msgs)).
Qed.

(** [add_interaction] for every threshold: the two slices are taken at
    one index. *)
Lemma add_interaction_slices (mm : MemoryManager) (query response : string)
      (metadata : list (string * json)) :
  let k := compression_threshold mm in
  let log := memory_bank mm ++ [Spec.new_record query response metadata] in
  let cut := Py.slice_index (- k) (List.length log) in
  add_interaction mm query response metadata =
  if ((Z.of_nat (List.length log) >? max_memory_size mm)
      && (Z.of_nat (List.length log) >? k))%Z
  then mkMemoryManager
         (mkMsg (create_summary (firstn cut log)) "summary"
          :: skipn cut log)
         k (max_memory_size mm)
  else mkMemoryManager log k (max_memory_size mm).
Proof.
  intros k log cut. unfold add_interaction, compress_memory. cbv zeta.
  cbn [memory_bank max_memory_size compression_threshold].
  change (bank_add (memory_bank mm)
            (mkMsg (json_dumps (interaction query response metadata))
                   "memory")) with log.
  fold k.
  destruct (Z.of_nat (List.length log) >? max_memory_size mm)%Z;
    [| reflexivity].
  destruct (Z.of_nat (List.length log) >? k)%Z; cbn [andb];
    [| reflexivity].
  unfold Py.slice_from, Py.slice_to. fold cut.
  now rewrite fold_bank_add.
Qed.

Lemma skipn_keeps_last {A : Type} (i : nat) (l : list A) (x : A) :
  (i <= List.length l)%nat ->
  skipn i (l ++ [x]) = skipn i l ++ [x].
Proof.
  intros H. rewrite skipn_app.
  replace (i - List.length l)%nat with 0%nat by lia. reflexivity.
Qed.

(** With a threshold that is not negative the new record is the last
    entry of the log after the call. *)
Lemma add_interaction_last (mm : MemoryManager) (query response : string)
      (metadata : list (string * json)) :
  (0 <= compression_threshold mm)%Z ->
  exists front,
    memory_bank (add_interaction mm query response metadata) =
    front ++ [Spec.new_record query response metadata].
Proof.
  intros Hk. rewrite add_interaction_slices.
  set (record := Spec.new_record query response metadata).
  set (log := memory_bank mm ++ [record]).
  destruct (Z.gtb_spec (Z.of_nat (List.length log)) (max_memory_size mm));
    [| now exists (memory_bank mm)].
  destruct (Z.gtb_spec (Z.of_nat (List.length log))
                       (compression_threshold mm)) as [Hlen | Hlen];
    cbn [andb memory_bank]; [| now exists (memory_bank mm)].
  set (cut := Py.slice_index (- compression_threshold mm)
                             (List.length log)).
  assert (Hskip : skipn cut log = skipn cut (memory_bank mm) ++ [record]).
  { unfold log. apply skipn_keeps_last. subst cut. unfold log in *.
    rewrite length_app in *. simpl in *. unfold Py.slice_index.
    destruct (Z.ltb_spec (- compression_threshold mm) 0); lia. }
  rewrite Hskip. eexists (_ :: _). reflexivity.
Qed.

Lemma shares_token_self (query : string) :
  Py.split (Py.lower query) <> [] -> Spec.shares_token query query = true.
Proof.
  intros H. apply shares_token_common.
  destruct (Py.split (Py.lower query)) as [| w ws]; [contradiction |].
  exists w. split; now left.
Qed.

Lemma upper_char_lower (c : ascii) :
  Py.lower_char (upper_char c) = Py.lower_char c.
Proof.
  destruct c as [[] [] [] [] [] [] [] []]; reflexivity.
Qed.

Lemma upper_lower (s : string) : Py.lower (upper s) = Py.lower s.
Proof.
  induction s as [| c s IH]; simpl; [reflexivity |].
  now rewrite IH, upper_char_lower.
Qed.

End MemoryLemmas.

Section MemoryProperties.

Import Memory.
Import Vocabulary.
Open Scope string_scope.
Open Scope list_scope.

Context {order : SetOrder}.

(** X6. For every cap, also 0 and negative ones, the entries retrieval
    returns are an initial segment of the kept entries of the log taken
    newest first (the summaries and the records that share a token with
    the query): nothing else is returned, nothing is returned twice or
    out of order. There are at most [max_items] of them, and at most one
    when [max_items] is below 1. *)
Theorem retrieve_initial_segment (mm : MemoryManager) (query : string)
        (max_items : Z) :
  let items := relevant_items mm query max_items in
  (exists rest,
      Spec.kept_entries query (rev (memory_bank mm)) = items ++ rest) /\
  (forall item,
      In item items ->
      exists msg,
        In msg (memory_bank mm) /\ content msg = item /\
        Spec.kept query msg = true) /\
  (Z.of_nat (List.length items) <= Z.max 1 max_items)%Z.
Proof.
  intros items. subst items. unfold relevant_items. cbv zeta.
  destruct (scan_prefix query max_items (rev (memory_bank mm)) [])
    as [[rest Hrest] Hlen].
  simpl in Hrest, Hlen.
  split; [now exists rest |]. split; [| exact Hlen].
  intros item Hin.
  assert (Hkept : In item (Spec.kept_entries query (rev (memory_bank mm))))
    by (rewrite Hrest; apply in_or_app; now left).
  unfold Spec.kept_entries in Hkept. apply in_map_iff in Hkept.
  destruct Hkept as [msg [Hcontent Hmsg]]. apply filter_In in Hmsg.
  destruct Hmsg as [Hmsg Hk]. exists msg.
  split; [now apply in_rev | now split].
Qed.

(** X7. Adding an interaction and asking for its query again gives it
    back first: with a threshold that is not negative the new record is
    the last entry of the log, compacted or not, and with a cap of at
    least 1 and a query of at least one token it is the first entry
    retrieval returns. *)
Theorem retrieve_after_add (mm : MemoryManager) (query response : string)
        (metadata : list (string * json)) (max_items : Z) :
  (0 <= compression_threshold mm)%Z ->
  (1 <= max_items)%Z ->
  Py.split (Py.lower query) <> [] ->
  let mm' := add_interaction mm query response metadata in
  let record := Spec.new_record query response metadata in
  (exists front, memory_bank mm' = front ++ [record]) /\
  (exists rest, relevant_items mm' query max_items = content record :: rest).
Proof.
  intros Hk Hcap Htoken mm' record. subst mm' record.
  destruct (add_interaction_last mm query response metadata Hk)
    as [front Hlog].
  split; [now exists front |].
  rewrite relevant_items_capped by exact Hcap.
  rewrite Hlog, rev_app_distr. cbn [rev app].
  unfold Spec.kept_entries. cbn [filter].
  assert (Hkept : Spec.kept query
                    (Spec.new_record query response metadata) = true).
  { unfold Spec.kept, Spec.matches. simpl.
    now rewrite (shares_token_self query Htoken). }
  rewrite Hkept. cbn [map].
  destruct (Z.to_nat max_items) as [| n] eqn:Hn; [lia |].
  cbn [firstn]. now eexists.
Qed.

(** X8. Retrieval does not look at the case of a query of ASCII text:
    a query that differs from it in the case of its letters only, such
    as the query in upper case and the query in lower case, retrieves
    what the query itself retrieves. *)
Theorem retrieve_case_insensitive (mm : MemoryManager) (query : string)
        (max_items : Z) :
  Spec.ascii_text query = true ->
  (forall query',
      Spec.same_text query query' = true ->
      relevant_items mm query' max_items =
      relevant_items mm query max_items) /\
  relevant_items mm (upper query) max_items =
  relevant_items mm query max_items /\
  relevant_items mm (Py.lower query) max_items =
  relevant_items mm query max_items.
Proof.
  intros _. split.
  - intros query' Hsame.
    destruct (same_text_lower query query' Hsame) as [Hl _].
    unfold relevant_items. cbv zeta. now rewrite Hl.
  - unfold relevant_items. cbv zeta.
    now rewrite upper_lower, lower_idempotent.
Qed.

(** X9. Whatever the two configured sizes, [add_interaction] leaves them
    as they are and either appends the record, or splits the appended
    log in two, folds the first part into a summary and keeps the
    second part behind it: no entry is lost unfolded, repeated or moved. *)
Theorem add_interaction_partition (mm : MemoryManager)
        (query response : string) (metadata : list (string * json)) :
  let mm' := add_interaction mm query response metadata in
  let log := memory_bank mm ++ [Spec.new_record query response metadata] in
  compression_threshold mm' = compression_threshold mm /\
  max_memory_size mm' = max_memory_size mm /\
  (memory_bank mm' = log \/
   exists folded retained,
     log = folded ++ retained /\
     (Z.of_nat (List.length log) > max_memory_size mm)%Z /\
     memory_bank mm' =
     mkMsg (create_summary folded) "summary" :: retained).
Proof.
  intros mm' log. subst mm'.
  destruct (add_interaction_config mm query response metadata)
    as [Hk HM].
  split; [exact Hk |]. split; [exact HM |].
  rewrite add_interaction_slices. fold log.
  destruct (Z.gtb_spec (Z.of_nat (List.length log)) (max_memory_size mm));
    [| now left].
  destruct (Z.of_nat (List.length log) >? compression_threshold mm)%Z;
    cbn [andb memory_bank]; [| now left].
  right. eexists. eexists. split; [| split; [lia | reflexivity]].
  now rewrite firstn_skipn.
Qed.

(** X10. Along every sequence of calls of [add_interaction] on a fresh
    manager whose threshold is at least 1, the configuration stays what
    [__init__] made it, the log is a run of interaction records behind
    at most one summary, and its length is at most the larger of
    [max_memory_size] and the threshold plus 1. *)
Theorem replay_log_invariant (config : Config) (calls : list Call) :
  (1 <= compression_threshold (init config))%Z ->
  let mm := replay config calls in
  compression_threshold mm = compression_threshold (init config) /\
  max_memory_size mm = max_memory_size (init config) /\
  Spec.shaped (memory_bank mm) /\
  (Z.of_nat (List.length (memory_bank mm))
   <= Z.max (max_memory_size mm) (compression_threshold mm + 1))%Z.
Proof.
  intros Hk mm. subst mm.
  destruct (replay_config config calls) as [Hk' HM'].
  destruct (log_length_bounded config calls Hk) as [Hshape Hlen].
  rewrite Hk', HM'. now repeat split.
Qed.

(** X11. With a threshold of 0 nothing is ever folded: a call that
    takes the log past [max_memory_size] keeps every entry and puts a
    summary of no entries in front, so the log grows by two. *)
Theorem zero_threshold_keeps_everything (mm : MemoryManager)
        (query response : string) (metadata : list (string * json)) :
  compression_threshold mm = 0%Z ->
  let log := memory_bank mm ++ [Spec.new_record query response metadata] in
  memory_bank (add_interaction mm query response metadata) =
  if (Z.of_nat (List.length log) >? max_memory_size mm)%Z
  then mkMsg (create_summary []) "summary" :: log
  else log.
Proof.
  intros Hk log. rewrite add_interaction_slices. fold log. rewrite Hk.
  assert (Hlen : (Z.of_nat (List.length log) >? 0)%Z = true).
  { unfold log. rewrite length_app. simpl.
    destruct (Z.gtb_spec (Z.of_nat (List.length (memory_bank mm) + 1)) 0);
      [reflexivity | lia]. }
  rewrite Hlen.
  destruct (Z.of_nat (List.length log) >? max_memory_size mm)%Z;
    reflexivity.
Qed.

Lemma entry_words_undecodable (msg : Msg) :
  decodable msg = false ->
  Spec.entry_words msg = [] /\ Spec.folded_cost msg = 0%Q.
Proof.
  unfold decodable, Spec.entry_words, Spec.folded_cost.
  destruct (content msg); simpl; [discriminate | now split].
Qed.

Lemma folded_filter_decodable (memories : list Msg) :
  flat_map Spec.entry_words (filter decodable memories) =
  flat_map Spec.entry_words memories /\
  (Spec.sum (map Spec.folded_cost (filter decodable memories)) ==
   Spec.sum (map Spec.folded_cost memories))%Q.
Proof.
  induction memories as [| msg memories [IHw IHc]]; [now split |].
  cbn [filter flat_map map].
  destruct (decodable msg) eqn:Hd.
  - cbn [flat_map map]. split; [now rewrite IHw |].
    now rewrite !sum_cons, IHc.
  - destruct (entry_words_undecodable msg Hd) as [-> ->].
    split; [exact IHw |]. rewrite sum_cons, IHc. ring.
Qed.

(** X12. Entries that [json.loads] rejects are skipped when a summary is
    made and change only its count: without them the summary has the
    same topics and the same total cost. *)
Theorem summary_skips_undecodable (memories : list Msg) :
  main_topics (filter decodable memories) = main_topics memories /\
  (total_cost (fold_memories (filter decodable memories)) ==
   total_cost (fold_memories memories))%Q /\
  data_get (summary_dict memories) "period" JNull =
  Some (JStr (Py.str_of_nat (List.length memories) ++ " interactions")).
Proof.
  destruct (folded_filter_decodable memories) as [Hw Hc].
  split; [| split; [| reflexivity]].
  - unfold main_topics. now rewrite !fold_memories_topics, Hw.
  - now rewrite !fold_memories_total_cost.
Qed.

(** X13. The topics add up over concatenation: the words collected
    from two runs of entries are those of the first followed by those of
    the second, so the set of topics of a summary is the union of the
    sets of its parts and does not depend on which part comes first,
    and neither does the number of topics listed. *)
Theorem summary_topics_additive (older newer : list Msg) :
  topics (fold_memories (older ++ newer)) =
  topics (fold_memories older) ++ topics (fold_memories newer) /\
  (forall w,
      In w (set_list (topics (fold_memories (older ++ newer)))) <->
      In w (set_list (topics (fold_memories older))) \/
      In w (set_list (topics (fold_memories newer)))) /\
  List.length (main_topics (older ++ newer)) =
  List.length (main_topics (newer ++ older)).
Proof.
  assert (Happ : forall a b,
             topics (fold_memories (a ++ b)) =
             topics (fold_memories a) ++ topics (fold_memories b)).
  { intros a b. rewrite !fold_memories_topics. apply flat_map_app. }
  split; [apply Happ |]. split.
  - intros w. rewrite !set_list_In, Happ. apply in_app_iff.
  - unfold main_topics. rewrite !length_firstn. f_equal.
    apply NoDup_same_length; try apply set_list_NoDup.
    intros w. rewrite !set_list_In, !Happ, !in_app_iff. tauto.
Qed.

End MemoryProperties.

(* ================================================================== *)
(** ** The coordinator *)

Section AgentLemmas.

Import Agent.
Import Vocabulary.
Open Scope string_scope.
Open Scope list_scope.









Lemma filter_records_interactions (records : list Msg) :
  Forall Spec.is_interaction records ->
  filter Spec.is_record records = records.
Proof.
  induction 1 as [| msg records [q [r [md ->]]] _ IH]; simpl;
    [reflexivity | now rewrite IH].
Qed.

End AgentLemmas.

Section AgentProperties.

Import Agent.
Import Vocabulary.
Open Scope string_scope.
Open Scope list_scope.

Context {order : SetOrder}.

Variable fmt2f : Q -> string.
Variable fmt4f : Q -> string.
Variable str_number : Q -> string.
Variable characters : text -> string.




(** [route_query] does not read its context. *)
Lemma route_query_context (r : Router.IntelligentRouter) (query : string)
      (context1 context2 : option string)
      (user_preferences : option Router.Prefs) :
  Router.route_query fmt2f r query context1 user_preferences =
  Router.route_query fmt2f r query context2 user_preferences.
Proof. reflexivity. Qed.


(** X16. What one request does. The answer has the role [assistant];
    its text and its metadata are those of the decision the router takes
    for the query alone, with no preferences: neither the memory nor the
    retrieved context has a part in them, and the clock only in the
    timestamp and the latency. The router is left as it is, and, with a
    threshold that is not negative, the last entry of the log is the
    record of this request with this answer and this metadata. *)
Theorem reply_records_interaction (agent : OrchestratorAgent)
        (start_time end_time : Q) (x : ChatMsg) :
  (0 <= Memory.compression_threshold (memory_manager agent))%Z ->
  let result :=
    reply fmt2f fmt4f str_number characters agent start_time end_time x in
  let query := chat_content x in
  let decision :=
    Router.route_query fmt2f (router agent) query None None in
  let response := execute_query fmt4f str_number query decision "" in
  let metadata := reply_metadata start_time end_time decision in
  fst result = mkChatMsg response "assistant" (Some metadata) /\
  router (snd result) = router agent /\
  exists front,
    Memory.memory_bank (memory_manager (snd result)) =
    front ++ [Spec.new_record query response metadata].
Proof.
  intros Hk result query decision response metadata.
  subst result. unfold reply. cbv zeta. cbn [fst snd router memory_manager].
  fold query.
  rewrite (route_query_context (router agent) query _ None None).
  fold decision.
  change (execute_query fmt4f str_number query decision _) with response.
  fold metadata.
  split; [reflexivity |]. split; [reflexivity |].
  now apply add_interaction_last.
Qed.


End AgentProperties.

(* ------------------------------------------------------------------ *)
(** *** The further properties on concrete inputs *)

Section FurtherExamples.

Import Sample.
Import Cases.
Import Vocabulary.
Open Scope string_scope.
Open Scope list_scope.

(** The float nearest to 0.00045 lies below it, the one nearest to
    0.975 as well, and 0.125 is a float and a tie. *)
Example fmt4f_exact_sample :
  fmt4f_exact 0.00045 = "0.0004" /\ fmt4f_exact 12.5 = "12.5000" /\
  fmt2f_exact 0.975 = "0.97" /\ fmt2f_exact 0.125 = "0.12" /\
  fmt2f_exact (-0.001) = "-0.00" /\
  str_number_exact 800 = "800".
Proof. repeat split; vm_compute; reflexivity. Qed.



Lemma hostile_outscored :
  forall name info,
    In (name, info) (Router.model_info default_router) ->
    available default_router name = true ->
    (Router.total_score
       (Router.analyze_query_complexity "What is 2+2?" None)
       (Router.get_or (Some hostile) []) info <= -1)%Q.
Proof.
  intros name info Hin Hav. simpl in Hin.
  repeat (destruct Hin as [Hin | Hin];
          [inversion Hin; subst;
           first [discriminate Hav | vm_compute; discriminate] |]).
  contradiction.
Qed.

Lemma route_query_fallback_when_outscored_witness :
  let decision :=
    Router.route_query fmt2f_exact default_router "What is 2+2?" None
                       (Some hostile) in
  (forall name info,
      In (name, info) (Router.model_info default_router) ->
      available default_router name = true ->
      (Router.total_score
         (Router.analyze_query_complexity "What is 2+2?" None)
         (Router.get_or (Some hostile) []) info <= -1)%Q) /\
  Router.model decision = "llama3.1:8b" /\
  Router.reasoning decision = "Fallback to default model" /\
  Router.confidence decision = (-1)%Q.
Proof.
  intros decision. split; [exact hostile_outscored |].
  exact (route_query_fallback_when_outscored fmt2f_exact default_router
           "What is 2+2?" None (Some hostile) hostile_outscored).
Defined.

Lemma default_preferences_choose_llama_witness :
  let config := Router.mkConfig None None None None None in
  let decision :=
    Router.route_query fmt2f_exact (Router.init config)
                       "Draw a diagram of the house" None None in
  available (Router.init config) "llama3.1:8b" = true /\
  Router.model decision = "llama3.1:8b" /\
  Router.confidence decision =
    Router.total_score
      (Router.analyze_query_complexity "Draw a diagram of the house" None)
      [] (Router.mkModelInfo 0 50 ["general"; "reasoning"] 128000) /\
  Router.estimated_cost decision = 0%Q /\
  Router.estimated_latency decision = 50%Q.
Proof.
  intros config decision.
  assert (H : available (Router.init config) "llama3.1:8b" = true)
    by reflexivity.
  split; [exact H |].
  exact (default_preferences_choose_llama fmt2f_exact config
           "Draw a diagram of the house" None H).
Defined.

Lemma retrieve_case_insensitive_witness :
  let query := "Hello" in
  Spec.ascii_text query = true /\
  (forall query',
      Spec.same_text query query' = true ->
      Memory.relevant_items greeting_memory query' 2 =
      Memory.relevant_items greeting_memory query 2) /\
  Memory.relevant_items greeting_memory (upper query) 2 =
  Memory.relevant_items greeting_memory query 2 /\
  Memory.relevant_items greeting_memory (Py.lower query) 2 =
  Memory.relevant_items greeting_memory query 2.
Proof.
  intros query.
  assert (H : Spec.ascii_text query = true) by reflexivity.
  split; [exact H |].
  exact (retrieve_case_insensitive greeting_memory query 2 H).
Defined.

Lemma retrieve_after_add_witness :
  let mm' :=
    Memory.add_interaction (order := nodup_order) greeting_memory
      "Delta question" "answer" [("cost", JNum 8)] in
  let record :=
    Spec.new_record "Delta question" "answer" [("cost", JNum 8)] in
  (0 <= Memory.compression_threshold greeting_memory)%Z /\
  (1 <= 3)%Z /\
  Py.split (Py.lower "Delta question") <> [] /\
  (exists front, Memory.memory_bank mm' = front ++ [record]) /\
  (exists rest,
      Memory.relevant_items mm' "Delta question" 3 = content record :: rest).
Proof.
  intros mm' record.
  assert (H1 : (0 <= Memory.compression_threshold greeting_memory)%Z)
    by (vm_compute; discriminate).
  assert (H2 : (1 <= 3)%Z) by lia.
  assert (H3 : Py.split (Py.lower "Delta question") <> [])
    by (vm_compute; discriminate).
  repeat (split; [assumption |]).
  exact (retrieve_after_add (order := nodup_order) greeting_memory
           "Delta question" "answer" [("cost", JNum 8)] 3 H1 H2 H3).
Defined.

Lemma replay_log_invariant_witness :
  let mm := Memory.replay (order := nodup_order) roomy_config three_calls in
  (1 <= Memory.compression_threshold (Memory.init roomy_config))%Z /\
  Memory.compression_threshold mm =
  Memory.compression_threshold (Memory.init roomy_config) /\
  Memory.max_memory_size mm =
  Memory.max_memory_size (Memory.init roomy_config) /\
  Spec.shaped (order := nodup_order) (Memory.memory_bank mm) /\
  (Z.of_nat (List.length (Memory.memory_bank mm))
   <= Z.max (Memory.max_memory_size mm)
            (Memory.compression_threshold mm + 1))%Z.
Proof.
  intros mm.
  assert (H : (1 <= Memory.compression_threshold
                      (Memory.init roomy_config))%Z)
    by (vm_compute; discriminate).
  split; [exact H |].
  exact (replay_log_invariant (order := nodup_order) roomy_config
           three_calls H).
Defined.

Lemma zero_threshold_keeps_everything_witness :
  let log :=
    Memory.memory_bank zero_memory ++
    [Spec.new_record "hello world" "second answer" [("cost", JNum 2)]] in
  Memory.compression_threshold zero_memory = 0%Z /\
  Memory.memory_bank
    (Memory.add_interaction (order := nodup_order) zero_memory
       "hello world" "second answer" [("cost", JNum 2)]) =
  (if (Z.of_nat (List.length log) >? Memory.max_memory_size zero_memory)%Z
   then mkMsg (Memory.create_summary (order := nodup_order) []) "summary"
        :: log
   else log).
Proof.
  intros log.
  assert (H : Memory.compression_threshold zero_memory = 0%Z)
    by reflexivity.
  split; [exact H |].
  exact (zero_threshold_keeps_everything (order := nodup_order)
           zero_memory "hello world" "second answer" [("cost", JNum 2)] H).
Defined.


Example get_stats_after_compaction :
  let stats :=
    Agent.get_stats
      (Agent.mkAgent default_router
         (Memory.replay (order := nodup_order) roomy_config three_calls)) in
  Agent.stat_total_interactions stats = 1%nat /\
  Agent.stat_memory_size stats = 2%nat /\
  (Agent.stat_total_cost stats == 4)%Q /\
  Agent.stat_model_usage stats = [(JNull, 1%nat)].
Proof. repeat split; reflexivity. Qed.

Lemma reply_records_interaction_witness :
  let result :=
    Agent.reply (order := nodup_order) fmt2f_exact fmt4f_exact
                str_number_exact characters_plain fresh_agent 10 12 request
  in
  let query := Agent.chat_content request in
  let decision :=
    Router.route_query fmt2f_exact (Agent.router fresh_agent) query None
                       None in
  let response :=
    Agent.execute_query fmt4f_exact str_number_exact query decision "" in
  let metadata := Agent.reply_metadata 10 12 decision in
  (0 <= Memory.compression_threshold
          (Agent.memory_manager fresh_agent))%Z /\
  fst result = Agent.mkChatMsg response "assistant" (Some metadata) /\
  Agent.router (snd result) = Agent.router fresh_agent /\
  exists front,
    Memory.memory_bank (Agent.memory_manager (snd result)) =
    front ++ [Spec.new_record query response metadata].
Proof.
  intros result query decision response metadata.
  assert (H : (0 <= Memory.compression_threshold
                      (Agent.memory_manager fresh_agent))%Z)
    by (vm_compute; discriminate).
  split; [exact H |].
  exact (reply_records_interaction (order := nodup_order) fmt2f_exact
           fmt4f_exact str_number_exact characters_plain fresh_agent
           10 12 request H).
Defined.


Example reply_on_fresh_agent :
  let result :=
    Agent.reply (order := nodup_order) fmt2f_exact fmt4f_exact
                str_number_exact characters_plain fresh_agent 10 12 request
  in
  Agent.chat_metadata (fst result) =
  Some [ ("timestamp", JNum 10); ("model", JStr "llama3.1:8b");
         ("cost", JNum 0); ("latency", JNum ((12 - 10) * 1000));
         ("routing_reasoning",
          JStr (Router.reasoning
                  (Router.route_query fmt2f_exact
                     (Agent.router fresh_agent)
                     "Draw a diagram of the house" None None))) ] /\
  Agent.stat_model_usage (Agent.get_stats (snd result)) =
  [(JStr "llama3.1:8b", 1%nat)].
Proof. split; reflexivity. Qed.

End FurtherExamples.
(* ================================================================== *)
(** ** The environment file *)

Section StringFacts.

Import Service.
Import Vocabulary.
Open Scope string_scope.

Lemma append_assoc (a b c : string) : (a ++ b) ++ c = a ++ (b ++ c).
Proof.
  induction a as [| x a IH]; simpl; [reflexivity | now rewrite IH].
Qed.

Lemma append_empty (a : string) : a ++ "" = a.
Proof.
  induction a as [| x a IH]; simpl; [reflexivity | now rewrite IH].
Qed.

Lemma append_cancel (a b c : string) : a ++ b = a ++ c -> b = c.
Proof.
  induction a as [| x a IH]; simpl; intros H; [exact H |].
  apply IH. now inversion H.
Qed.

Lemma all_chars_app (p : ascii -> bool) (a b : string) :
  all_chars p (a ++ b) = all_chars p a && all_chars p b.
Proof.
  induction a as [| x a IH]; simpl; [reflexivity |].
  now rewrite IH, andb_assoc.
Qed.

Lemma all_chars_weaken (p q : ascii -> bool) (s : string) :
  (forall c, p c = true -> q c = true) ->
  all_chars p s = true -> all_chars q s = true.
Proof.
  intros Hpq. induction s as [| c s IH]; simpl; [reflexivity |].
  intros H. apply andb_true_iff in H. destruct H as [Hc Hs].
  now rewrite (Hpq c Hc), IH.
Qed.

(** *** Stripping *)

Lemma rstrip_nonspace (c : ascii) (s : string) :
  Py.is_space c = false -> rstrip (String c s) = String c (rstrip s).
Proof.
  intros Hc. simpl. rewrite Hc. now destruct (rstrip s).
Qed.

Lemma rstrip_app_blank (s t : string) :
  rstrip t = "" -> rstrip (s ++ t) = rstrip s.
Proof.
  intros Ht. induction s as [| c s IH]; simpl; [exact Ht |].
  now rewrite IH.
Qed.

Lemma rstrip_app_kept (s t : string) :
  rstrip t <> "" -> rstrip (s ++ t) = s ++ rstrip t.
Proof.
  intros Ht. induction s as [| c s IH]; simpl; [reflexivity |].
  rewrite IH. destruct (s ++ rstrip t) eqn:E; [| reflexivity].
  exfalso. destruct s; simpl in E; [contradiction | discriminate].
Qed.

Lemma rstrip_idempotent (s : string) : rstrip (rstrip s) = rstrip s.
Proof.
  induction s as [| c s IH]; simpl; [reflexivity |].
  destruct (rstrip s) as [| d kept] eqn:E.
  - destruct (Py.is_space c) eqn:Hc; [reflexivity |].
    simpl. now rewrite Hc.
  - change (rstrip (String c (String d kept))
            = String c (String d kept)).
    simpl. simpl in IH. now rewrite IH.
Qed.

Lemma rstrip_lstrip (s : string) :
  rstrip s = s -> rstrip (lstrip s) = lstrip s.
Proof.
  induction s as [| c s IH]; intros H; [reflexivity |].
  simpl. destruct (Py.is_space c) eqn:Hc; [| exact H].
  apply IH. simpl in H. rewrite Hc in H.
  destruct (rstrip s) as [| d kept]; [discriminate | now inversion H].
Qed.

Lemma strip_stripped (s : string) : rstrip (strip s) = strip s.
Proof. unfold strip. apply rstrip_lstrip, rstrip_idempotent. Qed.

Lemma lstrip_head (s : string) (c : ascii) (rest : string) :
  lstrip s = String c rest -> Py.is_space c = false.
Proof.
  induction s as [| d s IH]; simpl; [discriminate |].
  destruct (Py.is_space d) eqn:Hd; [exact IH |].
  intros H. inversion H. now subst.
Qed.

Lemma all_chars_lstrip (p : ascii -> bool) (s : string) :
  all_chars p s = true -> all_chars p (lstrip s) = true.
Proof.
  induction s as [| c s IH]; simpl; [reflexivity |].
  intros H. destruct (Py.is_space c); [| exact H].
  apply IH. apply andb_true_iff in H. tauto.
Qed.

Lemma all_chars_rstrip (p : ascii -> bool) (s : string) :
  all_chars p s = true -> all_chars p (rstrip s) = true.
Proof.
  induction s as [| c s IH]; simpl; [reflexivity |].
  intros H. apply andb_true_iff in H. destruct H as [Hc Hs].
  specialize (IH Hs). destruct (rstrip s) as [| d kept].
  - destruct (Py.is_space c); simpl; [reflexivity | now rewrite Hc].
  - change (all_chars p (String c (String d kept)) = true).
    simpl. simpl in IH. now rewrite Hc, IH.
Qed.

(** *** Splitting at the first separator *)

Lemma split_once_spec (sep : ascii) (s before after : string) :
  split_once sep s = Some (before, after) ->
  s = before ++ String sep after /\
  all_chars (fun c => negb (Ascii.eqb c sep)) before = true.
Proof.
  revert before. induction s as [| c s IH]; simpl; intros before H;
    [discriminate |].
  destruct (Ascii.eqb c sep) eqn:Hc.
  - inversion H; subst. apply Ascii.eqb_eq in Hc. subst. now split.
  - destruct (split_once sep s) as [[b a] |]; [| discriminate].
    inversion H; subst. destruct (IH b eq_refl) as [-> Hb].
    simpl. now rewrite Hc, Hb.
Qed.

Lemma split_once_app (sep : ascii) (before after : string) :
  all_chars (fun c => negb (Ascii.eqb c sep)) before = true ->
  split_once sep (before ++ String sep after) = Some (before, after).
Proof.
  induction before as [| c before IH]; simpl; intros H.
  - now rewrite Ascii.eqb_refl.
  - apply andb_true_iff in H. destruct H as [Hc Hb].
    apply negb_true_iff in Hc. now rewrite Hc, (IH Hb).
Qed.

End StringFacts.

Section EnvFacts.

Import Service.
Import Vocabulary.
Open Scope string_scope.

(** *** The dict *)

Lemma env_set_keys (key value : string) (env_vars : Env) :
  map fst (env_set key value env_vars) =
  if Py.mem key (map fst env_vars) then map fst env_vars
  else (map fst env_vars ++ [key])%list.
Proof.
  induction env_vars as [| [k v] env_vars IH]; simpl; [reflexivity |].
  destruct (String.eqb key k) eqn:E; simpl; [reflexivity |].
  rewrite IH. fold (Py.mem key (map fst env_vars)).
  now destruct (Py.mem key (map fst env_vars)).
Qed.

Lemma env_set_NoDup (key value : string) (env_vars : Env) :
  NoDup (map fst env_vars) -> NoDup (map fst (env_set key value env_vars)).
Proof.
  intros H. rewrite env_set_keys.
  destruct (Py.mem key (map fst env_vars)) eqn:E; [exact H |].
  apply NoDup_app; [exact H | repeat constructor; intros [] |].
  intros k Hin [Hk | []]. subst k.
  apply mem_In in Hin. congruence.
Qed.

Lemma env_set_fresh (key value : string) (env_vars : Env) :
  ~ In key (map fst env_vars) ->
  env_set key value env_vars = (env_vars ++ [(key, value)])%list.
Proof.
  induction env_vars as [| [k v] env_vars IH]; simpl; intros H;
    [reflexivity |].
  destruct (String.eqb_spec key k) as [-> | Hne]; [tauto |].
  rewrite IH; [reflexivity | tauto].
Qed.

Lemma env_set_ok (key value : string) (env_vars : Env) :
  key_ok key = true -> value_ok value = true ->
  forallb entry_ok env_vars = true ->
  forallb entry_ok (env_set key value env_vars) = true.
Proof.
  intros Hk Hv. induction env_vars as [| [k v] env_vars IH]; simpl.
  - intros _. unfold entry_ok. simpl. now rewrite Hk, Hv.
  - intros H. apply andb_true_iff in H. destruct H as [He Hrest].
    destruct (String.eqb_spec key k) as [-> | Hne]; simpl.
    + rewrite Hrest. unfold entry_ok in *. simpl in *.
      apply andb_true_iff in He. destruct He as [He _].
      now rewrite He, Hv.
    + now rewrite He, IH.
Qed.

Lemma find_env_set_same (key value : string) (env_vars : Env) :
  Py.dict_find key (env_set key value env_vars) = Some value.
Proof.
  induction env_vars as [| [k v] env_vars IH]; simpl.
  - now rewrite String.eqb_refl.
  - destruct (String.eqb key k) eqn:E; simpl; now rewrite E.
Qed.

Lemma find_env_set_other (key other value : string) (env_vars : Env) :
  other <> key ->
  Py.dict_find other (env_set key value env_vars) =
  Py.dict_find other env_vars.
Proof.
  intros Hne. induction env_vars as [| [k v] env_vars IH]; simpl.
  - apply String.eqb_neq in Hne. now rewrite Hne.
  - destruct (String.eqb_spec key k) as [-> | Hk]; simpl.
    + apply String.eqb_neq in Hne. now rewrite Hne.
    + now rewrite IH.
Qed.

Lemma find_ok (key value : string) (env_vars : Env) :
  forallb entry_ok env_vars = true ->
  Py.dict_find key env_vars = Some value -> value_ok value = true.
Proof.
  induction env_vars as [| [k v] env_vars IH]; simpl; [discriminate |].
  intros H Hfind. apply andb_true_iff in H. destruct H as [He Hrest].
  destruct (String.eqb key k).
  - inversion Hfind; subst. unfold entry_ok in He.
    apply andb_true_iff in He. tauto.
  - now apply IH.
Qed.

(** *** The lines of a file *)

Lemma plain_snoc (cur : string) (c : ascii) :
  plain cur = true -> Ascii.eqb c LF = false -> Ascii.eqb c CR = false ->
  plain (cur ++ String c "") = true.
Proof.
  intros Hcur H1 H2. unfold plain in *. rewrite all_chars_app, Hcur.
  simpl. now rewrite H1, H2.
Qed.

Lemma read_lines_from_like (n : nat) :
  forall s cur,
    (String.length s <= n)%nat -> plain cur = true ->
    Forall line_like (read_lines_from cur s).
Proof.
  induction n as [| n IH]; intros s cur Hlen Hcur.
  - destruct s; [| simpl in Hlen; lia]. simpl.
    destruct cur; [constructor |].
    constructor; [| constructor]. exists (String a cur). now split; [| right].
  - destruct s as [| c rest]; simpl.
    + destruct cur; [constructor |].
      constructor; [| constructor]. exists (String a cur).
      now split; [| right].
    + simpl in Hlen.
      assert (Hline : line_like (cur ++ String LF ""))
        by (exists cur; split; [exact Hcur | now left]).
      destruct (Ascii.eqb c LF) eqn:E1.
      * constructor; [exact Hline |]. apply IH; [lia | reflexivity].
      * destruct (Ascii.eqb c CR) eqn:E2.
        -- destruct rest as [| d rest'].
           ++ constructor; [exact Hline | constructor].
           ++ simpl in Hlen. destruct (Ascii.eqb d LF).
              ** constructor; [exact Hline |].
                 destruct n; [lia |]. apply IH; [simpl; lia | reflexivity].
              ** constructor; [exact Hline |].
                 apply IH; [simpl; lia | reflexivity].
        -- apply IH; [lia | now apply plain_snoc].
Qed.

Lemma read_lines_like (content : string) :
  Forall line_like (read_lines content).
Proof.
  apply (read_lines_from_like (String.length content)); [lia | reflexivity].
Qed.

(** A line of text followed by a line feed is read as one line. *)
Lemma read_lines_from_plain (text rest : string) :
  plain text = true ->
  forall cur,
    read_lines_from cur (text ++ String LF rest) =
    (cur ++ text ++ String LF "") :: read_lines_from "" rest.
Proof.
  intros Hplain. induction text as [| c text IH]; intros cur.
  - simpl. reflexivity.
  - unfold plain in Hplain. simpl in Hplain.
    apply andb_true_iff in Hplain. destruct Hplain as [Hc Htext].
    apply andb_true_iff in Hc. destruct Hc as [H1 H2].
    apply negb_true_iff in H1, H2.
    cbn [append read_lines_from]. rewrite H1, H2.
    rewrite (IH Htext). now rewrite append_assoc.
Qed.

(** *** One line of the file *)

Lemma strip_line_like (line : string) :
  line_like line ->
  plain (strip line) = true /\ rstrip (strip line) = strip line.
Proof.
  intros [body [Hbody Hline]]. split; [| apply strip_stripped].
  assert (Hstrip : strip line = strip body).
  { destruct Hline as [-> | ->]; [| reflexivity].
    unfold strip. now rewrite rstrip_app_blank. }
  rewrite Hstrip. unfold strip, plain.
  now apply all_chars_lstrip, all_chars_rstrip.
Qed.

Lemma prefix_hash (c : ascii) (rest : string) :
  startswith "#" (String c rest) = false -> Ascii.eqb c "#" = false.
Proof.
  unfold startswith. simpl.
  destruct (ascii_dec "#" c) as [<- | Hne]; [now destruct rest |].
  intros _. apply Ascii.eqb_neq. congruence.
Qed.

(** What a line does to the dict: nothing, or one assignment of a
    well-formed name and value. *)
Lemma load_line_cases (env_vars : Env) (line : string) :
  line_like line ->
  load_line env_vars line = env_vars \/
  exists key value,
    key_ok key = true /\ value_ok value = true /\
    load_line env_vars line = env_set key value env_vars.
Proof.
  intros Hline. destruct (strip_line_like line Hline) as [Hplain Hstripped].
  unfold load_line. cbv zeta.
  destruct (negb (String.eqb (strip line) "")
            && negb (startswith "#" (strip line))
            && Py.contains "=" (strip line)) eqn:Hcond; [| now left].
  destruct (split_once "=" (strip line)) as [[key value] |] eqn:Hsplit;
    [| now left].
  right. exists key, value. split; [| split; [| reflexivity]].
  - apply split_once_spec in Hsplit. destruct Hsplit as [Heq Hnoeq].
    apply andb_true_iff in Hcond. destruct Hcond as [Hcond _].
    apply andb_true_iff in Hcond. destruct Hcond as [_ Hhash].
    apply negb_true_iff in Hhash.
    rewrite Heq in Hplain, Hhash. unfold plain in Hplain.
    rewrite all_chars_app in Hplain.
    apply andb_true_iff in Hplain. destruct Hplain as [Hk _].
    unfold key_ok, plain, no_equals. rewrite Hk, Hnoeq. simpl.
    destruct key as [| c key]; [reflexivity |].
    simpl in Hhash. rewrite (prefix_hash c _ Hhash).
    unfold strip in Heq. simpl in Heq.
    now rewrite (lstrip_head _ _ _ Heq).
  - apply split_once_spec in Hsplit. destruct Hsplit as [Heq _].
    rewrite Heq in Hplain, Hstripped. unfold plain in Hplain.
    rewrite all_chars_app in Hplain. simpl in Hplain.
    apply andb_true_iff in Hplain. destruct Hplain as [_ Hv].
    unfold value_ok, plain. rewrite Hv. simpl.
    rewrite rstrip_app_kept in Hstripped.
    + apply append_cancel in Hstripped.
      rewrite rstrip_nonspace in Hstripped by reflexivity.
      inversion Hstripped as [Hr]. rewrite Hr. now rewrite Hr, String.eqb_refl.
    + rewrite rstrip_nonspace by reflexivity. discriminate.
Qed.

Lemma fold_load_line_ok (lines : list string) :
  Forall line_like lines ->
  forall env_vars,
    NoDup (map fst env_vars) -> forallb entry_ok env_vars = true ->
    NoDup (map fst (fold_left load_line lines env_vars)) /\
    forallb entry_ok (fold_left load_line lines env_vars) = true.
Proof.
  induction 1 as [| line lines Hline _ IH]; intros env_vars Hnd Hok;
    [now split |].
  simpl. destruct (load_line_cases env_vars line Hline)
    as [-> | [key [value [Hk [Hv ->]]]]].
  - now apply IH.
  - apply IH; [now apply env_set_NoDup | now apply env_set_ok].
Qed.

End EnvFacts.

Section SecretFacts.

Import Service.
Import Vocabulary.
Open Scope string_scope.

Lemma alnum_alphabet (c : ascii) :
  In c (list_ascii_of_string alphabet) -> alnum c = true.
Proof.
  intros H. unfold alnum. apply existsb_exists. exists c.
  split; [exact H | apply Ascii.eqb_refl].
Qed.

(** What holds of every character of the alphabet holds of every
    character that passes [alnum]. *)
Lemma alnum_forall (p : ascii -> bool) (c : ascii) :
  forallb p (list_ascii_of_string alphabet) = true ->
  alnum c = true -> p c = true.
Proof.
  intros Hall Hc. unfold alnum in Hc. apply existsb_exists in Hc.
  destruct Hc as [a [Hin Heq]]. apply Ascii.eqb_eq in Heq. subst a.
  now apply (proj1 (forallb_forall _ _) Hall).
Qed.

Lemma alnum_solid (c : ascii) : alnum c = true -> solid c = true.
Proof. apply (alnum_forall solid). reflexivity. Qed.

Lemma alnum_not_underscore (c : ascii) :
  alnum c = true -> negb (Ascii.eqb c "_") = true.
Proof.
  apply (alnum_forall (fun c => negb (Ascii.eqb c "_"))). reflexivity.
Qed.

Lemma generate_key_alnum (choice : Choice) (length : nat) :
  forall calls, all_chars alnum (generate_key choice calls length) = true.
Proof.
  induction length as [| length IH]; intros calls; simpl; [reflexivity |].
  now rewrite (alnum_alphabet _ (pick_alphabet choice calls)), IH.
Qed.

Lemma generate_key_length (choice : Choice) (length : nat) :
  forall calls, String.length (generate_key choice calls length) = length.
Proof.
  induction length as [| length IH]; intros calls; simpl;
    [reflexivity | now rewrite IH].
Qed.

Lemma solid_plain (s : string) :
  all_chars solid s = true -> plain s = true.
Proof.
  apply all_chars_weaken. intros c. unfold solid, Py.is_space.
  destruct c as [[] [] [] [] [] [] [] []]; simpl; intros H;
    first [reflexivity | discriminate H].
Qed.

Lemma solid_rstrip (s : string) :
  all_chars solid s = true -> rstrip s = s.
Proof.
  induction s as [| c s IH]; simpl; [reflexivity |].
  intros H. apply andb_true_iff in H. destruct H as [Hc Hs].
  unfold solid in Hc. apply negb_true_iff in Hc.
  rewrite (IH Hs), Hc. now destruct s.
Qed.

Lemma solid_value_ok (s : string) :
  all_chars solid s = true -> value_ok s = true.
Proof.
  intros H. unfold value_ok.
  now rewrite (solid_plain s H), (solid_rstrip s H), String.eqb_refl.
Qed.

Lemma alnum_no_placeholder (s : string) :
  all_chars alnum s = true -> startswith "your_" s = false.
Proof.
  intros H. destruct (startswith "your_" s) eqn:E; [| reflexivity].
  unfold startswith in E. apply prefix_app in E. destruct E as [rest ->].
  simpl in H. repeat (apply andb_true_iff in H; destruct H as [? H]).
  discriminate.
Qed.

Lemma generate_key_usable (choice : Choice) (calls length : nat) :
  usable (generate_key choice calls (S length)) = true /\
  all_chars solid (generate_key choice calls (S length)) = true.
Proof.
  pose proof (generate_key_alnum choice (S length) calls) as H.
  split.
  - unfold usable. rewrite (alnum_no_placeholder _ H). reflexivity.
  - revert H. apply all_chars_weaken, alnum_solid.
Qed.

Lemma prefixed_key_usable (choice : Choice) (calls length : nat)
      (c : ascii) (tag : string) :
  c <> "y"%char -> all_chars solid (String c tag) = true ->
  usable (String c tag ++ generate_key choice calls length) = true /\
  all_chars solid (String c tag ++ generate_key choice calls length) = true.
Proof.
  intros Hc Htag. split.
  - unfold usable. apply andb_true_iff. split; [reflexivity |].
    apply negb_true_iff.
    destruct (startswith "your_"
                (String c tag ++ generate_key choice calls length)) eqn:E;
      [| reflexivity].
    unfold startswith in E. apply prefix_app in E.
    destruct E as [rest E]. inversion E. congruence.
  - rewrite all_chars_app, Htag.
    pose proof (generate_key_alnum choice length calls) as H.
    revert H. apply all_chars_weaken, alnum_solid.
Qed.

(** The secrets [generate_secrets] makes can be kept and written. *)
Lemma generate_secrets_ok (choice : Choice) :
  Forall (fun secret : string * string =>
            usable (snd secret) = true /\
            all_chars solid (snd secret) = true)
         (generate_secrets choice).
Proof.
  unfold generate_secrets.
  repeat (constructor;
          [first [apply generate_key_usable
                 | apply prefixed_key_usable;
                   [discriminate | reflexivity]] |]).
  constructor.
Qed.

End SecretFacts.

Section RenderFacts.

Import Service.
Import Vocabulary.
Open Scope string_scope.

Lemma concat_lines (line : string) (lines : list string) :
  String.concat "" (line :: lines) = line ++ String.concat "" lines.
Proof.
  destruct lines as [| next lines]; simpl.
  - now rewrite append_empty.
  - reflexivity.
Qed.

(** Reading the written lines back gives these lines. *)
Lemma read_lines_rendered (env_vars : Env) :
  forallb entry_ok env_vars = true ->
  read_lines_from "" (String.concat "" (map line_of env_vars)) =
  map line_of env_vars.
Proof.
  induction env_vars as [| [key value] env_vars IH]; intros Hok.
  - reflexivity.
  - simpl in Hok. apply andb_prop in Hok. destruct Hok as [Hentry Hrest].
    change (map line_of ((key, value) :: env_vars))
      with (line_of (key, value) :: map line_of env_vars).
    rewrite concat_lines.
    assert (Hplain : plain (key ++ "=" ++ value) = true).
    { unfold entry_ok, key_ok, value_ok in Hentry. simpl in Hentry.
      apply andb_prop in Hentry. destruct Hentry as [Hk Hv].
      apply andb_prop in Hk. destruct Hk as [Hk _].
      apply andb_prop in Hk. destruct Hk as [Hk _].
      apply andb_prop in Hv. destruct Hv as [Hv _].
      unfold plain in *. rewrite all_chars_app, Hk.
      change ("=" ++ value) with (String "=" value).
      simpl. exact Hv. }
    assert (Hline : forall rest,
               line_of (key, value) ++ rest =
               (key ++ "=" ++ value) ++ String LF rest).
    { intros rest. unfold line_of. simpl fst. simpl snd.
      rewrite !append_assoc. reflexivity. }
    rewrite Hline, (read_lines_from_plain _ _ Hplain), (IH Hrest).
    f_equal. unfold line_of. simpl fst. simpl snd.
    now rewrite !append_assoc.
Qed.

(** A written line defines its entry. *)
Lemma load_line_rendered (env_vars : Env) (key value : string) :
  entry_ok (key, value) = true ->
  load_line env_vars (line_of (key, value)) = env_set key value env_vars.
Proof.
  intros Hentry.
  unfold entry_ok, key_ok, value_ok in Hentry. simpl fst in Hentry.
  simpl snd in Hentry.
  apply andb_prop in Hentry. destruct Hentry as [Hk Hv].
  apply andb_prop in Hk. destruct Hk as [Hk Hhead].
  apply andb_prop in Hk. destruct Hk as [_ Hequals].
  apply andb_prop in Hv. destruct Hv as [_ Hv].
  apply String.eqb_eq in Hv.
  assert (Hr : rstrip (line_of (key, value)) = key ++ String "=" value).
  { unfold line_of. simpl fst. simpl snd.
    assert (Htail : rstrip ("=" ++ value ++ String LF "")
                    = String "=" value).
    { change ("=" ++ value ++ String LF "")
        with (String "=" (value ++ String LF "")).
      rewrite rstrip_nonspace by reflexivity.
      rewrite rstrip_app_blank by reflexivity. now rewrite Hv. }
    rewrite rstrip_app_kept; rewrite Htail; [reflexivity | discriminate]. }
  assert (Hl : lstrip (key ++ String "=" value) = key ++ String "=" value).
  { destruct key as [| c key]; [reflexivity |].
    apply andb_prop in Hhead. destruct Hhead as [Hsp _].
    apply negb_true_iff in Hsp. simpl. now rewrite Hsp. }
  unfold load_line, strip. rewrite Hr, Hl.
  assert (Hne : (key ++ String "=" value =? "") = false).
  { now destruct key. }
  assert (Hhash : startswith "#" (key ++ String "=" value) = false).
  { destruct key as [| c key]; [reflexivity |].
    apply andb_prop in Hhead. destruct Hhead as [_ Hh].
    apply negb_true_iff in Hh.
    destruct (startswith "#" (String c key ++ String "=" value)) eqn:E;
      [| reflexivity].
    unfold startswith in E. apply prefix_app in E.
    destruct E as [after E]. simpl in E. inversion E. subst c.
    discriminate. }
  assert (Hin : Py.contains "=" (key ++ String "=" value) = true).
  { apply contains_substring. exists key, value. reflexivity. }
  rewrite Hne, Hhash, Hin. simpl.
  now rewrite (split_once_app "=" key value Hequals).
Qed.

Lemma fold_load_rendered (entries : Env) :
  forall env_vars,
    NoDup (map fst (env_vars ++ entries)%list) ->
    forallb entry_ok entries = true ->
    fold_left load_line (map line_of entries) env_vars =
    (env_vars ++ entries)%list.
Proof.
  induction entries as [| [key value] entries IH]; intros env_vars Hnd Hok.
  - simpl. now rewrite app_nil_r.
  - simpl in Hok. apply andb_prop in Hok. destruct Hok as [Hentry Hrest].
    cbn [map fold_left]. rewrite (load_line_rendered _ _ _ Hentry).
    assert (Hfresh : ~ In key (map fst env_vars)).
    { rewrite map_app in Hnd. simpl in Hnd.
      apply NoDup_remove_2 in Hnd. intros Hin. apply Hnd.
      apply in_or_app. now left. }
    rewrite (env_set_fresh _ _ _ Hfresh).
    rewrite IH; [now rewrite <- app_assoc | | exact Hrest].
    now rewrite <- app_assoc.
Qed.

Lemma render_lines (env_vars : Env) :
  forallb entry_ok env_vars = true ->
  read_lines (render env_vars) =
  ("# LLM Orchestrator Configuration" ++ String LF "")
  :: ("# Auto-generated and updated by start_services.py" ++ String LF "")
  :: String LF ""
  :: map line_of env_vars.
Proof.
  intros Hok. unfold read_lines.
  change (render env_vars)
    with ("# LLM Orchestrator Configuration" ++
          String LF
            ("# Auto-generated and updated by start_services.py" ++
             String LF
               ("" ++ String LF
                        (String.concat "" (map line_of env_vars))))).
  rewrite read_lines_from_plain by reflexivity.
  rewrite read_lines_from_plain by reflexivity.
  rewrite read_lines_from_plain by reflexivity.
  rewrite (read_lines_rendered _ Hok). reflexivity.
Qed.

(** Loading what [render] writes gives the dict back. *)
Lemma render_read_back (env_vars : Env) :
  NoDup (map fst env_vars) ->
  forallb entry_ok env_vars = true ->
  load_environment (Some (render env_vars)) = env_vars.
Proof.
  intros Hnd Hok. unfold load_environment.
  rewrite (render_lines _ Hok).
  cbn [fold_left].
  change (load_line []
            ("# LLM Orchestrator Configuration" ++ String LF ""))
    with (@nil (string * string)).
  change (load_line []
            ("# Auto-generated and updated by start_services.py" ++
             String LF ""))
    with (@nil (string * string)).
  change (load_line [] (String LF "")) with (@nil (string * string)).
  now rewrite (fold_load_rendered env_vars [] Hnd Hok).
Qed.

Lemma load_environment_ok (env_file : option string) :
  NoDup (map fst (load_environment env_file)) /\
  forallb entry_ok (load_environment env_file) = true.
Proof.
  destruct env_file as [content |]; simpl.
  - apply fold_load_line_ok; [apply read_lines_like | constructor |
                              reflexivity].
  - split; [constructor | reflexivity].
Qed.

End RenderFacts.



Section SetupFacts.

Import Service.
Import Vocabulary.
Open Scope string_scope.

Lemma needs_secret_usable (env_vars : Env) (key : string) :
  needs_secret env_vars key = false <->
  exists value, Py.dict_find key env_vars = Some value /\
                usable value = true.
Proof.
  unfold needs_secret, usable. destruct (Py.dict_find key env_vars) as [v |].
  - split.
    + intros H. exists v. split; [reflexivity |].
      now rewrite <- negb_orb, H.
    + intros [value [Heq H]]. inversion Heq; subst.
      rewrite <- negb_orb in H. now apply negb_true_iff in H.
  - split; [discriminate | intros [value [Heq _]]; discriminate].
Qed.

Lemma needs_secret_find (env_vars other : Env) (key : string) :
  Py.dict_find key env_vars = Py.dict_find key other ->
  needs_secret env_vars key = needs_secret other key.
Proof. unfold needs_secret. now intros ->. Qed.

(** *** The loop over the secrets *)

Lemma fold_fill_find (secrets : Env) :
  NoDup (map fst secrets) ->
  forall state name,
    Py.dict_find name (fst (fold_left fill_secret secrets state)) =
    if Py.mem name (map fst secrets) && needs_secret (fst state) name
    then Py.dict_find name secrets
    else Py.dict_find name (fst state).
Proof.
  induction secrets as [| [key value] secrets IH];
    intros Hnd [env_vars updated] name.
  - reflexivity.
  - inversion Hnd as [| k ks Hfresh Hnd']; subst.
    cbn [fold_left]. rewrite (IH Hnd').
    unfold Py.mem. cbn [map fst existsb Py.dict_find].
    fold (Py.mem name (map fst secrets)).
    destruct (String.eqb_spec name key) as [-> | Hne].
    + rewrite (mem_false _ _ Hfresh). cbn [andb orb fst].
      unfold fill_secret.
      destruct (needs_secret env_vars key); cbn [fst].
      * apply find_env_set_same.
      * reflexivity.
    + cbn [orb].
      assert (Hsame : Py.dict_find name
                        (fst (fill_secret (env_vars, updated) (key, value)))
                      = Py.dict_find name env_vars).
      { unfold fill_secret. destruct (needs_secret env_vars key); cbn [fst].
        - now apply find_env_set_other.
        - reflexivity. }
      rewrite (needs_secret_find _ env_vars name Hsame), Hsame.
      reflexivity.
Qed.

Lemma fold_fill_flag (secrets : Env) :
  forall env_vars,
    snd (fold_left fill_secret secrets (env_vars, true)) = true.
Proof.
  induction secrets as [| [key value] secrets IH]; intros env_vars.
  - reflexivity.
  - cbn [fold_left]. unfold fill_secret at 2.
    destruct (needs_secret env_vars key); apply IH.
Qed.

Lemma fold_fill_unchanged (secrets : Env) :
  forall env_vars,
    snd (fold_left fill_secret secrets (env_vars, false)) = false ->
    fold_left fill_secret secrets (env_vars, false) = (env_vars, false).
Proof.
  induction secrets as [| [key value] secrets IH]; intros env_vars H.
  - reflexivity.
  - cbn [fold_left] in *. unfold fill_secret at 2 in H.
    unfold fill_secret at 2.
    destruct (needs_secret env_vars key).
    + now rewrite fold_fill_flag in H.
    + now apply IH.
Qed.

Lemma fold_fill_noop (secrets : Env) (env_vars : Env) (updated : bool) :
  (forall name, In name (map fst secrets) ->
                needs_secret env_vars name = false) ->
  fold_left fill_secret secrets (env_vars, updated) = (env_vars, updated).
Proof.
  induction secrets as [| [key value] secrets IH]; intros H.
  - reflexivity.
  - cbn [fold_left]. unfold fill_secret at 2.
    rewrite (H key) by now left.
    apply IH. intros name Hin. apply H. now right.
Qed.

Lemma fold_fill_ok (secrets : Env) :
  Forall (fun secret : string * string =>
            key_ok (fst secret) = true /\ value_ok (snd secret) = true)
         secrets ->
  forall state,
    NoDup (map fst (fst state)) -> forallb entry_ok (fst state) = true ->
    NoDup (map fst (fst (fold_left fill_secret secrets state))) /\
    forallb entry_ok (fst (fold_left fill_secret secrets state)) = true.
Proof.
  induction 1 as [| [key value] secrets [Hk Hv] _ IH];
    intros [env_vars updated] Hnd Hok.
  - now split.
  - cbn [fold_left]. apply IH; unfold fill_secret;
      destruct (needs_secret env_vars key); cbn [fst]; try assumption.
    + now apply env_set_NoDup.
    + now apply env_set_ok.
Qed.

(** *** The two settings *)

Lemma ensure_find (key value : string) (state : Env * bool) (name : string) :
  Py.dict_find name (fst (ensure key value state)) =
  if String.eqb name key then Some value
  else Py.dict_find name (fst state).
Proof.
  destruct state as [env_vars updated]. unfold ensure. cbn [fst].
  destruct (String.eqb_spec name key) as [-> | Hne].
  - destruct (Py.dict_find key env_vars) as [current |] eqn:E.
    + destruct (String.eqb_spec current value) as [-> | _]; cbn [fst].
      * exact E.
      * apply find_env_set_same.
    + apply find_env_set_same.
  - destruct (Py.dict_find key env_vars) as [current |].
    + destruct (String.eqb current value); cbn [fst];
        [reflexivity | now apply find_env_set_other].
    + now apply find_env_set_other.
Qed.

Lemma ensure_unchanged (key value : string) (state : Env * bool) :
  snd (ensure key value state) = false -> ensure key value state = state.
Proof.
  destruct state as [env_vars updated]. unfold ensure.
  destruct (Py.dict_find key env_vars) as [current |].
  - destruct (String.eqb current value); [reflexivity | discriminate].
  - discriminate.
Qed.

Lemma ensure_noop (key value : string) (env_vars : Env) (updated : bool) :
  Py.dict_find key env_vars = Some value ->
  ensure key value (env_vars, updated) = (env_vars, updated).
Proof.
  intros H. unfold ensure. now rewrite H, String.eqb_refl.
Qed.

Lemma ensure_ok (key value : string) (state : Env * bool) :
  key_ok key = true -> value_ok value = true ->
  NoDup (map fst (fst state)) -> forallb entry_ok (fst state) = true ->
  NoDup (map fst (fst (ensure key value state))) /\
  forallb entry_ok (fst (ensure key value state)) = true.
Proof.
  destruct state as [env_vars updated]. intros Hk Hv Hnd Hok.
  unfold ensure.
  destruct (Py.dict_find key env_vars) as [current |];
    [destruct (String.eqb current value) |]; cbn [fst];
    try (split; assumption);
    (split; [now apply env_set_NoDup | now apply env_set_ok]).
Qed.

(** *** The whole of [setup_environment] *)

Lemma setup_environment_configure (env_file : option string)
      (gpu_profile environment : option string) (detected : string)
      (choice : Choice) :
  setup_environment env_file gpu_profile environment detected choice =
  let state := configure (load_environment env_file) gpu_profile
                         environment detected choice in
  (fst state, if snd state then Some (render (fst state)) else env_file).
Proof.
  unfold setup_environment, configure, resolved_gpu, resolved_environment.
  cbv zeta.
  now destruct (ensure _ _ (ensure _ _ _)).
Qed.

Lemma secrets_keys (choice : Choice) :
  map fst (generate_secrets choice) = secret_names.
Proof. reflexivity. Qed.

Lemma secret_names_NoDup : NoDup secret_names.
Proof.
  unfold secret_names.
  repeat (constructor; [simpl; intuition discriminate |]). constructor.
Qed.

(** The content of the dict [setup_environment] settles on, name by
    name. *)
Lemma configure_find (env_vars : Env) (gpu_profile environment : option string)
      (detected : string) (choice : Choice) (name : string) :
  Py.dict_find name
    (fst (configure env_vars gpu_profile environment detected choice)) =
  if String.eqb name "ENVIRONMENT"
  then Some (resolved_environment env_vars environment)
  else if String.eqb name "GPU_PROFILE"
  then Some (resolved_gpu env_vars gpu_profile detected)
  else if Py.mem name secret_names && needs_secret env_vars name
  then Py.dict_find name (generate_secrets choice)
  else Py.dict_find name env_vars.
Proof.
  unfold configure. rewrite !ensure_find.
  rewrite fold_fill_find by (rewrite secrets_keys; apply secret_names_NoDup).
  now rewrite secrets_keys.
Qed.

Lemma secrets_find (choice : Choice) (name : string) :
  In name secret_names ->
  exists value,
    Py.dict_find name (generate_secrets choice) = Some value /\
    usable value = true /\ all_chars solid value = true.
Proof.
  intros Hin. pose proof (generate_secrets_ok choice) as Hok.
  rewrite <- (secrets_keys choice) in Hin.
  pose proof (secret_names_NoDup) as Hnd.
  rewrite <- (secrets_keys choice) in Hnd.
  induction (generate_secrets choice) as [| [key value] secrets IH].
  - contradiction.
  - inversion Hok as [| s ss [Hu Hs] Hrest]; subst.
    inversion Hnd as [| k ks Hfresh Hnd']; subst.
    cbn [Py.dict_find]. destruct (String.eqb_spec name key) as [-> | Hne].
    + now exists value.
    + destruct Hin as [Heq | Hin]; [simpl in Heq; congruence |].
      now apply IH.
Qed.

Lemma not_secret_name (name : string) :
  In name secret_names -> name <> "ENVIRONMENT" /\ name <> "GPU_PROFILE".
Proof.
  unfold secret_names. simpl.
  intros H; split; intros ->; intuition discriminate.
Qed.

(** After [setup_environment] every secret has a value that is kept. *)
Lemma configure_secret (env_vars : Env)
      (gpu_profile environment : option string)
      (detected : string) (choice : Choice) (name : string) :
  In name secret_names ->
  needs_secret
    (fst (configure env_vars gpu_profile environment detected choice))
    name = false.
Proof.
  intros Hin. apply needs_secret_usable. rewrite configure_find.
  destruct (not_secret_name _ Hin) as [He Hg].
  apply String.eqb_neq in He, Hg. rewrite He, Hg.
  rewrite (proj2 (mem_In _ _) Hin). cbn [andb].
  destruct (needs_secret env_vars name) eqn:E.
  - destruct (secrets_find choice name Hin) as [value [Hf [Hu _]]].
    now exists value.
  - now apply needs_secret_usable.
Qed.

Lemma configure_unchanged (env_vars : Env)
      (gpu_profile environment : option string)
      (detected : string) (choice : Choice) :
  snd (configure env_vars gpu_profile environment detected choice) = false ->
  configure env_vars gpu_profile environment detected choice =
  (env_vars, false).
Proof.
  unfold configure. intros H.
  pose proof (ensure_unchanged _ _ _ H) as Hfirst.
  rewrite Hfirst in H |- *.
  pose proof (ensure_unchanged _ _ _ H) as Hsecond.
  rewrite Hsecond in H |- *.
  now apply fold_fill_unchanged.
Qed.

Lemma secrets_entries_ok (choice : Choice) :
  Forall (fun secret : string * string =>
            key_ok (fst secret) = true /\ value_ok (snd secret) = true)
         (generate_secrets choice).
Proof.
  pose proof (generate_secrets_ok choice) as Hok.
  assert (Hkeys : forallb key_ok (map fst (generate_secrets choice)) = true)
    by reflexivity.
  induction (generate_secrets choice) as [| [key value] secrets IH].
  - constructor.
  - inversion Hok as [| s ss [_ Hs] Hrest]; subst.
    simpl in Hkeys. apply andb_prop in Hkeys. destruct Hkeys as [Hk Hks].
    constructor; [split; [exact Hk | now apply solid_value_ok] |].
    now apply IH.
Qed.

Lemma resolved_gpu_ok (env_vars : Env) (gpu_profile : option string)
      (detected : string) :
  forallb entry_ok env_vars = true ->
  value_ok (Router.get_or gpu_profile "") = true ->
  value_ok detected = true ->
  value_ok (resolved_gpu env_vars gpu_profile detected) = true.
Proof.
  intros Hok Hg Hd. unfold resolved_gpu.
  destruct (falsy gpu_profile); [| exact Hg].
  destruct (Py.dict_find "GPU_PROFILE" env_vars) as [v |] eqn:E; simpl.
  - exact (find_ok _ _ _ Hok E).
  - exact Hd.
Qed.

Lemma resolved_environment_ok (env_vars : Env) (environment : option string) :
  forallb entry_ok env_vars = true ->
  value_ok (Router.get_or environment "") = true ->
  value_ok (resolved_environment env_vars environment) = true.
Proof.
  intros Hok He. unfold resolved_environment.
  destruct (falsy environment); [| exact He].
  destruct (Py.dict_find "ENVIRONMENT" env_vars) as [v |] eqn:E; simpl.
  - exact (find_ok _ _ _ Hok E).
  - reflexivity.
Qed.

Lemma configure_ok (env_vars : Env) (gpu_profile environment : option string)
      (detected : string) (choice : Choice) :
  NoDup (map fst env_vars) -> forallb entry_ok env_vars = true ->
  value_ok (Router.get_or gpu_profile "") = true ->
  value_ok (Router.get_or environment "") = true ->
  value_ok detected = true ->
  NoDup (map fst
           (fst (configure env_vars gpu_profile environment detected
                           choice))) /\
  forallb entry_ok
    (fst (configure env_vars gpu_profile environment detected choice))
  = true.
Proof.
  intros Hnd Hok Hg He Hd. unfold configure.
  destruct (fold_fill_ok _ (secrets_entries_ok choice) (env_vars, false)
                         Hnd Hok) as [Hnd1 Hok1].
  destruct (ensure_ok "GPU_PROFILE"
              (resolved_gpu env_vars gpu_profile detected) _
              eq_refl (resolved_gpu_ok _ _ _ Hok Hg Hd) Hnd1 Hok1)
    as [Hnd2 Hok2].
  apply ensure_ok; try assumption; [reflexivity |].
  now apply resolved_environment_ok.
Qed.

(** A second run finds nothing to do. *)
Lemma configure_settled (env_vars : Env)
      (gpu_profile environment : option string)
      (detected detected' : string) (choice choice' : Choice) :
  let settled :=
    fst (configure env_vars gpu_profile environment detected choice) in
  configure settled gpu_profile environment detected' choice' =
  (settled, false).
Proof.
  intros settled.
  assert (Hg : Py.dict_find "GPU_PROFILE" settled =
               Some (resolved_gpu env_vars gpu_profile detected)).
  { unfold settled. now rewrite configure_find. }
  assert (He : Py.dict_find "ENVIRONMENT" settled =
               Some (resolved_environment env_vars environment)).
  { unfold settled. now rewrite configure_find. }
  assert (Hg' : resolved_gpu settled gpu_profile detected' =
                resolved_gpu env_vars gpu_profile detected).
  { unfold resolved_gpu at 1. rewrite Hg. unfold resolved_gpu.
    now destruct (falsy gpu_profile). }
  assert (He' : resolved_environment settled environment =
                resolved_environment env_vars environment).
  { unfold resolved_environment at 1. rewrite He.
    unfold resolved_environment. now destruct (falsy environment). }
  unfold configure. rewrite Hg', He'.
  rewrite fold_fill_noop.
  - rewrite (ensure_noop _ _ _ _ Hg). now rewrite (ensure_noop _ _ _ _ He).
  - intros name Hin. rewrite secrets_keys in Hin.
    now apply configure_secret.
Qed.

End SetupFacts.

Section ServiceProperties.

Import Service.
Import Vocabulary.
Open Scope string_scope.

(** X18. Whatever characters are drawn, [generate_secrets] gives the
    nine names in the order of the dict literal with values of 16, 16,
    12, 32, 38, 38, 16, 32 and 32 characters, and every value is one
    that [setup_environment] keeps on a later run (not empty, not
    starting with [your_]) and that a line of the file holds unchanged
    (one line, no white space at its end). *)
Theorem generate_secrets_kept (choice : Choice) :
  map fst (generate_secrets choice) = secret_names /\
  map (fun secret : string * string => String.length (snd secret))
      (generate_secrets choice)
  = [16; 16; 12; 32; 38; 38; 16; 32; 32]%nat /\
  Forall (fun secret : string * string =>
            usable (snd secret) = true /\ value_ok (snd secret) = true)
         (generate_secrets choice).
Proof.
  split; [reflexivity |]. split.
  - unfold generate_secrets. cbn [map snd].
    change ("sk-lf-" ++ generate_key choice 76 32)
      with (String "s" (String "k" (String "-" (String "l" (String "f"
             (String "-" (generate_key choice 76 32))))))).
    change ("pk-lf-" ++ generate_key choice 108 32)
      with (String "p" (String "k" (String "-" (String "l" (String "f"
             (String "-" (generate_key choice 108 32))))))).
    cbn [String.length]. now rewrite !generate_key_length.
  - pose proof (generate_secrets_ok choice) as Hok.
    induction Hok as [| secret secrets [Hu Hs] _ IH]; constructor.
    + split; [exact Hu | now apply solid_value_ok].
    + exact IH.
Qed.

(** X19. Whatever the file holds, and when there is none, the dict
    [load_environment] returns has each name once, every name is free of
    equals signs and starts with neither white space nor [#], every
    value is one line with no white space at its end; and writing this
    dict the way [setup_environment] does and loading it again gives
    the same dict. *)
Theorem load_environment_normal (env_file : option string) :
  let env_vars := load_environment env_file in
  NoDup (map fst env_vars) /\
  forallb entry_ok env_vars = true /\
  load_environment (Some (render env_vars)) = env_vars.
Proof.
  intros env_vars. destruct (load_environment_ok env_file) as [Hnd Hok].
  split; [exact Hnd |]. split; [exact Hok |].
  now apply render_read_back.
Qed.

(** X20. The file [setup_environment] writes is read back by
    [load_environment] as the dict that was written, entries and order:
    this holds for every dict with distinct names whose names are one
    line with no equals sign and no white space or [#] at the start, and
    whose values are one line with no white space at the end. *)
Theorem load_environment_render (env_vars : Env) :
  NoDup (map fst env_vars) ->
  forallb entry_ok env_vars = true ->
  load_environment (Some (render env_vars)) = env_vars.
Proof. apply render_read_back. Qed.

(** X21. What [setup_environment] returns, for every file, arguments,
    detected profile and random draws: each of the nine secrets has a
    value that is not empty and is no placeholder, which is the value
    of the file when that one was such and the generated one
    otherwise; [GPU_PROFILE] and [ENVIRONMENT] hold the argument when
    one is given, else the value of the file, else the detected profile
    and [private]; every other name has the value of the file; and the
    file is left as it was, the dict being the one loaded, or holds the
    rendering of the returned dict. *)
Theorem setup_environment_settles (env_file : option string)
        (gpu_profile environment : option string) (detected : string)
        (choice : Choice) :
  let before := load_environment env_file in
  let result :=
    setup_environment env_file gpu_profile environment detected choice in
  (forall name, In name secret_names ->
     exists value,
       Py.dict_find name (fst result) = Some value /\
       usable value = true /\
       Some value = if needs_secret before name
                    then Py.dict_find name (generate_secrets choice)
                    else Py.dict_find name before) /\
  Py.dict_find "GPU_PROFILE" (fst result) =
    Some (if falsy gpu_profile
          then Router.get_or (Py.dict_find "GPU_PROFILE" before) detected
          else Router.get_or gpu_profile "") /\
  Py.dict_find "ENVIRONMENT" (fst result) =
    Some (if falsy environment
          then Router.get_or (Py.dict_find "ENVIRONMENT" before) "private"
          else Router.get_or environment "") /\
  (forall name, ~ In name secret_names ->
     name <> "GPU_PROFILE" -> name <> "ENVIRONMENT" ->
     Py.dict_find name (fst result) = Py.dict_find name before) /\
  (snd result = Some (render (fst result)) \/
   (snd result = env_file /\ fst result = before)).
Proof.
  intros before result. unfold result.
  rewrite setup_environment_configure. fold before. cbn [fst snd].
  split; [| split; [| split; [| split]]].
  - intros name Hin.
    pose proof (configure_secret before gpu_profile environment detected
                                 choice name Hin) as Hkept.
    apply needs_secret_usable in Hkept.
    destruct Hkept as [value [Hfind Husable]].
    exists value. split; [exact Hfind |]. split; [exact Husable |].
    rewrite <- Hfind, configure_find.
    destruct (not_secret_name _ Hin) as [He Hg].
    apply String.eqb_neq in He, Hg. rewrite He, Hg.
    now rewrite (proj2 (mem_In _ _) Hin).
  - now rewrite configure_find.
  - now rewrite configure_find.
  - intros name Hsecret Hg He. rewrite configure_find.
    apply String.eqb_neq in He, Hg. rewrite He, Hg.
    now rewrite (mem_false _ _ Hsecret).
  - destruct (snd (configure before gpu_profile environment detected
                             choice)) eqn:E.
    + now left.
    + right. split; [reflexivity |].
      now rewrite (configure_unchanged _ _ _ _ _ E).
Qed.

(** X22. [setup_environment] is idempotent: when the arguments and the
    detected profile are one line with no white space at the end, a
    second call on the file the first call leaves behind, with the same
    arguments, returns the same dict and leaves the file as it is,
    whatever is detected and drawn the second time. *)
Theorem setup_environment_idempotent (env_file : option string)
        (gpu_profile environment : option string)
        (detected detected' : string) (choice choice' : Choice) :
  value_ok (Router.get_or gpu_profile "") = true ->
  value_ok (Router.get_or environment "") = true ->
  value_ok detected = true ->
  let first :=
    setup_environment env_file gpu_profile environment detected choice in
  setup_environment (snd first) gpu_profile environment detected' choice'
  = first.
Proof.
  intros Hg He Hd first.
  set (state := configure (load_environment env_file) gpu_profile
                          environment detected choice).
  assert (Hfirst : first =
                   (fst state,
                    if snd state then Some (render (fst state))
                    else env_file))
    by apply setup_environment_configure.
  destruct (load_environment_ok env_file) as [Hnd Hok].
  destruct (configure_ok _ gpu_profile environment detected choice
                         Hnd Hok Hg He Hd) as [Hnd1 Hok1].
  fold state in Hnd1, Hok1.
  assert (Hload : load_environment (snd first) = fst state).
  { rewrite Hfirst. cbn [snd]. destruct (snd state) eqn:E.
    - now apply render_read_back.
    - unfold state in E |- *.
      now rewrite (configure_unchanged _ _ _ _ _ E). }
  pose proof (configure_settled (load_environment env_file) gpu_profile
                environment detected detected' choice choice') as Hsettled.
  cbv zeta in Hsettled. fold state in Hsettled.
  rewrite setup_environment_configure, Hload. cbv zeta.
  rewrite Hsettled. cbn [fst snd]. now rewrite Hfirst.
Qed.

End ServiceProperties.

Section ServiceExamples.

Import Service.
Import Vocabulary.
Import Cases.
Open Scope string_scope.

Lemma load_environment_render_witness :
  NoDup (map fst settings) /\
  forallb entry_ok settings = true /\
  load_environment (Some (render settings)) = settings.
Proof.
  assert (Hnd : NoDup (map fst settings)).
  { unfold settings.
    repeat (constructor; [simpl; intuition discriminate |]). constructor. }
  assert (Hok : forallb entry_ok settings = true) by reflexivity.
  split; [exact Hnd |]. split; [exact Hok |].
  exact (load_environment_render settings Hnd Hok).
Defined.

Lemma setup_environment_idempotent_witness :
  let first :=
    setup_environment (Some env_file) None (Some "public") "cpu"
                      round_choice in
  value_ok (Router.get_or (@None string) "") = true /\
  value_ok (Router.get_or (Some "public") "") = true /\
  value_ok "cpu" = true /\
  setup_environment (snd first) None (Some "public") "nvidia" round_choice
  = first.
Proof.
  intros first.
  split; [reflexivity |]. split; [reflexivity |]. split; [reflexivity |].
  exact (setup_environment_idempotent (Some env_file) None (Some "public")
           "cpu" "nvidia" round_choice round_choice
           eq_refl eq_refl eq_refl).
Defined.

(** The file of the examples: the name keeps the space before the
    equals sign, the value the space after it, and the later of two
    lines for a name wins. *)
Example load_environment_sample :
  load_environment (Some env_file) =
  [ ("OLLAMA_HOST ", " localhost");
    ("POSTGRES_PASSWORD", "your_password");
    ("PORT", "9090") ].
Proof. reflexivity. Qed.

(** On that file the placeholder is replaced in place, and the other
    secrets and the two settings are added after the entries of the
    file. *)
Example setup_environment_sample :
  let result :=
    setup_environment (Some env_file) None (Some "public") "cpu"
                      round_choice in
  map fst (fst result) =
  [ "OLLAMA_HOST "; "POSTGRES_PASSWORD"; "PORT"; "NEO4J_PASSWORD";
    "N8N_BASIC_AUTH_PASSWORD"; "WEBUI_SECRET_KEY"; "LANGFUSE_SECRET_KEY";
    "LANGFUSE_PUBLIC_KEY"; "LANGFUSE_SALT"; "JWT_SECRET"; "ENCRYPTION_KEY";
    "GPU_PROFILE"; "ENVIRONMENT" ] /\
  Py.dict_find "POSTGRES_PASSWORD" (fst result) = Some "abcdefghijklmnop" /\
  Py.dict_find "GPU_PROFILE" (fst result) = Some "cpu" /\
  snd result = Some (render (fst result)).
Proof. repeat split; reflexivity. Qed.

End ServiceExamples.
